(** * Wozz: quantity parsing, manifest extraction, cost diffing,
      waste detection and aggregation

    A shallow embedding of the cost engine of the Wozz repository
    ([action/audit_pr.py], [scripts/generate-report.py],
    [scripts/analyze-audit.py]) together with the properties its
    specification states about it.

    Conventions of the embedding.
    - Python [str] values are [string]s over ASCII; the character
      predicates below ([is_space], [is_digit]) are the ASCII part of
      [str.isspace] and of the [\s], [\d] classes of [re], and
      [is_c_space] is the whitespace [float()] skips around a literal.
    - Python [float] values are idealised as exact rationals ([Q]):
      rounding and overflow are abstracted away, and results are compared
      with [Qeq].  The literals [inf], [infinity] and [nan] accepted by
      [float()] denote no rational; reading one is reported as the separate
      outcome [NonFinite], never mixed up with a [ValueError].
    - A Python exception is an outcome of the [result] monad.
    - JSON objects read with [.get(key, default)] are records with
      optional fields, or [gmap]s where the code treats them as maps. *)

From Stdlib Require Import QArith Qpower ZArith Lia Lqa Ascii.
From stdpp Require Import base strings gmap list pretty.

Local Open Scope string_scope.
Local Open Scope Z_scope.
Local Open Scope Q_scope.
Local Open Scope list_scope.

(** ** Python primitives *)

Module Py.

Inductive exn : Type :=
| ValueError (payload : string).

Inductive result (A : Type) : Type :=
| Ok (a : A)
| Raise (e : exn)
| NonFinite.
Arguments Ok {A} a.
Arguments Raise {A} e.
Arguments NonFinite {A}.

Definition bind {A B : Type} (r : result A) (k : A → result B) : result B :=
  match r with
  | Ok a => k a
  | Raise e => Raise e
  | NonFinite => NonFinite
  end.

(** [returns r q]: the call returned the number [q] (up to [Qeq]). *)
Definition returns (r : result Q) (q : Q) : Prop :=
  match r with
  | Ok a => a == q
  | _ => False
  end.

Definition raises {A : Type} (r : result A) : Prop :=
  match r with
  | Raise _ => True
  | _ => False
  end.

(** Comparisons of floats, as booleans: [a > b] and [a < b]. *)
Definition Qgt_b (a b : Q) : bool := negb (Qle_bool a b).
Definition Qlt_b (a b : Q) : bool := negb (Qle_bool b a).

(** [max(0, a)] and [abs(a)] *)
Definition Qmax0 (a : Q) : Q := if Qlt_b a 0 then 0 else a.
Definition Qabs_b (a : Q) : Q := if Qlt_b a 0 then - a else a.

(** *** Characters and strings *)

Definition code (c : ascii) : nat := nat_of_ascii c.

(** ASCII part of [str.isspace]: TAB..CR, FS..US and the space. *)
Definition is_space (c : ascii) : bool :=
  let n := code c in
  ((9 <=? n)%nat && (n <=? 13)%nat) || ((28 <=? n)%nat && (n <=? 32)%nat).

Definition is_digit (c : ascii) : bool :=
  let n := code c in (48 <=? n)%nat && (n <=? 57)%nat.

Definition digit_val (c : ascii) : N := N.of_nat (code c - 48).

Definition chr_eqb (a b : ascii) : bool := Ascii.eqb a b.

(** The whitespace that [float()] passes over around an ASCII literal:
    TAB..CR and the space (C's [isspace]). *)
Definition is_c_space (c : ascii) : bool :=
  let n := code c in
  ((9 <=? n)%nat && (n <=? 13)%nat) || (n =? 32)%nat.

Fixpoint lstrip_by (p : ascii → bool) (s : list ascii) : list ascii :=
  match s with
  | c :: t => if p c then lstrip_by p t else s
  | [] => []
  end.

Definition rstrip_by (p : ascii → bool) (s : list ascii) : list ascii :=
  rev (lstrip_by p (rev s)).

Definition strip_by (p : ascii → bool) (s : list ascii) : list ascii :=
  rstrip_by p (lstrip_by p s).

(** [str.strip()] *)
Definition strip (s : list ascii) : list ascii := strip_by is_space s.

Fixpoint starts_with (p s : list ascii) : bool :=
  match p, s with
  | [], _ => true
  | a :: p', b :: s' => chr_eqb a b && starts_with p' s'
  | _ :: _, [] => false
  end.

(** [s.endswith(suf)] *)
Definition ends_with (suf s : list ascii) : bool :=
  starts_with (rev suf) (rev s).

(** [s[:-n]] for [n > 0] *)
Definition drop_last (n : nat) (s : list ascii) : list ascii :=
  take (length s - n) s.

Definition chars (s : string) : list ascii := String.list_ascii_of_string s.
Definition str (s : list ascii) : string := String.string_of_list_ascii s.

(** ASCII lower-casing, for the case-insensitive [inf]/[nan] literals. *)
Definition lower (c : ascii) : ascii :=
  let n := code c in
  if (65 <=? n)%nat && (n <=? 90)%nat then ascii_of_nat (n + 32) else c.

(** *** [float(s)] *)

(** [digits acc cnt s] reads [(["_"] digit)*]: the accumulated value, the
    number of digits read and the unread rest. *)
Fixpoint digits (acc : N) (cnt : nat) (s : list ascii) : N * nat * list ascii :=
  match s with
  | c :: t =>
      if is_digit c then digits (acc * 10 + digit_val c)%N (S cnt) t
      else if chr_eqb c "_" then
        match t with
        | d :: t' =>
            if is_digit d then digits (acc * 10 + digit_val d)%N (S cnt) t'
            else (acc, cnt, s)
        | [] => (acc, cnt, s)
        end
      else (acc, cnt, s)
  | [] => (acc, cnt, s)
  end.

(** [digitpart ::= digit (["_"] digit)*], continuing the value [acc]. *)
Definition digitpart (acc : N) (s : list ascii) : option (N * nat * list ascii) :=
  match s with
  | c :: t => if is_digit c then Some (digits (acc * 10 + digit_val c)%N 1 t) else None
  | [] => None
  end.

(** Optional exponent [("e"|"E") ["+"|"-"] digitpart], then end of input. *)
Definition exponent (s : list ascii) : option Z :=
  match s with
  | [] => Some 0%Z
  | c :: t =>
      if chr_eqb (lower c) "e" then
        match t with
        | sg :: t' =>
            if chr_eqb sg "-" then
              match digitpart 0 t' with
              | Some (e, _, []) => Some (- Z.of_N e)%Z
              | _ => None
              end
            else if chr_eqb sg "+" then
              match digitpart 0 t' with
              | Some (e, _, []) => Some (Z.of_N e)
              | _ => None
              end
            else
              match digitpart 0 t with
              | Some (e, _, []) => Some (Z.of_N e)
              | _ => None
              end
        | [] => None
        end
      else None
  end.

(** The value [m * 10^e]. *)
Definition scale10 (m : N) (e : Z) : Q := inject_Z (Z.of_N m) * (10 # 1) ^ e.

(** An unsigned finite literal:
    [digitpart ["." [digitpart]] [exponent] | "." digitpart [exponent]]. *)
Definition unsigned_float (s : list ascii) : option Q :=
  match digitpart 0 s with
  | Some (i, _, r) =>
      match r with
      | c :: r' =>
          if chr_eqb c "." then
            match digitpart i r' with
            | Some (m, k, r'') =>
                match exponent r'' with
                | Some e => Some (scale10 m (e - Z.of_nat k))
                | None => None
                end
            | None =>
                match exponent r' with
                | Some e => Some (scale10 i e)
                | None => None
                end
            end
          else
            match exponent r with
            | Some e => Some (scale10 i e)
            | None => None
            end
      | [] => Some (scale10 i 0)
      end
  | None =>
      match s with
      | c :: r' =>
          if chr_eqb c "." then
            match digitpart 0 r' with
            | Some (m, k, r'') =>
                match exponent r'' with
                | Some e => Some (scale10 m (e - Z.of_nat k))
                | None => None
                end
            | None => None
            end
          else None
      | [] => None
      end
  end.

Definition is_nonfinite_word (s : list ascii) : bool :=
  let w := str (map lower s) in
  String.eqb w "inf" || String.eqb w "infinity" || String.eqb w "nan".

(** The literal after the surrounding whitespace is removed. *)
Definition float_of_stripped (orig : string) (s : list ascii) : result Q :=
  let body neg r :=
    if is_nonfinite_word r then NonFinite
    else match unsigned_float r with
         | Some q => Ok (if neg : bool then - q else q)
         | None => Raise (ValueError orig)
         end in
  match s with
  | c :: r =>
      if chr_eqb c "-" then body true r
      else if chr_eqb c "+" then body false r
      else body false s
  | [] => Raise (ValueError orig)
  end.

(** [float(s)] on a string. *)
Definition float (s : list ascii) : result Q :=
  float_of_stripped (str s) (strip_by is_c_space s).

(** *** [int(s)] *)

(** The default of [sys.get_int_max_str_digits()]: a decimal string with
    more digits is refused by [int()]. *)
Definition int_max_str_digits : nat := 4300.

(** The number written by a run of ASCII digits. *)
Definition digits_value (s : list ascii) : Z :=
  Z.of_N (fold_left (λ acc c, (acc * 10 + digit_val c)%N) s 0%N).

(** [int(s)] on a run of ASCII digits, as captured by [(\d+)]:
    [ValueError] when the run is longer than the limit. *)
Definition int_of_digits (s : list ascii) : result Z :=
  if (length s <=? int_max_str_digits)%nat then Ok (digits_value s)
  else Raise (ValueError (str s)).

(** [int(s)] on a string: whitespace around, a sign, digits with single
    underscores between them; the limit counts the digits only. *)
Definition int (s : list ascii) : result Z :=
  let body neg r :=
    match digitpart 0 r with
    | Some (n, cnt, []) =>
        if (cnt <=? int_max_str_digits)%nat
        then Ok (if neg : bool then - Z.of_N n else Z.of_N n)%Z
        else Raise (ValueError (str s))
    | _ => Raise (ValueError (str s))
    end in
  match strip_by is_c_space s with
  | c :: r =>
      if chr_eqb c "-" then body true r
      else if chr_eqb c "+" then body false r
      else body false (c :: r)
  | [] => Raise (ValueError (str s))
  end.

End Py.
Import Py.

(** ** The fragment of Python's [re] used by the extractor

    A backtracking matcher with the priorities of [re]: the left branch of
    an alternative first, a greedy repetition longest first, a lazy one
    shortest first.  There is one capture group per pattern. *)

Module Re.

Inductive regex : Type :=
| Eps
| Chr (p : ascii → bool)
| Cat (a b : regex)
| Alt (a b : regex)
| Star (greedy : bool) (a : regex)
| Group (a : regex)
| Bos.

Record st : Type := { pos : nat; rest : list ascii; cap : option (list ascii) }.

(** [mtch r s k]: match [r] at state [s], then continue with [k]; the
    first success in priority order wins.  An iteration of a repetition
    that consumes nothing is not retried. *)
Fixpoint mtch {R : Type} (r : regex) (s : st) (k : st → option R) {struct r} : option R :=
  match r with
  | Eps => k s
  | Chr p =>
      match rest s with
      | c :: t => if p c then k {| pos := S (pos s); rest := t; cap := cap s |} else None
      | [] => None
      end
  | Cat a b => mtch a s (λ s', mtch b s' k)
  | Alt a b =>
      match mtch a s k with
      | Some x => Some x
      | None => mtch b s k
      end
  | Star greedy a =>
      (fix loop (n : nat) (s : st) (k : st → option R) {struct n} : option R :=
         if greedy then
           match
             match n with
             | O => None
             | S n' =>
                 mtch a s (λ s', if (length (rest s') <? length (rest s))%nat
                                 then loop n' s' k else None)
             end
           with
           | Some x => Some x
           | None => k s
           end
         else
           match k s with
           | Some x => Some x
           | None =>
               match n with
               | O => None
               | S n' =>
                   mtch a s (λ s', if (length (rest s') <? length (rest s))%nat
                                   then loop n' s' k else None)
               end
           end) (S (length (rest s))) s k
  | Group a =>
      mtch a s (λ s', k {| pos := pos s'; rest := rest s';
                           cap := Some (take (pos s' - pos s) (rest s)) |})
  | Bos => if (pos s =? 0)%nat then k s else None
  end.

(** [re.search(r, s)]: the leftmost match; its value is group 1. *)
Fixpoint search_from (r : regex) (p : nat) (s : list ascii) : option (option (list ascii)) :=
  match mtch r {| pos := p; rest := s; cap := None |} (λ s', Some (cap s')) with
  | Some c => Some c
  | None =>
      match s with
      | _ :: t => search_from r (S p) t
      | [] => None
      end
  end.

Definition search (r : regex) (s : list ascii) : option (option (list ascii)) :=
  search_from r 0 s.

(** [match.group(1)]; the group lies on the mandatory path of every
    pattern below. *)
Definition group1 (m : option (list ascii)) : list ascii := default [] m.

(** Pattern syntax. *)
Definition lit (s : string) : regex :=
  fold_right (λ c r, Cat (Chr (chr_eqb c)) r) Eps (chars s).
Definition opt (a : regex) : regex := Alt a Eps.
Definition plus (a : regex) : regex := Cat a (Star true a).
Definition star (a : regex) : regex := Star true a.
Definition lazy_star (a : regex) : regex := Star false a.
Fixpoint rseq (rs : list regex) : regex :=
  match rs with
  | [] => Eps
  | [r] => r
  | r :: rs' => Cat r (rseq rs')
  end.

Definition newline : ascii := ascii_of_nat 10.
Definition ws : regex := Chr is_space.                     (* \s *)
Definition nl : regex := Chr (chr_eqb newline).            (* \n *)
Definition not_nl : regex := Chr (λ c, negb (chr_eqb c newline)).
Definition is_quote (c : ascii) : bool :=
  chr_eqb c (ascii_of_nat 34) || chr_eqb c (ascii_of_nat 39).
Definition quote : regex := Chr is_quote.
Definition value_char : regex :=
  Chr (λ c, negb (is_quote c || chr_eqb c newline)).
Definition is_alpha (c : ascii) : bool :=
  let n := code c in
  ((65 <=? n)%nat && (n <=? 90)%nat) || ((97 <=? n)%nat && (n <=? 122)%nat).
Definition digit : regex := Chr is_digit.                  (* \d *)

End Re.

(** ** [action/audit_pr.py] *)

Module AuditPr.

(** Pricing constants (monthly). *)
Definition MEMORY_COST_PER_GB : Q := 4.
Definition CPU_COST_PER_CORE : Q := 20.

(** [parse_resource_value(value, resource_type)] *)
Definition parse_resource_value (value resource_type : string) : result Q :=
  match chars value with
  | [] => Ok 0
  | v0 =>
      let value := strip v0 in
      if String.eqb resource_type "memory" then
        if ends_with (chars "Gi") value then float (drop_last 2 value)
        else if ends_with (chars "G") value then float (drop_last 1 value)
        else if ends_with (chars "Mi") value then
          bind (float (drop_last 2 value)) (λ x, Ok (x / 1024))
        else if ends_with (chars "M") value then
          bind (float (drop_last 1 value)) (λ x, Ok (x / 1024))
        else if ends_with (chars "Ki") value then
          bind (float (drop_last 2 value)) (λ x, Ok (x / (1024 * 1024)))
        else if ends_with (chars "K") value then
          bind (float (drop_last 1 value)) (λ x, Ok (x / (1024 * 1024)))
        else bind (float value) (λ x, Ok (x / (1024 * 1024 * 1024)))
      else if String.eqb resource_type "cpu" then
        if ends_with (chars "m") value then
          bind (float (drop_last 1 value)) (λ x, Ok (x / 1000))
        else float value
      else Ok 0
  end.

(** [calculate_annual_cost(memory_gb, cpu_cores)] *)
Definition calculate_annual_cost (memory_gb cpu_cores : Q) : Q :=
  let monthly_cost := memory_gb * MEMORY_COST_PER_GB + cpu_cores * CPU_COST_PER_CORE in
  monthly_cost * 12.

(** *** [extract_resources_from_yaml] *)

Record ResourceSpec : Type := {
  memory : Q;
  cpu : Q;
  min_replicas : Z;
  max_replicas : Z;
  kind : string
}.

Import Re.

(** [requests:\s*\n(?:[^\n]*\n)*?\s*KEY:\s*[q]?([^q\n]+)[q]?], where [q]
    stands for the two quote characters. *)
Definition requests_pattern (key : string) : regex :=
  rseq [ lit "requests:"; star ws; nl; lazy_star (Cat (star not_nl) nl);
        star ws; lit key; lit ":"; star ws; opt quote;
        Group (plus value_char); opt quote ].
Definition memory_pattern : regex := requests_pattern "memory".
Definition cpu_pattern : regex := requests_pattern "cpu".

(** [metadata:\s*\n\s*name:\s*[q]?([a-zA-Z0-9-]+)[q]?] *)
Definition name_pattern : regex :=
  rseq [ lit "metadata:"; star ws; nl; star ws; lit "name:"; star ws; opt quote;
        Group (plus (Chr (λ c, is_alpha c || is_digit c || chr_eqb c "-")));
        opt quote ].

(** [kind:\s*([A-Za-z]+)] *)
Definition kind_pattern : regex :=
  rseq [ lit "kind:"; star ws; Group (plus (Chr is_alpha)) ].

(** [(?:^|\n)replicas:\s*(\d+)] *)
Definition replicas_pattern : regex :=
  rseq [ Alt Bos nl; lit "replicas:"; star ws; Group (plus digit) ].

(** [minReplicas:\s*(\d+)] and [maxReplicas:\s*(\d+)] *)
Definition min_replicas_pattern : regex :=
  rseq [ lit "minReplicas:"; star ws; Group (plus digit) ].
Definition max_replicas_pattern : regex :=
  rseq [ lit "maxReplicas:"; star ws; Group (plus digit) ].

(** [s.split(sep)] for a non-empty separator: [skip] counts the
    characters of a separator still to be passed over. *)
Fixpoint split_go (sep : list ascii) (skip : nat) (cur : list ascii) (s : list ascii)
  : list (list ascii) :=
  match s with
  | [] => [rev cur]
  | c :: t =>
      match skip with
      | S n => split_go sep n cur t
      | O =>
          if starts_with sep s then rev cur :: split_go sep (length sep - 1) [] t
          else split_go sep 0 (c :: cur) t
      end
  end.
Definition split (sep s : list ascii) : list (list ascii) := split_go sep 0 [] s.

(** The separator: a line made of three dashes. *)
Definition doc_separator : list ascii := (newline :: chars "---" ++ [newline])%list.

(** [enumerate(documents)] *)
Definition enumerate {A : Type} (l : list A) : list (nat * A) := zip (List.seq 0%nat (length l)) l.

(** The body of the loop over the documents: [None] when the document
    contributes no entry, otherwise the key and the entry stored. *)
Definition extract_document (file_path : string) (doc_index : nat) (document : list ascii)
  : result (option (string * ResourceSpec)) :=
  match strip document with
  | [] => Ok None
  | _ =>
      let resource_name :=
        match search name_pattern document with
        | Some m => str (group1 m)
        | None => "resource-" +:+ pretty doc_index
        end in
      let resource_kind :=
        match search kind_pattern document with
        | Some m => str (group1 m)
        | None => "Unknown"
        end in
      let memory_match := search memory_pattern document in
      let cpu_match := search cpu_pattern document in
      if bool_decide (is_Some memory_match) || bool_decide (is_Some cpu_match) then
        bind (match memory_match with
              | Some m => parse_resource_value (str (group1 m)) "memory"
              | None => Ok 0
              end) (λ memory_gb,
        bind (match cpu_match with
              | Some m => parse_resource_value (str (group1 m)) "cpu"
              | None => Ok 0
              end) (λ cpu_cores,
        bind (if String.eqb resource_kind "HorizontalPodAutoscaler" then
                let min_match := search min_replicas_pattern document in
                let max_match := search max_replicas_pattern document in
                bind (match min_match with
                      | Some m => int_of_digits (group1 m)
                      | None => Ok 1%Z
                      end) (λ min_replicas,
                bind (match max_match with
                      | Some m => int_of_digits (group1 m)
                      | None => Ok 1%Z
                      end) (λ max_replicas,
                Ok (min_replicas, max_replicas)))
              else
                match search replicas_pattern document with
                | Some m =>
                    bind (int_of_digits (group1 m)) (λ replicas, Ok (replicas, replicas))
                | None => Ok (1%Z, 1%Z)
                end) (λ replica_range,
        Ok (Some (resource_name +:+ "@" +:+ file_path,
                  {| memory := memory_gb; cpu := cpu_cores;
                     min_replicas := replica_range.1; max_replicas := replica_range.2;
                     kind := resource_kind |})))))
      else Ok None
  end.

(** One turn of the loop: the dictionary after the document. *)
Definition extract_step (file_path : string) (acc : result (gmap string ResourceSpec))
    (d : nat * list ascii) : result (gmap string ResourceSpec) :=
  bind acc (λ resources,
    bind (extract_document file_path d.1 d.2) (λ entry,
      Ok (match entry with
          | Some (key, spec) => <[key := spec]> resources
          | None => resources
          end))).

(** [extract_resources_from_yaml(yaml_content, file_path)] *)
Definition extract_resources_from_yaml (yaml_content file_path : string)
  : result (gmap string ResourceSpec) :=
  let documents := split doc_separator (chars yaml_content) in
  fold_left (extract_step file_path) (enumerate documents) (Ok ∅).

(** *** [analyze_pr_costs] *)

Record CostChange : Type := {
  resource : string;
  file : string;
  old_memory : Q;
  new_memory : Q;
  old_cpu : Q;
  new_cpu : Q;
  old_min_replicas : Z;
  old_max_replicas : Z;
  new_min_replicas : Z;
  new_max_replicas : Z;
  min_cost_diff : Q;
  max_cost_diff : Q;
  has_range : bool;
  change_kind : string
}.

(** The default of [old_resources.get(resource_name, {...})]. *)
Definition absent_resource : ResourceSpec :=
  {| memory := 0; cpu := 0; min_replicas := 1; max_replicas := 1; kind := "Unknown" |}.

(** [resource_name.split("@")[0]] *)
Fixpoint before_at (s : list ascii) : list ascii :=
  match s with
  | c :: t => if chr_eqb c "@" then [] else c :: before_at t
  | [] => []
  end.

Definition replica_cost (cost_per_pod : Q) (replicas : Z) : Q :=
  cost_per_pod * inject_Z replicas.

(** The pair [(min_cost_diff, max_cost_diff)] of one resource. *)
Definition cost_diffs (old_res new_res : ResourceSpec) : Q * Q :=
  let old_cost_per_pod := calculate_annual_cost (memory old_res) (cpu old_res) in
  let new_cost_per_pod := calculate_annual_cost (memory new_res) (cpu new_res) in
  let old_min_cost := replica_cost old_cost_per_pod (min_replicas old_res) in
  let old_max_cost := replica_cost old_cost_per_pod (max_replicas old_res) in
  let new_min_cost := replica_cost new_cost_per_pod (min_replicas new_res) in
  let new_max_cost := replica_cost new_cost_per_pod (max_replicas new_res) in
  (new_min_cost - old_min_cost, new_max_cost - old_max_cost).

(** The body of the loop over [all_resource_names]: the record appended
    to [cost_changes], if any. *)
Definition cost_change (file_path : string)
    (old_resources new_resources : gmap string ResourceSpec) (resource_name : string)
  : option CostChange :=
  let old_res := default absent_resource (old_resources !! resource_name) in
  let new_res := default absent_resource (new_resources !! resource_name) in
  let '(min_diff, max_diff) := cost_diffs old_res new_res in
  if Qgt_b (Qabs_b max_diff) 1 then
    Some {| resource := str (before_at (chars resource_name));
            file := file_path;
            old_memory := memory old_res; new_memory := memory new_res;
            old_cpu := cpu old_res; new_cpu := cpu new_res;
            old_min_replicas := min_replicas old_res;
            old_max_replicas := max_replicas old_res;
            new_min_replicas := min_replicas new_res;
            new_max_replicas := max_replicas new_res;
            min_cost_diff := min_diff;
            max_cost_diff := max_diff;
            has_range := negb (Z.eqb (min_replicas new_res) (max_replicas new_res));
            change_kind := kind new_res |}
  else None.

(** The comparison of two snapshots of one file; the set of names is
    iterated in the order of [elements]. *)
Definition compare_resources (file_path : string)
    (old_resources new_resources : gmap string ResourceSpec) : list CostChange :=
  let all_resource_names : gset string := dom old_resources ∪ dom new_resources in
  omap (cost_change file_path old_resources new_resources) (elements all_resource_names).

(** One changed file, as the version-control layer hands it over: its
    path and its old and new contents. *)
Definition analyze_file (f : string * string * string) : result (list CostChange) :=
  let '(file_path, old_content, new_content) := f in
  if String.eqb old_content "" || String.eqb new_content "" then Ok []
  else
    bind (extract_resources_from_yaml old_content file_path) (λ old_resources,
    bind (extract_resources_from_yaml new_content file_path) (λ new_resources,
    Ok (compare_resources file_path old_resources new_resources))).

(** [analyze_pr_costs], over the changed files and their contents. *)
Fixpoint analyze_pr_costs (changed : list (string * string * string))
  : result (list CostChange) :=
  match changed with
  | [] => Ok []
  | f :: fs =>
      bind (analyze_file f) (λ cs,
      bind (analyze_pr_costs fs) (λ rest, Ok (cs ++ rest)%list))
  end.

End AuditPr.

(** ** [scripts/analyze-audit.py] *)

Module AnalyzeAudit.

(** [parse_cpu(cpu_str)]: millicores. *)
Definition parse_cpu (cpu_str : string) : result Q :=
  match chars cpu_str with
  | [] => Ok 0
  | s =>
      if ends_with (chars "m") s then float (drop_last 1 s)
      else bind (float s) (λ x, Ok (x * 1000))
  end.

(** The [units] dictionary, in its insertion order. *)
Definition units : list (string * Q) :=
  [ ("Ki", 1024); ("Mi", 1024 ^ 2); ("Gi", 1024 ^ 3); ("Ti", 1024 ^ 4);
    ("K", 1000); ("M", 1000 ^ 2); ("G", 1000 ^ 3); ("T", 1000 ^ 4) ].

(** The loop [for unit, multiplier in units.items()]. *)
Fixpoint parse_with_units (us : list (string * Q)) (s : list ascii) : option (result Q) :=
  match us with
  | (unit, multiplier) :: us' =>
      if ends_with (chars unit) s then
        Some (bind (float (drop_last (String.length unit) s)) (λ x, Ok (x * multiplier)))
      else parse_with_units us' s
  | [] => None
  end.

(** [parse_memory(mem_str)]: bytes. *)
Definition parse_memory (mem_str : string) : result Q :=
  match chars mem_str with
  | [] => Ok 0
  | s =>
      match parse_with_units units s with
      | Some r => r
      | None => float s
      end
  end.

End AnalyzeAudit.

(** ** [scripts/generate-report.py] *)

Module GenerateReport.

(** Pricing constants. *)
Definition MEMORY_COST_PER_GB_MONTH : Q := 7.20.
Definition CPU_COST_PER_VCPU_MONTH : Q := 21.60.
Definition STORAGE_COST_PER_GB_MONTH : Q := 0.10.
Definition LB_COST_PER_MONTH : Q := 20.

(** [parse_cpu(cpu_str)]: vCPU. *)
Definition parse_cpu (cpu_str : string) : result Q :=
  match chars cpu_str with
  | [] => Ok 0
  | s0 =>
      let cpu_str := strip s0 in
      if ends_with (chars "m") cpu_str then
        bind (float (drop_last 1 cpu_str)) (λ x, Ok (x / 1000))
      else float cpu_str
  end.

(** The [units] dictionary, in its insertion order. *)
Definition units : list (string * Q) :=
  [ ("Ki", 1024 / 1024 ^ 3); ("Mi", 1024 ^ 2 / 1024 ^ 3); ("Gi", 1);
    ("Ti", 1024 ^ 4 / 1024 ^ 3);
    ("K", 1000 / 1000 ^ 3); ("M", 1000 ^ 2 / 1000 ^ 3); ("G", 1);
    ("T", 1000 ^ 4 / 1000 ^ 3) ].

(** The loop [for unit, multiplier in units.items()]. *)
Fixpoint parse_with_units (us : list (string * Q)) (s : list ascii) : option (result Q) :=
  match us with
  | (unit, multiplier) :: us' =>
      if ends_with (chars unit) s then
        Some (bind (float (drop_last (String.length unit) s)) (λ x, Ok (x * multiplier)))
      else parse_with_units us' s
  | [] => None
  end.

(** [parse_memory(mem_str)]: "GB". *)
Definition parse_memory (mem_str : string) : result Q :=
  match chars mem_str with
  | [] => Ok 0
  | s0 =>
      let mem_str := strip s0 in
      match parse_with_units units mem_str with
      | Some r => r
      | None => bind (float mem_str) (λ x, Ok (x / 1024 ^ 3))
      end
  end.

(** *** Waste rules *)

(** [calculate_memory_waste(request_gb, limit_gb, usage_gb)] *)
Definition calculate_memory_waste (request_gb limit_gb : Q) (usage_gb : option Q) : Q :=
  if Qeq_bool limit_gb 0 || Qeq_bool request_gb 0 then 0
  else if Qgt_b limit_gb (request_gb * 3) then
    let waste_gb := limit_gb - request_gb * 1.5 in
    waste_gb * MEMORY_COST_PER_GB_MONTH
  else
    match usage_gb with
    | Some u =>
        if Qgt_b u 0 && Qlt_b u (request_gb * 0.2) then
          let waste_gb := request_gb - u * 1.5 in
          Qmax0 waste_gb * MEMORY_COST_PER_GB_MONTH
        else 0
    | None => 0
    end.

(** [calculate_cpu_waste(request_vcpu, limit_vcpu, usage_vcpu)] *)
Definition calculate_cpu_waste (request_vcpu limit_vcpu : Q) (usage_vcpu : option Q) : Q :=
  if Qeq_bool limit_vcpu 0 || Qeq_bool request_vcpu 0 then 0
  else if Qgt_b limit_vcpu (request_vcpu * 4) then
    let waste_vcpu := limit_vcpu - request_vcpu * 1.5 in
    waste_vcpu * CPU_COST_PER_VCPU_MONTH
  else
    match usage_vcpu with
    | Some u =>
        if Qgt_b u 0 && Qlt_b u (request_vcpu * 0.2) then
          let waste_vcpu := request_vcpu - u * 1.5 in
          Qmax0 waste_vcpu * CPU_COST_PER_VCPU_MONTH
        else 0
    | None => 0
    end.

(** *** Inputs of the audit *)

Record Container : Type := {
  container_name : option string;
  requests : gmap string string;   (* resources.requests, empty when absent *)
  limits : gmap string string      (* resources.limits, empty when absent *)
}.

Record Pod : Type := {
  pod_name : option string;        (* metadata.name *)
  pod_namespace : option string;   (* metadata.namespace *)
  containers : list Container      (* spec.containers *)
}.

(** One entry of the table built by [load_usage_data]. *)
Record Usage : Type := { usage_cpu : Q; usage_memory : Q }.

Record Service : Type := {
  svc_name : option string;
  svc_namespace : option string;
  creationTimestamp : option string;
  svc_type : option string         (* spec.type *)
}.

Record Volume : Type := {
  pv_name : option string;
  storage : option string;         (* spec.capacity.storage *)
  phase : option string            (* status.phase *)
}.

(** *** Findings *)

Record PodRef : Type := { ref_pod : string; ref_namespace : string; ref_container : string }.
Record LbRef : Type := { lb_service : string; lb_namespace : string; lb_age : string }.
Record PvRef : Type := { vol_name : string; vol_size : string; vol_status : string }.

(** A value of a [details] dictionary.  [Fmt q d u] is the number [q]
    formatted with [d] decimals and followed by [u]; the formatting
    itself is left to the renderer. *)
Inductive detail : Type :=
| Fmt (value : Q) (decimals : nat) (suffix : string)
| Text (s : string)
| Number (q : Q)
| Pods (l : list PodRef)
| LoadBalancers (l : list LbRef)
| Volumes (l : list PvRef).

Record Finding : Type := {
  ftype : string;                      (* 'type' *)
  severity : string;
  pod : option string;
  namespace : option string;
  container : option string;
  monthlySavings : Q;
  podsAffected : option nat;
  resourcesAffected : option nat;
  details : list (string * detail)
}.

(** ['HIGH' if w > 500 else 'MEDIUM' if w > 100 else 'LOW'] *)
Definition severity3 (w : Q) : string :=
  if Qgt_b w 500 then "HIGH" else if Qgt_b w 100 then "MEDIUM" else "LOW".

(** ['MEDIUM' if w > 100 else 'LOW'] *)
Definition severity2 (w : Q) : string :=
  if Qgt_b w 100 then "MEDIUM" else "LOW".

(** Python truth value of an optional float. *)
Definition truthy (x : option Q) : bool :=
  match x with
  | Some q => negb (Qeq_bool q 0)
  | None => false
  end.

Definition fmt_or_na (x : option Q) (decimals : nat) (suffix : string) : detail :=
  match x with
  | Some q => if Qeq_bool q 0 then Text "N/A" else Fmt q decimals suffix
  | None => Text "N/A"
  end.

(** *** [analyze_pods] *)

(** The body of the loop over the containers of a pod: the findings
    appended and the entries added to [pods_without_requests]. *)
Definition analyze_container (usage_data : gmap string Usage)
    (pod_name namespace : string) (c : Container)
  : result (list Finding * list PodRef) :=
  let key := namespace +:+ "/" +:+ pod_name in
  let cname := default "unknown" (container_name c) in
  if bool_decide (requests c = ∅) then
    Ok ([], [ {| ref_pod := pod_name; ref_namespace := namespace; ref_container := cname |} ])
  else
    bind (parse_memory (default "0" (requests c !! "memory"))) (λ mem_request,
    bind (parse_memory (default "0" (limits c !! "memory"))) (λ mem_limit,
    bind (parse_cpu (default "0" (requests c !! "cpu"))) (λ cpu_request,
    bind (parse_cpu (default "0" (limits c !! "cpu"))) (λ cpu_limit,
    let usage := usage_data !! key in
    let mem_usage := usage_memory <$> usage in
    let cpu_usage := usage_cpu <$> usage in
    let mem_waste := calculate_memory_waste mem_request mem_limit mem_usage in
    let cpu_waste := calculate_cpu_waste cpu_request cpu_limit cpu_usage in
    let mem_finding :=
      if Qgt_b mem_waste 0 then
        [ {| ftype := "OVER_PROVISIONED_MEMORY";
             severity := severity3 mem_waste;
             pod := Some pod_name; namespace := Some namespace; container := Some cname;
             monthlySavings := mem_waste;
             podsAffected := None; resourcesAffected := None;
             details :=
               [ ("request", Fmt mem_request 2 "Gi");
                 ("limit", Fmt mem_limit 2 "Gi");
                 ("usage", fmt_or_na mem_usage 2 "Gi");
                 ("ratio", if Qgt_b mem_request 0
                           then Fmt (mem_limit / mem_request) 1 "x" else Text "N/A") ] |} ]
      else [] in
    let cpu_finding :=
      if Qgt_b cpu_waste 0 then
        let is_over_provisioned :=
          if Qgt_b cpu_request 0 then Qgt_b cpu_limit (cpu_request * 4) else false in
        let is_underutilized :=
          if Qgt_b cpu_request 0 then
            match cpu_usage with
            | Some u => Qgt_b u 0 && Qlt_b u (cpu_request * 0.2)
            | None => false
            end
          else false in
        let finding_type :=
          if is_underutilized then "UNDERUTILIZED_CPU" else "OVER_PROVISIONED_CPU" in
        [ {| ftype := finding_type;
             severity := severity3 cpu_waste;
             pod := Some pod_name; namespace := Some namespace; container := Some cname;
             monthlySavings := cpu_waste;
             podsAffected := None; resourcesAffected := None;
             details :=
               [ ("request", Fmt cpu_request 2 "");
                 ("limit", Fmt cpu_limit 2 "");
                 ("usage", fmt_or_na cpu_usage 2 "");
                 ("utilizationPercent",
                  match cpu_usage with
                  | Some u => if truthy cpu_usage && Qgt_b cpu_request 0
                              then Fmt (u / cpu_request * 100) 1 "%" else Text "N/A"
                  | None => Text "N/A"
                  end);
                 ("ratio", if Qgt_b cpu_request 0
                           then Fmt (cpu_limit / cpu_request) 1 "x" else Text "N/A") ] |} ]
      else [] in
    let under_mem_finding :=
      match mem_usage with
      | Some u =>
          if truthy mem_usage && Qgt_b mem_request 0 && Qlt_b u (mem_request * 0.2)
             && Qeq_bool mem_waste 0 then
            let waste := (mem_request - u * 1.5) * MEMORY_COST_PER_GB_MONTH in
            [ {| ftype := "UNDERUTILIZED_MEMORY";
                 severity := severity2 waste;
                 pod := Some pod_name; namespace := Some namespace; container := Some cname;
                 monthlySavings := waste;
                 podsAffected := None; resourcesAffected := None;
                 details :=
                   [ ("request", Fmt mem_request 2 "Gi");
                     ("usage", Fmt u 2 "Gi");
                     ("utilizationPercent", Fmt (u / mem_request * 100) 1 "%") ] |} ]
          else []
      | None => []
      end in
    Ok ((mem_finding ++ cpu_finding ++ under_mem_finding)%list, []))))).

(** The containers of one pod, in order. *)
Fixpoint analyze_containers (usage_data : gmap string Usage)
    (pod_name namespace : string) (cs : list Container)
  : result (list Finding * list PodRef) :=
  match cs with
  | [] => Ok ([], [])
  | c :: cs' =>
      bind (analyze_container usage_data pod_name namespace c) (λ r,
      bind (analyze_containers usage_data pod_name namespace cs') (λ r',
      Ok ((r.1 ++ r'.1)%list, (r.2 ++ r'.2)%list)))
  end.

(** The loop over [pods_data['items']]. *)
Fixpoint analyze_items (usage_data : gmap string Usage) (items : list Pod)
  : result (list Finding * list PodRef) :=
  match items with
  | [] => Ok ([], [])
  | p :: ps =>
      let pod_name := default "unknown" (pod_name p) in
      let namespace := default "default" (pod_namespace p) in
      bind (analyze_containers usage_data pod_name namespace (containers p)) (λ r,
      bind (analyze_items usage_data ps) (λ r',
      Ok ((r.1 ++ r'.1)%list, (r.2 ++ r'.2)%list)))
  end.

Definition missing_requests_finding (pods_without_requests : list PodRef) : Finding :=
  {| ftype := "MISSING_REQUESTS";
     severity := "HIGH";
     pod := None; namespace := None; container := None;
     monthlySavings := 0;
     podsAffected := Some (length pods_without_requests);
     resourcesAffected := None;
     details := [ ("pods", Pods (take 10 pods_without_requests)) ] |}.

(** [analyze_pods], on the loaded pod items and usage table. *)
Definition analyze_pods (items : list Pod) (usage_data : gmap string Usage)
  : result (list Finding) :=
  bind (analyze_items usage_data items) (λ r,
    let '(findings, pods_without_requests) := r in
    Ok (match pods_without_requests with
        | [] => findings
        | _ => (findings ++ [missing_requests_finding pods_without_requests])%list
        end)).

(** *** [analyze_load_balancers] *)

(** The entries collected in [orphaned_lbs]. *)
Fixpoint orphaned_lbs (items : list Service) : list LbRef :=
  match items with
  | [] => []
  | svc :: rest =>
      if negb (String.eqb (default "" (svc_type svc)) "LoadBalancer") then orphaned_lbs rest
      else if negb (String.eqb (default "" (creationTimestamp svc)) "") then
        {| lb_service := default "unknown" (svc_name svc);
           lb_namespace := default "default" (svc_namespace svc);
           lb_age := "unknown" |} :: orphaned_lbs rest
      else orphaned_lbs rest
  end.

(** [analyze_load_balancers], on the loaded service items. *)
Definition analyze_load_balancers (items : list Service) : list Finding :=
  match orphaned_lbs items with
  | [] => []
  | lbs =>
      [ {| ftype := "ORPHANED_LB";
           severity := "MEDIUM";
           pod := None; namespace := None; container := None;
           monthlySavings := inject_Z (Z.of_nat (length lbs)) * LB_COST_PER_MONTH;
           podsAffected := None;
           resourcesAffected := Some (length lbs);
           details := [ ("loadBalancers", LoadBalancers lbs) ] |} ]
  end.

(** *** [analyze_storage] *)

(** The loop over the volumes, from the current [total_storage_gb] and
    [unbound_pvs]. *)
Fixpoint unbound_pvs (total_storage_gb : Q) (pvs : list PvRef) (items : list Volume)
  : result (Q * list PvRef) :=
  match items with
  | [] => Ok (total_storage_gb, pvs)
  | pv :: rest =>
      let status := default "" (phase pv) in
      if negb (String.eqb status "Bound") then
        let size_str := default "0" (storage pv) in
        bind (parse_memory size_str) (λ size_gb,
        unbound_pvs (total_storage_gb + size_gb)
          (pvs ++ [ {| vol_name := default "unknown" (pv_name pv);
                       vol_size := size_str; vol_status := status |} ])%list rest)
      else unbound_pvs total_storage_gb pvs rest
  end.

(** [analyze_storage], on the loaded volume items. *)
Definition analyze_storage (items : list Volume) : result (list Finding) :=
  bind (unbound_pvs 0 [] items) (λ r,
    let '(total_storage_gb, pvs) := r in
    Ok (match pvs with
        | [] => []
        | _ =>
            let monthly_savings := total_storage_gb * STORAGE_COST_PER_GB_MONTH in
            [ {| ftype := "UNBOUND_PV";
                 severity := if Qlt_b monthly_savings 100 then "LOW" else "MEDIUM";
                 pod := None; namespace := None; container := None;
                 monthlySavings := monthly_savings;
                 podsAffected := None;
                 resourcesAffected := Some (length pvs);
                 details := [ ("totalStorageGB", Number total_storage_gb);
                              ("volumes", Volumes (take 10 pvs)) ] |} ]
        end)).

(** *** [aggregate_findings] *)

Record Example : Type := {
  ex_pod : option string;
  ex_namespace : option string;
  ex_container : option string;
  wastePerMonth : Q;
  ex_request : detail;
  ex_usage : detail;
  ex_limit : detail
}.

Record Aggregated : Type := {
  agg_type : string;
  agg_severity : string;
  agg_monthlySavings : Q;
  description : string;
  agg_resourcesAffected : option nat;
  agg_podsAffected : option nat;
  examples : option (list Example)     (* details.examples *)
}.

(** [by_type], a dictionary in insertion order: the finding joins the
    group of its type, a new type opens a group at the end. *)
Fixpoint add_to_group (f : Finding) (by_type : list (string * list Finding))
  : list (string * list Finding) :=
  match by_type with
  | [] => [(ftype f, [f])]
  | (t, g) :: rest =>
      if String.eqb t (ftype f) then (t, (g ++ [f])%list) :: rest
      else (t, g) :: add_to_group f rest
  end.

Definition group_by_type (findings : list Finding) : list (string * list Finding) :=
  fold_left (λ acc f, add_to_group f acc) findings [].

(** [sum(f.get('monthlySavings', 0) for f in group)] *)
Definition total_savings (group : list Finding) : Q :=
  fold_left (λ acc f, acc + monthlySavings f) group 0.

(** [severity_order.get(s, 0)] *)
Definition severity_order (s : string) : nat :=
  if String.eqb s "HIGH" then 3
  else if String.eqb s "MEDIUM" then 2
  else if String.eqb s "LOW" then 1
  else 0.

(** [max(group, key=...)]: the first element of greatest key. *)
Fixpoint max_by {A : Type} (key : A → nat) (best : A) (l : list A) : A :=
  match l with
  | [] => best
  | x :: t => if (key best <? key x)%nat then max_by key x t else max_by key best t
  end.

(** Python truth value of [f.get('pod')]. *)
Definition has_pod (f : Finding) : bool :=
  match pod f with
  | Some p => negb (String.eqb p "")
  | None => false
  end.

Definition pod_key (f : Finding) : string :=
  default "default" (namespace f) +:+ "/" +:+ default "unknown" (pod f).

(** [len(set(... for f in group if f.get('pod')))] *)
Definition pods_affected (group : list Finding) : nat :=
  size (list_to_set (map pod_key (List.filter has_pod group)) : gset string).

(** [descriptions.get(ftype, ...)] *)
Definition describe (t : string) : string :=
  if String.eqb t "OVER_PROVISIONED_MEMORY"
  then "Pods requesting significantly more memory than they use"
  else if String.eqb t "OVER_PROVISIONED_CPU"
  then "Pods requesting significantly more CPU than they use"
  else if String.eqb t "UNDERUTILIZED_MEMORY"
  then "Pods using less than 20% of requested memory"
  else if String.eqb t "UNDERUTILIZED_CPU"
  then "Pods using less than 20% of requested CPU"
  else if String.eqb t "NO_REQUESTS"
  then "Pods without resource requests - causes unpredictable scheduling"
  else if String.eqb t "ORPHANED_LB"
  then "Load balancers with no backend endpoints"
  else if String.eqb t "UNBOUND_PV"
  then "Persistent volumes not bound to any pods"
  else "Issues of type " +:+ t.

(** [sorted(l, key=..., reverse=True)]: stable, greatest key first. *)
Fixpoint insert_desc {A : Type} (key : A → Q) (x : A) (l : list A) : list A :=
  match l with
  | [] => [x]
  | y :: t => if Qgt_b (key y) (key x) then y :: insert_desc key x t else x :: l
  end.

Definition sorted_desc {A : Type} (key : A → Q) (l : list A) : list A :=
  fold_right (insert_desc key) [] l.

(** [d.get(k, 'N/A')] on a [details] dictionary. *)
Fixpoint detail_get (k : string) (d : list (string * detail)) : detail :=
  match d with
  | [] => Text "N/A"
  | (k', v) :: rest => if String.eqb k' k then v else detail_get k rest
  end.

Definition example_of (ex : Finding) : Example :=
  {| ex_pod := pod ex; ex_namespace := namespace ex; ex_container := container ex;
     wastePerMonth := monthlySavings ex;
     ex_request := detail_get "request" (details ex);
     ex_usage := detail_get "usage" (details ex);
     ex_limit := detail_get "limit" (details ex) |}.

(** The body of the loop over [by_type.items()]. *)
Definition aggregate_group (t : string) (group : list Finding) : Aggregated :=
  let max_severity :=
    match group with
    | [] => "LOW"
    | f :: rest => severity (max_by (λ x, severity_order (severity x)) f rest)
    end in
  let per_resource := String.eqb t "ORPHANED_LB" || String.eqb t "UNBOUND_PV" in
  let sorted_examples := take 5 (sorted_desc monthlySavings group) in
  {| agg_type := t;
     agg_severity := max_severity;
     agg_monthlySavings := total_savings group;
     description := describe t;
     agg_resourcesAffected := if per_resource then Some (length group) else None;
     agg_podsAffected := if per_resource then None else Some (pods_affected group);
     examples :=
       match sorted_examples with
       | ex :: _ => if has_pod ex then Some (map example_of sorted_examples) else None
       | [] => None
       end |}.

(** [aggregate_findings(findings)] *)
Definition aggregate_findings (findings : list Finding) : list Aggregated :=
  match findings with
  | [] => []
  | _ =>
      let aggregated := map (λ tg, aggregate_group tg.1 tg.2) (group_by_type findings) in
      sorted_desc agg_monthlySavings aggregated
  end.

End GenerateReport.

(** * Properties *)

(** ** Sanity checks of the embedding *)

Example float_samples :
  returns (float (chars "0.5")) (1 # 2) ∧ returns (float (chars " 1_0e-1 ")) 1 ∧
  returns (float (chars "-2.")) (- (2)) ∧ returns (float (chars ".25E+1")) (5 # 2) ∧
  raises (float (chars "1__0")) ∧ raises (float (chars ".")) ∧ raises (float (chars "1e")) ∧
  raises (float (chars "")) ∧ raises (float (chars "- 1")) ∧ float (chars "-Inf") = NonFinite.
Proof. vm_compute. repeat split; congruence. Qed.



Example parse_samples :
  returns (AuditPr.parse_resource_value "4096Mi" "memory") 4 ∧
  returns (AuditPr.parse_resource_value "500m" "cpu") (1 # 2) ∧
  returns (GenerateReport.parse_memory "1048576Ki") 1 ∧
  returns (GenerateReport.parse_memory "1073741824") 1 ∧
  returns (GenerateReport.parse_cpu " 250m ") (1 # 4) ∧
  returns (AnalyzeAudit.parse_memory "1Ki") 1024 ∧
  raises (GenerateReport.parse_memory "lots").
Proof. vm_compute. repeat split; congruence. Qed.

(** ** Comparisons on rationals *)

Lemma Qgt_b_true (a b : Q) : Qgt_b a b = true ↔ b < a.
Proof.
  unfold Qgt_b. rewrite negb_true_iff, <- not_true_iff_false, Qle_bool_iff.
  split; [apply Qnot_le_lt | apply Qlt_not_le].
Qed.

Lemma Qgt_b_false (a b : Q) : Qgt_b a b = false ↔ a <= b.
Proof. unfold Qgt_b. rewrite negb_false_iff. apply Qle_bool_iff. Qed.

Lemma Qlt_b_true (a b : Q) : Qlt_b a b = true ↔ a < b.
Proof. apply Qgt_b_true. Qed.

Lemma Qlt_b_false (a b : Q) : Qlt_b a b = false ↔ b <= a.
Proof. apply Qgt_b_false. Qed.

Lemma Qeq_bool_false (a b : Q) : Qeq_bool a b = false ↔ ¬ a == b.
Proof. rewrite <- not_true_iff_false, Qeq_bool_iff. tauto. Qed.

(** ** Observations on results *)

(** The type, severity and savings of the findings of a run. *)
Definition headline (r : result (list GenerateReport.Finding))
  : option (list (string * string * Q)) :=
  match r with
  | Ok fs =>
      Some (map (λ f, (GenerateReport.ftype f, GenerateReport.severity f,
                       Qred (GenerateReport.monthlySavings f))) fs)
  | _ => None
  end.

(** ** C1: decimal memory suffixes *)

(** C1 (defect).  The specification asks every parser to read [K], [M], [G], [T]
    with base-1000 factors expressed in GiB, so that ["1G"] is
    [10^9 / 2^30] GiB and ["1M"] is [10^6 / 2^30] GiB.  The parser of
    [analyze-audit.py] does use the base-1000 factors (in bytes), but the
    two others do not: [generate-report.py] reads ["1G"] as [1] and ["1M"]
    as [1/1000], and [audit_pr.py] reads ["1G"] as [1] and ["1M"] as
    [1/1024], none of which is that value. *)
Theorem decimal_suffix_not_base_1000_in_GiB :
  returns (GenerateReport.parse_memory "1G") 1 ∧
  returns (GenerateReport.parse_memory "1M") (1 / 1000) ∧
  returns (AuditPr.parse_resource_value "1G" "memory") 1 ∧
  returns (AuditPr.parse_resource_value "1M" "memory") (1 / 1024) ∧
  returns (AnalyzeAudit.parse_memory "1G") (10 ^ 9) ∧
  returns (AnalyzeAudit.parse_memory "1M") (10 ^ 6) ∧
  ¬ returns (GenerateReport.parse_memory "1G") (10 ^ 9 / 2 ^ 30) ∧
  ¬ returns (GenerateReport.parse_memory "1M") (10 ^ 6 / 2 ^ 30) ∧
  ¬ returns (AuditPr.parse_resource_value "1G" "memory") (10 ^ 9 / 2 ^ 30) ∧
  ¬ returns (AuditPr.parse_resource_value "1M" "memory") (10 ^ 6 / 2 ^ 30).
Proof. vm_compute. repeat split; congruence. Qed.

(** The binary suffixes do use the base-1024 factors, in all three. *)
Lemma binary_suffixes_base_1024 :
  returns (GenerateReport.parse_memory "1Ki") (2 ^ 10 / 2 ^ 30) ∧
  returns (GenerateReport.parse_memory "1Mi") (2 ^ 20 / 2 ^ 30) ∧
  returns (GenerateReport.parse_memory "1Gi") 1 ∧
  returns (GenerateReport.parse_memory "1Ti") (2 ^ 40 / 2 ^ 30) ∧
  returns (AuditPr.parse_resource_value "1Ki" "memory") (2 ^ 10 / 2 ^ 30) ∧
  returns (AuditPr.parse_resource_value "1Mi" "memory") (2 ^ 20 / 2 ^ 30) ∧
  returns (AuditPr.parse_resource_value "1Gi" "memory") 1 ∧
  returns (AnalyzeAudit.parse_memory "1Gi") (2 ^ 30).
Proof. vm_compute. repeat split; congruence. Qed.

(** ** C2: sign of the parsed quantities *)

Section Stripping.

Variable p : ascii → bool.

Lemma lstrip_snoc (l : list ascii) (c : ascii) :
  p c = false → ∃ l', lstrip_by p (l ++ [c]) = l' ++ [c].
Proof.
  intros Hc. induction l as [|a l IH]; simpl.
  - rewrite Hc. by exists [].
  - destruct (p a); [exact IH|]. by exists (a :: l).
Qed.

Lemma rstrip_cons (c : ascii) (l : list ascii) :
  p c = false → ∃ l', rstrip_by p (c :: l) = c :: l'.
Proof.
  intros Hc. unfold rstrip_by. simpl rev.
  destruct (lstrip_snoc (rev l) c Hc) as [l' ->].
  exists (rev l'). by rewrite rev_app_distr.
Qed.

(** A string is clean when it does not start with a character of [p]. *)
Definition clean_by (w : list ascii) : Prop :=
  match w with
  | c :: _ => p c = false
  | [] => True
  end.

Lemma lstrip_clean (s : list ascii) : clean_by (lstrip_by p s).
Proof.
  induction s as [|a s IH]; simpl; [done|].
  destruct (p a) eqn:Ha; [exact IH | exact Ha].
Qed.

Lemma lstrip_of_clean (w : list ascii) : clean_by w → lstrip_by p w = w.
Proof. destruct w as [|c w]; simpl; [done|]. by intros ->. Qed.

Lemma strip_by_clean (s : list ascii) : clean_by (strip_by p s).
Proof.
  unfold strip_by. pose proof (lstrip_clean s) as H.
  destruct (lstrip_by p s) as [|c l]; [done|].
  destruct (rstrip_cons c l H) as [l' ->]. exact H.
Qed.

Lemma head_strip_of_clean (w : list ascii) : clean_by w → head (strip_by p w) = head w.
Proof.
  intros H. unfold strip_by. rewrite (lstrip_of_clean w H).
  destruct w as [|c l]; [done|].
  by destruct (rstrip_cons c l H) as [l' ->].
Qed.

Lemma head_strip_take (n : nat) (w : list ascii) (c : ascii) :
  clean_by w → head (strip_by p (take n w)) = Some c → head w = Some c.
Proof.
  intros H. destruct w as [|a l]; [by rewrite take_nil|].
  destruct n as [|n]; [done|].
  rewrite head_strip_of_clean; [done | exact H].
Qed.

End Stripping.

(** Clean for [str.strip()]. *)
Definition clean (w : list ascii) : Prop := clean_by is_space w.

Lemma strip_clean (s : list ascii) : clean (strip s).
Proof. apply strip_by_clean. Qed.

Lemma is_c_space_is_space (c : ascii) : is_space c = false → is_c_space c = false.
Proof.
  unfold is_space, is_c_space. generalize (code c). intros n H.
  apply orb_false_iff in H as [H1 H2]. apply andb_false_iff in H2.
  apply orb_false_iff. split; [exact H1|].
  apply Nat.eqb_neq. intros ->. by destruct H2.
Qed.

Lemma clean_c_space (w : list ascii) : clean w → clean_by is_c_space w.
Proof. destruct w as [|c w]; [done|]. apply is_c_space_is_space. Qed.

Section Sign.

Lemma scale10_nonneg (m : N) (e : Z) : 0 <= scale10 m e.
Proof.
  unfold scale10. apply Qmult_le_0_compat.
  - change 0 with (inject_Z 0). rewrite <- Zle_Qle. lia.
  - by apply Qpower_0_le.
Qed.

Lemma unsigned_float_nonneg (s : list ascii) (q : Q) :
  unsigned_float s = Some q → 0 <= q.
Proof.
  unfold unsigned_float. intros H.
  repeat case_match; simplify_eq; apply scale10_nonneg.
Qed.

(** [float] returns a negative number only for a literal that starts
    with a minus sign. *)
Lemma float_negative (s : list ascii) (q : Q) :
  float s = Ok q → q < 0 → head (strip_by is_c_space s) = Some "-"%char.
Proof.
  unfold float, float_of_stripped. destruct (strip_by is_c_space s) as [|c r]; [done|].
  unfold chr_eqb. destruct (Ascii.eqb_spec c "-") as [->|_]; [done|].
  intros H Hq. exfalso.
  repeat case_match; simplify_eq;
    match goal with
    | E : unsigned_float _ = Some _ |- _ =>
        apply unsigned_float_nonneg in E; apply (Qlt_not_le _ _ Hq), E
    end.
Qed.

Lemma float_take_negative (w : list ascii) (n : nat) (q : Q) :
  clean w → float (take n w) = Ok q → q < 0 → head w = Some "-"%char.
Proof.
  intros Hw H Hq. apply (head_strip_take is_c_space n w _ (clean_c_space w Hw)).
  by apply (float_negative _ q).
Qed.

Lemma float_clean_negative (w : list ascii) (q : Q) :
  clean w → float w = Ok q → q < 0 → head w = Some "-"%char.
Proof.
  intros Hw H Hq. apply (float_take_negative w (length w) q Hw); [|done].
  by rewrite firstn_all.
Qed.

Lemma scaled_float_negative (r : result Q) (f : Q → Q) (q : Q) :
  (∀ x, f x < 0 → x < 0) →
  bind r (λ x, Ok (f x)) = Ok q → q < 0 → ∃ x, r = Ok x ∧ x < 0.
Proof.
  intros Hf H Hq. destruct r as [x| |]; simpl in H; simplify_eq.
  exists x. split; [done | by apply Hf].
Qed.

Lemma Qdiv_negative (c x : Q) : 0 < c → x / c < 0 → x < 0.
Proof.
  intros Hc H. apply (Qmult_lt_r _ _ c Hc) in H.
  rewrite Qmult_0_l in H. unfold Qdiv in H.
  rewrite <- Qmult_assoc, (Qmult_comm (/ c)), Qmult_inv_r, Qmult_1_r in H; [done|].
  intros E. rewrite E in Hc. by apply Qlt_irrefl in Hc.
Qed.

Lemma Qmult_negative (c x : Q) : 0 < c → x * c < 0 → x < 0.
Proof.
  intros Hc H. apply (Qmult_lt_r _ _ c Hc). by rewrite Qmult_0_l.
Qed.

End Sign.

(** The sentence of the specification, for a parser [parse]. *)
Definition never_negative (parse : string → result Q) : Prop :=
  ∀ s q, parse s = Ok q → 0 <= q.

(** The input, once stripped, starts with a minus sign. *)
Definition has_minus_sign (s : string) : Prop :=
  head (strip (chars s)) = Some "-"%char.

(** C2, as stated, fails: a payload with a minus sign is parsed to a
    negative quantity by every parser. *)
Lemma parsers_return_negative_quantities :
  returns (GenerateReport.parse_cpu "-1") (- (1)) ∧
  returns (GenerateReport.parse_memory "-2Gi") (- (2)) ∧
  returns (AuditPr.parse_resource_value "-2Gi" "memory") (- (2)) ∧
  returns (AuditPr.parse_resource_value "-500m" "cpu") (- (1 # 2)) ∧
  ¬ never_negative GenerateReport.parse_cpu ∧
  ¬ never_negative GenerateReport.parse_memory ∧
  ¬ never_negative (λ s, AuditPr.parse_resource_value s "memory") ∧
  ¬ never_negative (λ s, AuditPr.parse_resource_value s "cpu").
Proof.
  assert (Hneg : ∀ parse s q, parse s = Ok q → q < 0 → ¬ never_negative parse).
  { intros parse s q Hs Hq H. apply (Qlt_not_le _ _ Hq), (H s), Hs. }
  split_and!.
  - vm_compute. congruence.
  - vm_compute. congruence.
  - vm_compute. congruence.
  - vm_compute. congruence.
  - apply (Hneg _ "-1" (- (1))); [by vm_compute | done].
  - apply (Hneg _ "-2Gi" (- (2))); [by vm_compute | done].
  - apply (Hneg _ "-2Gi" (- (2))); [by vm_compute | done].
  - apply (Hneg _ "-500m" (Qmake (-500) 1000)); [by vm_compute | done].
Qed.

(** Scaling by a positive constant keeps the sign. *)
Ltac positive_scale :=
  let x := fresh "x" in
  intros x; first [ apply Qdiv_negative | apply Qmult_negative ]; reflexivity.

Lemma generate_report_parse_cpu_sign (s : string) (q : Q) :
  GenerateReport.parse_cpu s = Ok q → q < 0 → has_minus_sign s.
Proof.
  unfold GenerateReport.parse_cpu, has_minus_sign.
  destruct (chars s) as [|a l]; [by intros [= <-] Hq|].
  pose proof (strip_clean (a :: l)) as Hw. unfold drop_last.
  destruct (ends_with _ _); intros H Hq.
  - apply scaled_float_negative in H as (x & H & Hx); [|positive_scale|done].
    (eapply float_take_negative; eassumption).
  - eapply float_clean_negative; eassumption.
Qed.

Lemma generate_report_parse_memory_sign (s : string) (q : Q) :
  GenerateReport.parse_memory s = Ok q → q < 0 → has_minus_sign s.
Proof.
  unfold GenerateReport.parse_memory, has_minus_sign.
  destruct (chars s) as [|a l]; [by intros [= <-] Hq|].
  pose proof (strip_clean (a :: l)) as Hw.
  unfold GenerateReport.units, GenerateReport.parse_with_units, drop_last.
  intros H Hq.
  repeat case_match; simplify_eq;
    match goal with
    | E : bind _ _ = Ok _ |- _ =>
        apply scaled_float_negative in E as (x & E & Hx);
        [ first [ (eapply float_take_negative; eassumption)
                | (eapply float_clean_negative; eassumption) ]
        | positive_scale
        | done ]
    end.
Qed.

Lemma audit_pr_parse_resource_value_sign (s rt : string) (q : Q) :
  AuditPr.parse_resource_value s rt = Ok q → q < 0 → has_minus_sign s.
Proof.
  unfold AuditPr.parse_resource_value, has_minus_sign.
  destruct (chars s) as [|a l]; [by intros [= <-] Hq|].
  pose proof (strip_clean (a :: l)) as Hw. unfold drop_last.
  intros H Hq.
  repeat case_match; simplify_eq;
    try (eapply float_take_negative; eassumption);
    try (eapply float_clean_negative; eassumption);
    try (by apply Qlt_irrefl in Hq);
    match goal with
    | E : bind _ _ = Ok _ |- _ =>
        apply scaled_float_negative in E as (x & E & Hx);
        [ first [ (eapply float_take_negative; eassumption)
                | (eapply float_clean_negative; eassumption) ]
        | positive_scale
        | done ]
    end.
Qed.

(** C2 (amended).  A quantity parser returns a negative value only for an
    input that, once stripped, starts with a minus sign; every other input
    parses to a non-negative value or does not return a number. *)
Theorem parsers_negative_only_with_minus_sign (s : string) (q : Q) :
  GenerateReport.parse_cpu s = Ok q ∨ GenerateReport.parse_memory s = Ok q ∨
  (∃ resource_type, AuditPr.parse_resource_value s resource_type = Ok q) →
  q < 0 → has_minus_sign s.
Proof.
  intros [H|[H|[rt H]]] Hq.
  - by apply (generate_report_parse_cpu_sign s q).
  - by apply (generate_report_parse_memory_sign s q).
  - by apply (audit_pr_parse_resource_value_sign s rt q).
Qed.

Lemma parsers_negative_only_with_minus_sign_witness :
  has_minus_sign "-2Gi".
Proof.
  apply (parsers_negative_only_with_minus_sign "-2Gi" (- (2))).
  - right. left. vm_compute. reflexivity.
  - reflexivity.
Defined.

(** ** C3: swapping the two sides of a diff *)

Section DiffSymmetry.
Import AuditPr.

(** A workload between one and two replicas, present on one side only. *)
Definition scaled_snapshot : gmap string ResourceSpec :=
  {[ "api@k8s/api.yaml" :=
       {| memory := 1; cpu := 0; min_replicas := 1; max_replicas := 2;
          kind := "HorizontalPodAutoscaler" |} ]}.

Lemma abs_gt_one (x : Q) : Qgt_b (Qabs_b x) 1 = true ↔ x < - (1) ∨ 1 < x.
Proof.
  unfold Qabs_b. destruct (Qlt_b x 0) eqn:E; rewrite Qgt_b_true.
  - apply Qlt_b_true in E. split; [intros; left | intros [?|?]]; lra.
  - apply Qlt_b_false in E. split; [intros; right | intros [?|?]]; lra.
Qed.

Lemma cost_diffs_swap (a b : ResourceSpec) :
  (cost_diffs a b).1 == - (cost_diffs b a).1 ∧
  (cost_diffs a b).2 == - (cost_diffs b a).2.
Proof. unfold cost_diffs; simpl. split; ring. Qed.

Lemma cost_diffs_static (a b : ResourceSpec) :
  min_replicas a = max_replicas a → min_replicas b = max_replicas b →
  (cost_diffs a b).2 == - (cost_diffs b a).1.
Proof. unfold cost_diffs; simpl. intros -> ->. ring. Qed.

Lemma cost_change_fields (f : string) (A B : gmap string ResourceSpec)
    (k : string) (c : CostChange) :
  cost_change f A B k = Some c →
  let old_res := default absent_resource (A !! k) in
  let new_res := default absent_resource (B !! k) in
  Qgt_b (Qabs_b (cost_diffs old_res new_res).2) 1 = true ∧
  min_cost_diff c = (cost_diffs old_res new_res).1 ∧
  max_cost_diff c = (cost_diffs old_res new_res).2 ∧
  resource c = str (before_at (chars k)) ∧
  old_min_replicas c = min_replicas old_res ∧
  old_max_replicas c = max_replicas old_res ∧
  new_min_replicas c = min_replicas new_res ∧
  new_max_replicas c = max_replicas new_res.
Proof.
  unfold cost_change. cbv zeta.
  destruct (cost_diffs _ _) as [lo hi] eqn:E. cbn [fst snd].
  destruct (Qgt_b (Qabs_b hi) 1) eqn:T; [|done].
  intros [= <-]. by cbn.
Qed.

Lemma cost_change_reported (f : string) (A B : gmap string ResourceSpec) (k : string) :
  let old_res := default absent_resource (A !! k) in
  let new_res := default absent_resource (B !! k) in
  Qgt_b (Qabs_b (cost_diffs old_res new_res).2) 1 = true →
  is_Some (cost_change f A B k).
Proof.
  unfold cost_change. cbv zeta. destruct (cost_diffs _ _) as [lo hi]. cbn [fst snd].
  by intros ->.
Qed.

End DiffSymmetry.

(** C3, as stated, fails: with a replica range on one side, the upper
    end of [diff(A,B)] is not the negated lower end of [diff(B,A)]. *)
Lemma diff_symmetry_fails_on_replica_range :
  ∃ c c',
    AuditPr.compare_resources "k8s/api.yaml" scaled_snapshot ∅ = [c] ∧
    AuditPr.compare_resources "k8s/api.yaml" ∅ scaled_snapshot = [c'] ∧
    AuditPr.resource c = AuditPr.resource c' ∧
    AuditPr.max_cost_diff c == - (96) ∧
    AuditPr.min_cost_diff c' == 48 ∧
    ¬ AuditPr.max_cost_diff c == - AuditPr.min_cost_diff c'.
Proof.
  eexists _, _. split_and!; [vm_compute; reflexivity ..|]. vm_compute. congruence.
Qed.

(** C3 (amended).  Swapping the two snapshots negates each end of the
    range: every identity reported by [diff(A,B)] is reported by
    [diff(B,A)] with [maxAnnualDelta] and [minAnnualDelta] both negated.
    The upper end of one is the negated lower end of the other when the
    replica counts of both sides are static (min = max). *)
Theorem diff_swap_negates_each_end (f : string)
    (A B : gmap string AuditPr.ResourceSpec) (c : AuditPr.CostChange) :
  c ∈ AuditPr.compare_resources f A B →
  ∃ c', c' ∈ AuditPr.compare_resources f B A ∧
        AuditPr.resource c' = AuditPr.resource c ∧
        AuditPr.max_cost_diff c == - AuditPr.max_cost_diff c' ∧
        AuditPr.min_cost_diff c == - AuditPr.min_cost_diff c' ∧
        (AuditPr.old_min_replicas c = AuditPr.old_max_replicas c →
         AuditPr.new_min_replicas c = AuditPr.new_max_replicas c →
         AuditPr.max_cost_diff c == - AuditPr.min_cost_diff c').
Proof.
  unfold AuditPr.compare_resources.
  intros (k & Hk & Hc)%list_elem_of_omap.
  apply cost_change_fields in Hc as (Hrep & Hmin & Hmax & Hres & Ha & Hb & Hc & Hd).
  set (a := default AuditPr.absent_resource (A !! k)) in *.
  set (b := default AuditPr.absent_resource (B !! k)) in *.
  destruct (cost_diffs_swap a b) as [Hlo Hhi].
  destruct (cost_change_reported f B A k) as [c' Hc'].
  { fold a b. apply abs_gt_one. apply abs_gt_one in Hrep.
    destruct Hrep; [right | left]; lra. }
  exists c'. split.
  { apply list_elem_of_omap. exists k. split; [|done].
    by rewrite (union_comm_L (dom B) (dom A)). }
  apply cost_change_fields in Hc' as (_ & Hmin' & Hmax' & Hres' & _).
  fold a b in Hmin', Hmax'.
  rewrite Hres, Hres', Hmin, Hmax, Hmin', Hmax', Ha, Hb, Hc, Hd.
  split_and!; [done | exact Hhi | exact Hlo |].
  intros Ea Eb. by apply cost_diffs_static.
Qed.

Lemma diff_swap_negates_each_end_witness :
  ∃ c', c' ∈ AuditPr.compare_resources "k8s/api.yaml" ∅ scaled_snapshot ∧
        AuditPr.max_cost_diff c' == 96 ∧ AuditPr.min_cost_diff c' == 48.
Proof.
  destruct (diff_swap_negates_each_end "k8s/api.yaml" scaled_snapshot ∅
              {| AuditPr.resource := "api"; AuditPr.file := "k8s/api.yaml";
                 AuditPr.old_memory := 1; AuditPr.new_memory := 0;
                 AuditPr.old_cpu := 0; AuditPr.new_cpu := 0;
                 AuditPr.old_min_replicas := 1; AuditPr.old_max_replicas := 2;
                 AuditPr.new_min_replicas := 1; AuditPr.new_max_replicas := 1;
                 AuditPr.min_cost_diff := 0 * 4 * 12 * 1 - 48;
                 AuditPr.max_cost_diff := 0 * 4 * 12 * 1 - 96;
                 AuditPr.has_range := false;
                 AuditPr.change_kind := "Unknown" |})
    as (c' & Hin & _ & Hmax & Hmin & _).
  - vm_compute. left.
  - exists c'. split; [exact Hin|]. split.
    + apply Qopp_comp in Hmax. rewrite Qopp_involutive in Hmax.
      rewrite <- Hmax. reflexivity.
    + apply Qopp_comp in Hmin. rewrite Qopp_involutive in Hmin.
      rewrite <- Hmin. reflexivity.
Defined.

(** ** C4: errors raised by the extraction *)

(** A manifest of a templated chart: the memory request is not a number. *)
Definition templated_manifest : string :=
"apiVersion: apps/v1
kind: Deployment
metadata:
  name: api
spec:
  template:
    spec:
      containers:
      - name: api
        resources:
          requests:
            memory: {{ .Values.memory }}
            cpu: 250m
".

(** A manifest whose payloads are well formed, in two documents. *)
Definition plain_manifest : string :=
"kind: Service
metadata:
  name: api
---
kind: Deployment
metadata:
  name: api
replicas: 3
requests:
  memory: 2Gi
  cpu: 250m
".

(** C4, as stated, fails: a located payload that is not a number makes
    the extraction raise [ValueError]. *)
Lemma extraction_raises_on_malformed_payload :
  AuditPr.extract_resources_from_yaml templated_manifest "k8s/api.yaml"
  = Raise (ValueError "{{ .Values.memory }}").
Proof. vm_compute. reflexivity. Qed.

Section Extraction.
Import Re AuditPr.

(** The payload located by [pattern] in [document], if any, is accepted
    by [parse_resource_value]. *)
Definition payload_accepted (pattern : regex) (resource_type : string)
    (document : list ascii) : Prop :=
  match search pattern document with
  | Some m => ¬ raises (parse_resource_value (str (group1 m)) resource_type)
  | None => True
  end.

Definition payloads_accepted (document : list ascii) : Prop :=
  payload_accepted memory_pattern "memory" document ∧
  payload_accepted cpu_pattern "cpu" document.

(** The count located by [pattern] in [document], if any, is within the
    limit of [int()]. *)
Definition count_accepted (pattern : regex) (document : list ascii) : Prop :=
  match search pattern document with
  | Some m => (length (group1 m) <=? int_max_str_digits)%nat = true
  | None => True
  end.

Definition counts_accepted (document : list ascii) : Prop :=
  count_accepted replicas_pattern document ∧
  count_accepted min_replicas_pattern document ∧
  count_accepted max_replicas_pattern document.

(** Nothing located in the document is refused by [float()] or [int()]. *)
Definition document_accepted (document : list ascii) : Prop :=
  payloads_accepted document ∧ counts_accepted document.

Lemma int_of_digits_accepted (s : list ascii) :
  (length s <=? int_max_str_digits)%nat = true → int_of_digits s = Ok (digits_value s).
Proof. unfold int_of_digits. by intros ->. Qed.

Lemma bool_decide_is_Some {A : Type} (x : A) : bool_decide (is_Some (Some x)) = true.
Proof. apply bool_decide_eq_true_2. eauto. Qed.

Lemma bool_decide_is_None {A : Type} : bool_decide (is_Some (@None A)) = false.
Proof. apply bool_decide_eq_false_2. by intros [? ?]. Qed.

Ltac simpl_is_some H :=
  repeat first [ rewrite bool_decide_is_Some in H | rewrite bool_decide_is_None in H ].

Lemma extract_document_accepted (f : string) (i : nat) (d : list ascii) :
  document_accepted d → ¬ raises (extract_document f i d).
Proof.
  unfold document_accepted, payloads_accepted, payload_accepted, counts_accepted,
    count_accepted, extract_document.
  intros [[Hm Hc] (Hr & Hmin & Hmax)]. destruct (strip d); [intros []|].
  destruct (search memory_pattern d) as [m|], (search cpu_pattern d) as [c|];
    repeat match goal with
           | |- context [bool_decide (is_Some (Some ?x))] =>
               rewrite (bool_decide_eq_true_2 (is_Some (Some x))) by eauto
           | |- context [bool_decide (is_Some (@None ?T))] =>
               rewrite (bool_decide_eq_false_2 (is_Some (@None T))) by (by intros [? ?])
           end;
    cbn [orb]; try (intros []);
    repeat match goal with
           | H : ¬ raises ?r |- context [bind ?r _] =>
               destruct r; cbn [bind]; try (intros []); try (by destruct H)
           end;
    cbn [bind];
    destruct (String.eqb _ "HorizontalPodAutoscaler");
    destruct (search replicas_pattern d), (search min_replicas_pattern d),
      (search max_replicas_pattern d);
    rewrite ?int_of_digits_accepted by done; cbn [bind]; intros [].
Qed.

Lemma extract_document_omits (f : string) (i : nat) (d : list ascii) :
  search memory_pattern d = None → search cpu_pattern d = None →
  extract_document f i d = Ok None.
Proof.
  unfold extract_document. intros -> ->. by destruct (strip d).
Qed.

Lemma extract_document_rejected (f : string) (i : nat) (d m : list ascii) (rt : string) :
  strip d ≠ [] →
  (search memory_pattern d = Some (Some m) ∧ rt = "memory" ∨
   search cpu_pattern d = Some (Some m) ∧ rt = "cpu" ∧
   payload_accepted memory_pattern "memory" d) →
  raises (parse_resource_value (str m) rt) →
  ¬ (∃ r, extract_document f i d = Ok r).
Proof.
  unfold extract_document, payload_accepted. intros Hd H Hr [r Hex].
  destruct (strip d); [done|].
  destruct H as [[Hm ->]|(Hc & -> & Ha)].
  - rewrite Hm in Hex. simpl_is_some Hex. cbn [orb] in Hex.
    change (group1 (Some m)) with m in Hex.
    destruct (parse_resource_value (str m) "memory"); cbn [bind] in Hex;
      [destruct Hr | done | done].
  - rewrite Hc in Hex. simpl_is_some Hex. rewrite orb_true_r in Hex.
    change (group1 (Some m)) with m in Hex.
    destruct (search memory_pattern d) as [m'|]; cbn [bind] in Hex.
    + destruct (parse_resource_value (str (group1 m')) "memory");
        cbn [bind] in Hex; [|done|done].
      destruct (parse_resource_value (str m) "cpu"); cbn [bind] in Hex;
        [destruct Hr | done | done].
    + destruct (parse_resource_value (str m) "cpu"); cbn [bind] in Hex;
        [destruct Hr | done | done].
Qed.

Lemma fold_extract_no_raise (f : string) (l : list (nat * list ascii))
    (acc : result (gmap string ResourceSpec)) :
  ¬ raises acc → Forall (λ d, document_accepted d.2) l →
  ¬ raises (fold_left (extract_step f) l acc).
Proof.
  intros Hacc Hl. revert acc Hacc.
  induction Hl as [|d l Hd _ IH]; intros acc Hacc; [done|].
  simpl. apply IH. unfold extract_step.
  destruct acc as [resources| |]; cbn [bind]; try done.
  pose proof (extract_document_accepted f d.1 d.2 Hd) as H.
  by destruct (extract_document f d.1 d.2).
Qed.

(** A deployment whose replica count has 4301 digits. *)
Definition oversize_manifest : string :=
  str (chars "kind: Deployment
metadata:
  name: api
replicas: " ++ repeat "1"%char 4301 ++ chars "
requests:
  memory: 2Gi
").

(** Both payloads of that manifest are accepted, yet [int()] refuses the
    count and the extraction raises. *)
Lemma extraction_raises_on_oversize_count :
  payloads_accepted (chars oversize_manifest) ∧
  raises (extract_resources_from_yaml oversize_manifest "k8s/api.yaml").
Proof.
  split; [split|]; vm_compute; first [exact I | intros []].
Qed.

Lemma Forall_zip_snd {A B : Type} (P : B → Prop) (k : list A) (l : list B) :
  Forall P l → Forall (λ d, P d.2) (zip k l).
Proof.
  intros Hl. revert k. induction Hl as [|x l Hx _ IH]; intros [|a k]; simpl;
    constructor; [done | apply IH].
Qed.

End Extraction.

(** C4 (amended).  Extraction raises no error on a manifest in which every
    memory or cpu payload located in a document is accepted by the quantity
    parser and every replica count located has at most 4300 digits, the
    limit of [int()]; a document where no payload is located is silently
    omitted. *)
Theorem extraction_raises_only_on_rejected_payload (yaml_content file_path : string) :
  Forall document_accepted (AuditPr.split AuditPr.doc_separator (chars yaml_content)) →
  ¬ raises (AuditPr.extract_resources_from_yaml yaml_content file_path) ∧
  ∀ i d, d ∈ AuditPr.split AuditPr.doc_separator (chars yaml_content) →
         Re.search AuditPr.memory_pattern d = None →
         Re.search AuditPr.cpu_pattern d = None →
         AuditPr.extract_document file_path i d = Ok None.
Proof.
  intros H. split.
  - unfold AuditPr.extract_resources_from_yaml.
    apply fold_extract_no_raise; [intros []|].
    unfold AuditPr.enumerate. by apply (Forall_zip_snd document_accepted).
  - intros i d _. apply extract_document_omits.
Qed.

Lemma extraction_raises_only_on_rejected_payload_witness :
  ¬ raises (AuditPr.extract_resources_from_yaml plain_manifest "k8s/api.yaml").
Proof.
  apply (extraction_raises_only_on_rejected_payload plain_manifest "k8s/api.yaml").
  set (l := AuditPr.split _ _). vm_compute in l. subst l.
  repeat (apply List.Forall_cons;
          [unfold document_accepted, payloads_accepted, counts_accepted;
           split_and!; vm_compute; first [exact I | reflexivity | intros []]|]).
  apply List.Forall_nil.
Defined.

(** ** C5: underutilized containers *)

Section Underutilized.
Import GenerateReport.

(** A container with requests, no limits, and usage at a tenth of both
    requests. *)
Definition unlimited_pod : Pod :=
  {| pod_name := Some "worker-0"; pod_namespace := Some "prod";
     containers := [ {| container_name := Some "worker";
                        requests := {[ "memory" := "1Gi"; "cpu" := "1" ]};
                        limits := ∅ |} ] |}.

Definition unlimited_usage : gmap string Usage :=
  {[ "prod/worker-0" := {| usage_cpu := 0.1; usage_memory := 0.1 |} ]}.

(** Without a limit the CPU rule computes no waste, whatever the request
    and the usage: the guard on the limit comes first. *)
Lemma calculate_cpu_waste_no_limit (request : Q) (usage : option Q) :
  calculate_cpu_waste request 0 usage = 0.
Proof. reflexivity. Qed.

End Underutilized.

(** C5 (defect).  The specification reports a container that uses less than 20% of
    its request in either dimension, whether or not a limit is declared.
    For a container with requests of 1Gi and 1 CPU, no limits, and a usage
    of a tenth of both, the run reports the memory dimension, through its
    second check, and nothing for the CPU dimension: [calculate_cpu_waste]
    returns 0 as soon as the limit is 0, and no second check covers the
    CPU. *)
Theorem underutilized_cpu_without_limit_not_reported :
  headline (GenerateReport.analyze_pods [unlimited_pod] unlimited_usage)
  = Some [("UNDERUTILIZED_MEMORY", "LOW", 153 # 25)].
Proof. vm_compute. reflexivity. Qed.

(** ** C6: severity of a finding *)

Section Severity.
Import GenerateReport.

(** A container that requests 100 GiB, declares no limit and uses 1 GiB. *)
Definition idle_database : Pod :=
  {| pod_name := Some "db-0"; pod_namespace := Some "prod";
     containers := [ {| container_name := Some "db";
                        requests := {[ "memory" := "100Gi" ]};
                        limits := ∅ |} ] |}.

Definition idle_database_usage : gmap string Usage :=
  {[ "prod/db-0" := {| usage_cpu := 0.01; usage_memory := 1 |} ]}.

End Severity.

(** C6 (defect).  The specification buckets the severity of every finding derived
    from a savings value in three steps, [HIGH] above 500.  The findings
    built from the result of the waste functions are bucketed so, but the
    underutilized-memory finding has two steps only: a saving of 709.20
    per month, above 500, is reported [MEDIUM]. *)
Theorem underutilized_memory_never_high :
  headline (GenerateReport.analyze_pods [idle_database] idle_database_usage)
  = Some [("UNDERUTILIZED_MEMORY", "MEDIUM", 3546 # 5)] ∧
  500 < 3546 # 5 ∧
  GenerateReport.severity3 (3546 # 5) = "HIGH".
Proof. split_and!; vm_compute; reflexivity. Qed.

(** ** C7: load balancers *)

Section LoadBalancers.
Import GenerateReport.

Definition is_load_balancer (svc : Service) : bool :=
  String.eqb (default "" (svc_type svc)) "LoadBalancer".

Definition has_timestamp (svc : Service) : bool :=
  negb (String.eqb (default "" (creationTimestamp svc)) "").

Definition lb_ref (svc : Service) : LbRef :=
  {| lb_service := default "unknown" (svc_name svc);
     lb_namespace := default "default" (svc_namespace svc);
     lb_age := "unknown" |}.

(** A load balancer whose metadata carries no creation timestamp. *)
Definition undated_load_balancer : Service :=
  {| svc_name := Some "edge"; svc_namespace := Some "prod";
     creationTimestamp := None; svc_type := Some "LoadBalancer" |}.

Definition dated_load_balancer : Service :=
  {| svc_name := Some "edge"; svc_namespace := Some "prod";
     creationTimestamp := Some "2024-01-01T00:00:00Z";
     svc_type := Some "LoadBalancer" |}.

Definition cluster_ip_service : Service :=
  {| svc_name := Some "db"; svc_namespace := Some "prod";
     creationTimestamp := Some "2024-01-01T00:00:00Z";
     svc_type := Some "ClusterIP" |}.

Lemma orphaned_lbs_filter (items : list Service) :
  orphaned_lbs items
  = map lb_ref (List.filter has_timestamp (List.filter is_load_balancer items)).
Proof.
  induction items as [|svc items IH]; [done|].
  simpl. unfold is_load_balancer at 1.
  destruct (String.eqb (default "" (svc_type svc)) "LoadBalancer"); simpl; [|done].
  unfold has_timestamp at 1.
  destruct (String.eqb (default "" (creationTimestamp svc)) ""); simpl; [done|].
  by rewrite IH.
Qed.

End LoadBalancers.

(** C7, as stated, fails: a load balancer without a creation timestamp is
    not flagged, and a snapshot made of it alone yields no finding. *)
Lemma undated_load_balancer_not_flagged :
  GenerateReport.analyze_load_balancers [undated_load_balancer] = [].
Proof. reflexivity. Qed.

(** C7 (amended).  A snapshot whose only service of type LoadBalancer has
    a non-empty creation timestamp yields exactly one [ORPHANED_LB]
    finding, for one resource, whose monthly savings are the flat monthly
    cost of a load balancer. *)
Theorem single_dated_load_balancer_flagged
    (items : list GenerateReport.Service) (svc : GenerateReport.Service) :
  List.filter is_load_balancer items = [svc] →
  has_timestamp svc = true →
  ∃ f, GenerateReport.analyze_load_balancers items = [f] ∧
       GenerateReport.ftype f = "ORPHANED_LB" ∧
       GenerateReport.resourcesAffected f = Some 1%nat ∧
       GenerateReport.monthlySavings f == GenerateReport.LB_COST_PER_MONTH.
Proof.
  intros Hlb Hts. unfold GenerateReport.analyze_load_balancers.
  rewrite orphaned_lbs_filter, Hlb. simpl. rewrite Hts. simpl.
  eexists. split; [reflexivity|]. simpl. split_and!; [done | done | reflexivity].
Qed.

Lemma single_dated_load_balancer_flagged_witness :
  ∃ f, GenerateReport.analyze_load_balancers [cluster_ip_service; dated_load_balancer] = [f] ∧
       GenerateReport.ftype f = "ORPHANED_LB" ∧
       GenerateReport.resourcesAffected f = Some 1%nat ∧
       GenerateReport.monthlySavings f == GenerateReport.LB_COST_PER_MONTH.
Proof.
  apply (single_dated_load_balancer_flagged
           [cluster_ip_service; dated_load_balancer] dated_load_balancer).
  - reflexivity.
  - reflexivity.
Defined.

(** ** C8: the flat [replicas] field *)

(** A Deployment as it is written: [replicas] is a field of [spec]. *)
Definition deployment_manifest : string :=
"apiVersion: apps/v1
kind: Deployment
metadata:
  name: web
spec:
  replicas: 3
  template:
    spec:
      containers:
      - name: web
        resources:
          requests:
            memory: 1Gi
            cpu: 500m
".

(** The same fields with [replicas] at the start of a line. *)
Definition flat_manifest : string :=
"kind: Deployment
metadata:
  name: web
replicas: 3
requests:
  memory: 1Gi
  cpu: 500m
".

(** An autoscaler document with its bounds indented under [spec]. *)
Definition autoscaler_manifest : string :=
"kind: HorizontalPodAutoscaler
metadata:
  name: web
spec:
  minReplicas: 2
  maxReplicas: 10
requests:
  memory: 2Gi
  cpu: 1
".

(** The kind and the replica range stored under [key]. *)
Definition replica_range (r : result (gmap string AuditPr.ResourceSpec)) (key : string)
  : option (string * Z * Z) :=
  match r with
  | Ok resources =>
      (λ s, (AuditPr.kind s, AuditPr.min_replicas s, AuditPr.max_replicas s))
        <$> resources !! key
  | _ => None
  end.

(** C8 (defect).  The specification gives a document of a kind other than the
    autoscaler, with a [replicas] field of value [N] at any indentation,
    the range [N .. N].  The pattern for [replicas] is anchored at the
    start of a line, so the field of a Deployment, which is indented under
    [spec], is not read: the manifest below declares three replicas and
    the extracted range is [1 .. 1].  Only an unindented field is read,
    whereas the bounds of an autoscaler are read at any indentation. *)
Theorem indented_replicas_not_read :
  replica_range (AuditPr.extract_resources_from_yaml deployment_manifest "k8s/web.yaml")
    "web@k8s/web.yaml" = Some ("Deployment", 1%Z, 1%Z) ∧
  replica_range (AuditPr.extract_resources_from_yaml flat_manifest "k8s/web.yaml")
    "web@k8s/web.yaml" = Some ("Deployment", 3%Z, 3%Z) ∧
  replica_range (AuditPr.extract_resources_from_yaml autoscaler_manifest "k8s/web.yaml")
    "web@k8s/web.yaml" = Some ("HorizontalPodAutoscaler", 2%Z, 10%Z).
Proof. split_and!; vm_compute; reflexivity. Qed.

(** ** C9: aggregation and the order of the findings *)

Section Aggregation.
Import GenerateReport.

(** A released volume of 200 GB: at 0.10 per GB it costs as much as a
    load balancer. *)
Definition released_volume : Volume :=
  {| pv_name := Some "pv-1"; storage := Some "200G"; phase := Some "Released" |}.

(** The findings of the load-balancer and of the storage analysis. *)
Definition lb_findings : list Finding := analyze_load_balancers [dated_load_balancer].

(** A finding of severity [LOW]. *)
Definition pv_low : Finding :=
  {| ftype := "UNBOUND_PV"; severity := "LOW";
     pod := None; namespace := None; container := None;
     monthlySavings := 0; podsAffected := None; resourcesAffected := None;
     details := [] |}.

Definition pv_findings : list Finding :=
  match analyze_storage [released_volume] with
  | Ok fs => fs
  | _ => []
  end.

(** What an aggregated finding says apart from its total savings, a sum
    of floats taken in the order of the input, and from its examples. *)
Definition summary (a : Aggregated)
  : string * string * string * option nat * option nat :=
  (agg_type a, agg_severity a, description a,
   agg_resourcesAffected a, agg_podsAffected a).

(** The severities of the data model. *)
Definition known_severity (f : Finding) : Prop :=
  severity f = "HIGH" ∨ severity f = "MEDIUM" ∨ severity f = "LOW".

Definition has_type (t : string) (f : Finding) : bool := String.eqb (ftype f) t.

Definition keys (a : list (string * list Finding)) : list string := map fst a.

(** [by_type.get(t, [])] *)
Fixpoint members (t : string) (a : list (string * list Finding)) : list Finding :=
  match a with
  | [] => []
  | (t0, g) :: rest => if String.eqb t0 t then g else members t rest
  end.

Lemma members_add (f : Finding) (a : list (string * list Finding)) (t : string) :
  members t (add_to_group f a) = members t a ++ (if has_type t f then [f] else []).
Proof.
  unfold has_type. induction a as [|[t0 g] a IH]; simpl.
  - by destruct (String.eqb (ftype f) t).
  - destruct (String.eqb_spec t0 (ftype f)) as [->|Hne]; simpl.
    + destruct (String.eqb (ftype f) t); [done | by rewrite app_nil_r].
    + destruct (String.eqb_spec t0 t) as [->|Hne']; [|exact IH].
      destruct (String.eqb_spec (ftype f) t) as [E|_]; [by destruct Hne|].
      by rewrite app_nil_r.
Qed.

Lemma keys_cons (t : string) (g : list Finding) (a : list (string * list Finding)) :
  keys ((t, g) :: a) = t :: keys a.
Proof. reflexivity. Qed.

Lemma keys_add (f : Finding) (a : list (string * list Finding)) :
  keys (add_to_group f a)
  = if decide (ftype f ∈ keys a) then keys a else keys a ++ [ftype f].
Proof.
  induction a as [|[t0 g] a IH]; cbn [add_to_group].
  - rewrite decide_False; [done | apply not_elem_of_nil].
  - destruct (String.eqb_spec t0 (ftype f)) as [->|Hne]; rewrite !keys_cons.
    + rewrite decide_True; [done | left].
    + rewrite IH. destruct (decide (ftype f ∈ keys a)) as [Hin|Hnin].
      * rewrite decide_True; [done | by right].
      * rewrite decide_False; [done|].
        intros [E|Hin]%elem_of_cons; [by destruct Hne | done].
Qed.

Lemma members_fold (t : string) (l : list Finding) (acc : list (string * list Finding)) :
  members t (fold_left (λ acc f, add_to_group f acc) l acc)
  = members t acc ++ List.filter (has_type t) l.
Proof.
  revert acc. induction l as [|f l IH]; intros acc; simpl.
  - by rewrite app_nil_r.
  - rewrite IH, members_add. rewrite <- app_assoc.
    by destruct (has_type t f).
Qed.

Lemma keys_fold_NoDup (l : list Finding) (acc : list (string * list Finding)) :
  NoDup (keys acc) → NoDup (keys (fold_left (λ acc f, add_to_group f acc) l acc)).
Proof.
  revert acc. induction l as [|f l IH]; intros acc Hacc; simpl; [done|].
  apply IH. rewrite keys_add. destruct (decide (ftype f ∈ keys acc)); [done|].
  apply NoDup_app. split_and!; [done | | apply NoDup_singleton].
  intros x Hx ->%list_elem_of_singleton. done.
Qed.

Lemma keys_fold_elem (t : string) (l : list Finding) (acc : list (string * list Finding)) :
  t ∈ keys (fold_left (λ acc f, add_to_group f acc) l acc)
  ↔ t ∈ keys acc ∨ ∃ f, f ∈ l ∧ ftype f = t.
Proof.
  revert acc. induction l as [|f l IH]; intros acc; simpl.
  - split; [by left | intros [H|(f & Hf & _)]; [done | by apply elem_of_nil in Hf]].
  - rewrite IH, keys_add. split.
    + intros [H|(f' & Hf' & E)].
      * destruct (decide (ftype f ∈ keys acc)); [by left|].
        apply elem_of_app in H as [H| ->%list_elem_of_singleton]; [by left|].
        right. exists f. split; [left | done].
      * right. exists f'. split; [by right | done].
    + intros [H|(f' & Hf' & E)].
      * left. destruct (decide (ftype f ∈ keys acc)); [done|].
        apply elem_of_app. by left.
      * apply elem_of_cons in Hf' as [->|Hf'].
        -- left. destruct (decide (ftype f ∈ keys acc)); [by rewrite <- E|].
           apply elem_of_app. right. rewrite E. by apply list_elem_of_singleton.
        -- right. by exists f'.
Qed.

Lemma groups_by_members (a : list (string * list Finding)) :
  NoDup (keys a) → a = map (λ t, (t, members t a)) (keys a).
Proof.
  induction a as [|[t0 g] a IH]; [done|].
  simpl. intros [Hnin Hnd]%NoDup_cons. rewrite String.eqb_refl. f_equal.
  rewrite (IH Hnd) at 1. apply map_ext_in. intros t Hin%list_elem_of_In.
  destruct (String.eqb_spec t0 t) as [->|_]; [done | reflexivity].
Qed.

(** The groups are the findings of each type, the types in the order of
    their first occurrence. *)
Lemma group_by_type_spec (F : list Finding) :
  group_by_type F
  = map (λ t, (t, List.filter (has_type t) F)) (keys (group_by_type F)).
Proof.
  unfold group_by_type.
  rewrite (groups_by_members (fold_left _ F [])) at 1
    by (apply keys_fold_NoDup, NoDup_nil_2).
  apply map_ext. intros t. by rewrite members_fold.
Qed.

Lemma filter_perm {A : Type} (p : A → bool) (l l' : list A) :
  l ≡ₚ l' → List.filter p l ≡ₚ List.filter p l'.
Proof.
  induction 1 as [|x l l' _ IH|x y l|l l' l'' _ IH1 _ IH2]; simpl.
  - done.
  - destruct (p x); [by constructor | done].
  - destruct (p x), (p y); try done. apply perm_swap.
  - by etrans.
Qed.

Lemma keys_perm (F F' : list Finding) :
  F ≡ₚ F' → keys (group_by_type F) ≡ₚ keys (group_by_type F').
Proof.
  intros HF. unfold group_by_type.
  apply NoDup_Permutation; try (apply keys_fold_NoDup, NoDup_nil_2).
  intros t. rewrite !keys_fold_elem.
  split; (intros [H|(f & Hf & E)]; [by left | right; exists f; split; [|done]]).
  - by rewrite <- HF.
  - by rewrite HF.
Qed.

(** *** The fields of a group that do not depend on the order *)

Lemma max_by_key {A : Type} (key : A → nat) (best : A) (l : list A) :
  key (max_by key best l) = (key best `max` max_list (map key l))%nat.
Proof.
  revert best. induction l as [|x l IH]; intros best; simpl; [lia|].
  destruct (Nat.ltb_spec (key best) (key x)); rewrite IH; lia.
Qed.

Lemma max_list_perm (l l' : list nat) : l ≡ₚ l' → max_list l = max_list l'.
Proof.
  induction 1 as [|x l l' _ IH|x y l|l l' l'' _ IH1 _ IH2]; simpl; lia.
Qed.

Lemma group_severity_rank (t : string) (g : list Finding) :
  g ≠ [] →
  severity_order (agg_severity (aggregate_group t g))
  = max_list (map (λ x, severity_order (severity x)) g).
Proof.
  destruct g as [|f rest]; [done|]. intros _. simpl.
  apply (max_by_key (λ x, severity_order (severity x))).
Qed.

Lemma pods_affected_perm (g g' : list Finding) :
  g ≡ₚ g' → pods_affected g = pods_affected g'.
Proof.
  intros H. unfold pods_affected. f_equal.
  apply list_to_set_perm_L, Permutation_map, filter_perm, H.
Qed.

Lemma max_by_elem {A : Type} (key : A → nat) (best : A) (l : list A) :
  max_by key best l ∈ best :: l.
Proof.
  revert best. induction l as [|x l IH]; intros best; simpl; [left|].
  destruct (key best <? key x)%nat.
  - right. apply IH.
  - specialize (IH best). apply elem_of_cons in IH as [E|Hin]; [rewrite E; left | right; by right].
Qed.

Lemma group_severity_known (t : string) (g : list Finding) :
  Forall known_severity g →
  ∃ f, known_severity f ∧ agg_severity (aggregate_group t g) = severity f.
Proof.
  destruct g as [|f rest]; intros Hg.
  - exists pv_low. split; [right; by right | done].
  - exists (max_by (λ x, severity_order (severity x)) f rest). split; [|done].
    rewrite Forall_forall in Hg. apply Hg, max_by_elem.
Qed.

Lemma severity_order_inj (f f' : Finding) :
  known_severity f → known_severity f' →
  severity_order (severity f) = severity_order (severity f') →
  severity f = severity f'.
Proof.
  intros [->|[->| ->]] [->|[->| ->]]; by vm_compute.
Qed.

Lemma Forall_filter_bool {A : Type} (P : A → Prop) (p : A → bool) (l : list A) :
  Forall P l → Forall P (List.filter p l).
Proof.
  induction 1 as [|x l Hx _ IH]; simpl; [done|].
  destruct (p x); [by constructor | done].
Qed.

Lemma summary_perm (t : string) (g g' : list Finding) :
  g ≡ₚ g' → Forall known_severity g →
  summary (aggregate_group t g) = summary (aggregate_group t g').
Proof.
  intros H Hg. unfold summary.
  assert (Hg' : Forall known_severity g') by (by rewrite <- H).
  assert (Hrank : severity_order (agg_severity (aggregate_group t g))
                  = severity_order (agg_severity (aggregate_group t g'))).
  { destruct g as [|f rest].
    - by apply Permutation_nil in H as ->.
    - rewrite !group_severity_rank.
      + by apply max_list_perm, Permutation_map.
      + intros ->. by apply Permutation_nil_r in H.
      + done. }
  assert (Hsev : agg_severity (aggregate_group t g) = agg_severity (aggregate_group t g')).
  { destruct (group_severity_known t g Hg) as (f & Hf & E).
    destruct (group_severity_known t g' Hg') as (f' & Hf' & E').
    rewrite E, E' in *. by apply severity_order_inj. }
  rewrite Hsev. simpl.
  by rewrite (pods_affected_perm g g' H), (Permutation_length H).
Qed.

Lemma insert_desc_perm {A : Type} (key : A → Q) (x : A) (l : list A) :
  insert_desc key x l ≡ₚ x :: l.
Proof.
  induction l as [|y l IH]; simpl; [done|].
  destruct (Qgt_b (key y) (key x)); [|done].
  rewrite IH. apply perm_swap.
Qed.

Lemma sorted_desc_perm {A : Type} (key : A → Q) (l : list A) :
  sorted_desc key l ≡ₚ l.
Proof.
  induction l as [|x l IH]; simpl; [done|].
  by rewrite insert_desc_perm, IH.
Qed.

Lemma aggregate_findings_unfold (F : list Finding) :
  aggregate_findings F
  = sorted_desc agg_monthlySavings
      (map (λ tg, aggregate_group tg.1 tg.2) (group_by_type F)).
Proof. by destruct F. Qed.

End Aggregation.

(** C9, as stated, fails: two groups of equal total savings come out in
    the order in which their types first occur in the input. *)
Lemma aggregate_depends_on_input_order :
  lb_findings ++ pv_findings ≡ₚ pv_findings ++ lb_findings ∧
  headline (Ok (lb_findings ++ pv_findings))
  = Some [("ORPHANED_LB", "MEDIUM", 20); ("UNBOUND_PV", "LOW", 20)] ∧
  map GenerateReport.agg_type (GenerateReport.aggregate_findings (lb_findings ++ pv_findings))
  = ["ORPHANED_LB"; "UNBOUND_PV"] ∧
  map GenerateReport.agg_type (GenerateReport.aggregate_findings (pv_findings ++ lb_findings))
  = ["UNBOUND_PV"; "ORPHANED_LB"] ∧
  GenerateReport.aggregate_findings (lb_findings ++ pv_findings)
  ≠ GenerateReport.aggregate_findings (pv_findings ++ lb_findings).
Proof.
  split_and!; [apply Permutation_app_comm | by vm_compute ..|].
  intros E. apply (f_equal (map GenerateReport.agg_type)) in E. vm_compute in E. discriminate.
Qed.

(** The examples of a group follow the input as well: two findings of
    one type with equal savings are shown in the order in which they
    come. *)
Definition idle_cpu (pod_name : string) : GenerateReport.Finding :=
  {| GenerateReport.ftype := "UNDERUTILIZED_CPU"; GenerateReport.severity := "LOW";
     GenerateReport.pod := Some pod_name; GenerateReport.namespace := Some "prod";
     GenerateReport.container := Some "app";
     GenerateReport.monthlySavings := 10;
     GenerateReport.podsAffected := None; GenerateReport.resourcesAffected := None;
     GenerateReport.details := [] |}.

Definition shown_pods (a : GenerateReport.Aggregated) : list (option string) :=
  map GenerateReport.ex_pod (default [] (GenerateReport.examples a)).

Lemma aggregate_examples_follow_input_order :
  map shown_pods (GenerateReport.aggregate_findings [idle_cpu "a"; idle_cpu "b"])
  = [[Some "a"; Some "b"]] ∧
  map shown_pods (GenerateReport.aggregate_findings [idle_cpu "b"; idle_cpu "a"])
  = [[Some "b"; Some "a"]].
Proof. split; vm_compute; reflexivity. Qed.

(** C9 (amended).  For every list [F] of findings whose severities are
    [HIGH], [MEDIUM] or [LOW] and every permutation [F'] of [F],
    [aggregate(F')] has the same groups as [aggregate(F)] up to their
    order: the same types, each with the same severity, description and
    affected count.  The order of the groups, their total savings and
    their examples are left out: they follow the order of the input. *)
Theorem aggregate_groups_invariant (F F' : list GenerateReport.Finding) :
  F ≡ₚ F' → Forall known_severity F →
  map summary (GenerateReport.aggregate_findings F)
  ≡ₚ map summary (GenerateReport.aggregate_findings F').
Proof.
  intros HF Hsev. rewrite !aggregate_findings_unfold.
  rewrite !(Permutation_map summary (sorted_desc_perm _ _)).
  rewrite (group_by_type_spec F), (group_by_type_spec F'), !map_map. simpl.
  etrans; [apply Permutation_map, keys_perm, HF|].
  erewrite map_ext; [reflexivity|]. intros t.
  apply summary_perm; [apply filter_perm, HF | by apply Forall_filter_bool].
Qed.

Lemma aggregate_groups_invariant_witness :
  map summary (GenerateReport.aggregate_findings (lb_findings ++ pv_findings))
  ≡ₚ map summary (GenerateReport.aggregate_findings (pv_findings ++ lb_findings)).
Proof.
  apply (aggregate_groups_invariant (lb_findings ++ pv_findings) (pv_findings ++ lb_findings)).
  - apply Permutation_app_comm.
  - repeat apply List.Forall_cons; [right; left | right; right | ]; try reflexivity.
    apply List.Forall_nil.
Defined.

(** ** C10: containers without requests *)

Section MissingRequests.
Import GenerateReport.

Definition no_requests (c : Container) : Prop := requests c = ∅.

Definition lacks_requests (c : Container) : bool := bool_decide (requests c = ∅).

(** The entry that a container adds to [pods_without_requests]. *)
Definition missing_ref (pod_name namespace : string) (c : Container) : PodRef :=
  {| ref_pod := pod_name; ref_namespace := namespace;
     ref_container := default "unknown" (container_name c) |}.

(** The pod without those of its containers that lack requests. *)
Definition requested_only (p : Pod) : Pod :=
  {| pod_name := pod_name p; pod_namespace := pod_namespace p;
     containers := List.filter (λ c, negb (lacks_requests c)) (containers p) |}.

(** The entries of the containers that lack requests, in the order of the
    run. *)
Definition container_refs (pod_name namespace : string) (cs : list Container)
  : list PodRef :=
  map (missing_ref pod_name namespace) (List.filter lacks_requests cs).

Definition missing_refs (items : list Pod) : list PodRef :=
  concat (map (λ p, container_refs (default "unknown" (pod_name p))
                      (default "default" (pod_namespace p)) (containers p)) items).

Lemma analyze_container_no_requests (usage_data : gmap string Usage)
    (pod_name namespace : string) (c : Container) :
  no_requests c →
  analyze_container usage_data pod_name namespace c
  = Ok ([], [missing_ref pod_name namespace c]).
Proof.
  intros H. unfold analyze_container. by rewrite bool_decide_eq_true_2.
Qed.

Lemma analyze_container_requested (usage_data : gmap string Usage)
    (pod_name namespace : string) (c : Container) (r : list Finding * list PodRef) :
  lacks_requests c = false →
  analyze_container usage_data pod_name namespace c = Ok r → r.2 = [].
Proof.
  unfold analyze_container, lacks_requests. intros ->.
  repeat match goal with
         | |- bind ?x _ = _ → _ => destruct x; cbn [bind]; [|done|done]
         end.
  by intros [= <-].
Qed.

Lemma analyze_containers_requested (usage_data : gmap string Usage)
    (pod_name namespace : string) (cs : list Container) :
  analyze_containers usage_data pod_name namespace cs
  = bind (analyze_containers usage_data pod_name namespace
            (List.filter (λ c, negb (lacks_requests c)) cs))
      (λ r, Ok (r.1, container_refs pod_name namespace cs)) ∧
  ∀ r, analyze_containers usage_data pod_name namespace
         (List.filter (λ c, negb (lacks_requests c)) cs) = Ok r → r.2 = [].
Proof.
  unfold container_refs.
  induction cs as [|c cs [IH1 IH2]]; [by split; [|intros r [= <-]]|].
  cbn [List.filter analyze_containers]. destruct (lacks_requests c) eqn:Hc; cbn [negb map].
  - rewrite analyze_container_no_requests
      by (by apply bool_decide_eq_true_1 in Hc).
    cbn [bind fst snd]. split; [|exact IH2]. rewrite IH1.
    by destruct (analyze_containers _ _ _ (List.filter _ cs)).
  - cbn [analyze_containers]. rewrite IH1.
    pose proof (analyze_container_requested usage_data pod_name namespace c) as Hr.
    destruct (analyze_container usage_data pod_name namespace c) as [r| |];
      cbn [bind]; [|done|done].
    specialize (Hr r Hc eq_refl).
    destruct (analyze_containers _ _ _ (List.filter _ cs)) as [r'| |];
      cbn [bind fst snd]; [|done|done].
    rewrite Hr, (IH2 r' eq_refl). split; [done|]. intros ? [= <-]. done.
Qed.

Lemma analyze_items_requested (usage_data : gmap string Usage) (items : list Pod) :
  analyze_items usage_data items
  = bind (analyze_items usage_data (map requested_only items))
      (λ r, Ok (r.1, missing_refs items)) ∧
  ∀ r, analyze_items usage_data (map requested_only items) = Ok r → r.2 = [].
Proof.
  unfold missing_refs.
  induction items as [|p items [IH1 IH2]]; [by split; [|intros r [= <-]]|].
  cbn [map analyze_items concat requested_only pod_name pod_namespace containers].
  destruct (analyze_containers_requested usage_data (default "unknown" (pod_name p))
              (default "default" (pod_namespace p)) (containers p)) as [H1 H2].
  rewrite H1, IH1.
  destruct (analyze_containers _ _ _ (List.filter _ _)) as [r| |];
    cbn [bind]; [|done|done].
  destruct (analyze_items usage_data (map requested_only items)) as [r'| |];
    cbn [bind fst snd]; [|done|done].
  rewrite (H2 r eq_refl), (IH2 r' eq_refl). split; [done|]. intros ? [= <-]. done.
Qed.

(** A container with limits and observed usage but no requests. *)
Definition unrequested_container : Container :=
  {| container_name := Some "cache";
     requests := ∅;
     limits := {[ "memory" := "64Gi"; "cpu" := "16" ]} |}.

Definition unrequested_pod : Pod :=
  {| pod_name := Some "cache-0"; pod_namespace := Some "prod";
     containers := [unrequested_container] |}.

Definition unrequested_usage : gmap string Usage :=
  {[ "prod/cache-0" := {| usage_cpu := 0.01; usage_memory := 0.1 |} ]}.

End MissingRequests.

(** C10.  A container without a requests block yields no finding of any
    waste rule and adds one entry, with its pod, namespace and name, to the
    missing-requests list, whatever its limits and the observed usage.  A
    run is the run over the other containers, errors included, followed by
    the missing-requests finding when some container lacks requests: that
    finding counts the containers without requests and lists the first
    ten of their entries. *)
Theorem no_requests_only_missing_requests
    (usage_data : gmap string GenerateReport.Usage) :
  (∀ pod_name namespace c, no_requests c →
     GenerateReport.analyze_container usage_data pod_name namespace c
     = Ok ([], [missing_ref pod_name namespace c])) ∧
  (∀ items,
     GenerateReport.analyze_pods items usage_data
     = bind (GenerateReport.analyze_pods (map requested_only items) usage_data)
         (λ waste,
            Ok (waste ++ match missing_refs items with
                         | [] => []
                         | refs => [GenerateReport.missing_requests_finding refs]
                         end))) ∧
  (∀ refs,
     let m := GenerateReport.missing_requests_finding refs in
     GenerateReport.ftype m = "MISSING_REQUESTS" ∧
     GenerateReport.podsAffected m = Some (length refs) ∧
     GenerateReport.pod m = None ∧
     GenerateReport.details m = [("pods", GenerateReport.Pods (take 10 refs))]).
Proof.
  split_and!.
  - intros pod_name namespace c. apply analyze_container_no_requests.
  - intros items. unfold GenerateReport.analyze_pods.
    destruct (analyze_items_requested usage_data items) as [H1 H2]. rewrite H1.
    destruct (GenerateReport.analyze_items usage_data (map requested_only items))
      as [[waste refs]| |]; cbn [bind fst snd]; [|done|done].
    specialize (H2 _ eq_refl). cbn in H2. subst refs. cbn [bind].
    destruct (missing_refs items); [by rewrite app_nil_r | done].
  - done.
Qed.

Lemma no_requests_only_missing_requests_witness :
  GenerateReport.analyze_container unrequested_usage "cache-0" "prod" unrequested_container
  = Ok ([], [ {| GenerateReport.ref_pod := "cache-0";
                 GenerateReport.ref_namespace := "prod";
                 GenerateReport.ref_container := "cache" |} ]) ∧
  headline (GenerateReport.analyze_pods [unrequested_pod; unlimited_pod]
              (unrequested_usage ∪ unlimited_usage))
  = Some [("UNDERUTILIZED_MEMORY", "LOW", 153 # 25); ("MISSING_REQUESTS", "HIGH", 0)].
Proof.
  destruct (no_requests_only_missing_requests unrequested_usage) as (Hc & _).
  destruct (no_requests_only_missing_requests (unrequested_usage ∪ unlimited_usage))
    as (_ & Hrun & _).
  split.
  - apply Hc. reflexivity.
  - rewrite Hrun. vm_compute. reflexivity.
Defined.

(** * Further properties of the code *)

(** ** The diff of two snapshots *)

Section Diff.
Import AuditPr.

Lemma omap_all_None {A B : Type} (f : A → option B) (l : list A) :
  (∀ x, x ∈ l → f x = None) → omap f l = [].
Proof.
  induction l as [|x l IH]; intros H; [done|].
  simpl. rewrite (H x) by left. apply IH. intros y Hy. apply H. by right.
Qed.

Lemma cost_change_more_fields (f : string) (A B : gmap string ResourceSpec)
    (k : string) (c : CostChange) :
  cost_change f A B k = Some c →
  let new_res := default absent_resource (B !! k) in
  has_range c = negb (Z.eqb (min_replicas new_res) (max_replicas new_res)) ∧
  change_kind c = kind new_res ∧ file c = f.
Proof.
  unfold cost_change. cbv zeta.
  destruct (cost_diffs _ _) as [lo hi]. destruct (Qgt_b (Qabs_b hi) 1); [|done].
  intros [= <-]. by cbn.
Qed.

(** A deployment that goes from one replica of 4 GiB to one of 8 GiB. *)
Definition small_snapshot : gmap string ResourceSpec :=
  {[ "web@k8s/web.yaml" :=
       {| memory := 4; cpu := 1; min_replicas := 2; max_replicas := 2;
          kind := "Deployment" |} ]}.

Definition large_snapshot : gmap string ResourceSpec :=
  {[ "web@k8s/web.yaml" :=
       {| memory := 8; cpu := 2; min_replicas := 2; max_replicas := 2;
          kind := "Deployment" |} ]}.

Definition web_change : CostChange :=
  {| resource := "web"; file := "k8s/web.yaml";
     old_memory := 4; new_memory := 8; old_cpu := 1; new_cpu := 2;
     old_min_replicas := 2; old_max_replicas := 2;
     new_min_replicas := 2; new_max_replicas := 2;
     min_cost_diff := (8 * 4 + 2 * 20) * 12 * 2 - (4 * 4 + 1 * 20) * 12 * 2;
     max_cost_diff := (8 * 4 + 2 * 20) * 12 * 2 - (4 * 4 + 1 * 20) * 12 * 2;
     has_range := false; change_kind := "Deployment" |}.

Lemma web_change_reported :
  web_change ∈ compare_resources "k8s/web.yaml" small_snapshot large_snapshot.
Proof. vm_compute. left. Qed.

End Diff.

(** Every change the diff reports moves the worst-case annual cost by more
    than one dollar, up or down. *)
Theorem reported_change_exceeds_one_dollar (f : string)
    (A B : gmap string AuditPr.ResourceSpec) (c : AuditPr.CostChange) :
  c ∈ AuditPr.compare_resources f A B →
  AuditPr.max_cost_diff c < - (1) ∨ 1 < AuditPr.max_cost_diff c.
Proof.
  unfold AuditPr.compare_resources. intros (k & _ & Hc)%list_elem_of_omap.
  apply cost_change_fields in Hc as (Hrep & _ & -> & _).
  by apply abs_gt_one.
Qed.

Lemma reported_change_exceeds_one_dollar_witness :
  AuditPr.max_cost_diff web_change < - (1) ∨ 1 < AuditPr.max_cost_diff web_change.
Proof.
  apply (reported_change_exceeds_one_dollar "k8s/web.yaml" small_snapshot large_snapshot).
  vm_compute. left.
Defined.

(** The diff of a snapshot with itself reports nothing. *)
Theorem unchanged_snapshot_reports_nothing (f : string)
    (A : gmap string AuditPr.ResourceSpec) :
  AuditPr.compare_resources f A A = [].
Proof.
  unfold AuditPr.compare_resources. apply omap_all_None. intros k _.
  destruct (AuditPr.cost_change f A A k) as [c|] eqn:Hc; [|done].
  apply cost_change_fields in Hc as (Hrep & _). exfalso.
  apply abs_gt_one in Hrep. unfold AuditPr.cost_diffs in Hrep. simpl in Hrep.
  destruct Hrep; lra.
Qed.

(** With static replica counts on both sides the range collapses: both
    ends of the reported delta are equal and the change carries no range. *)
Theorem static_replicas_give_single_delta (f : string)
    (A B : gmap string AuditPr.ResourceSpec) (k : string) (c : AuditPr.CostChange) :
  AuditPr.cost_change f A B k = Some c →
  AuditPr.old_min_replicas c = AuditPr.old_max_replicas c →
  AuditPr.new_min_replicas c = AuditPr.new_max_replicas c →
  AuditPr.min_cost_diff c == AuditPr.max_cost_diff c ∧ AuditPr.has_range c = false.
Proof.
  intros Hc Hold Hnew.
  destruct (cost_change_more_fields _ _ _ _ _ Hc) as (Hr & _).
  apply cost_change_fields in Hc as (_ & Hmin & Hmax & _ & Ha & Hb & Hc & Hd).
  rewrite Ha, Hb in Hold. rewrite Hc, Hd in Hnew.
  rewrite Hmin, Hmax, Hr. unfold AuditPr.cost_diffs. cbn [fst snd].
  rewrite Hold, Hnew. split; [reflexivity|]. by rewrite Z.eqb_refl.
Qed.

Lemma static_replicas_give_single_delta_witness :
  AuditPr.min_cost_diff web_change == AuditPr.max_cost_diff web_change ∧
  AuditPr.has_range web_change = false.
Proof.
  apply (static_replicas_give_single_delta "k8s/web.yaml" small_snapshot large_snapshot
           "web@k8s/web.yaml").
  - vm_compute. reflexivity.
  - reflexivity.
  - reflexivity.
Defined.

(** A resource that the new snapshot no longer has is reported with the
    kind [Unknown], one replica and no range; its delta is the negated
    worst-case cost of the old side. *)
Theorem removed_resource_reported_as_unknown (f : string)
    (A B : gmap string AuditPr.ResourceSpec) (k : string)
    (old : AuditPr.ResourceSpec) (c : AuditPr.CostChange) :
  A !! k = Some old → B !! k = None →
  AuditPr.cost_change f A B k = Some c →
  AuditPr.change_kind c = "Unknown" ∧
  AuditPr.new_min_replicas c = 1%Z ∧ AuditPr.new_max_replicas c = 1%Z ∧
  AuditPr.has_range c = false ∧
  AuditPr.max_cost_diff c
  == - (AuditPr.calculate_annual_cost (AuditPr.memory old) (AuditPr.cpu old)
        * inject_Z (AuditPr.max_replicas old)).
Proof.
  intros HA HB Hc.
  destruct (cost_change_more_fields _ _ _ _ _ Hc) as (Hr & Hk & _).
  apply cost_change_fields in Hc as (_ & _ & Hmax & _ & _ & _ & Hc & Hd).
  rewrite HB in Hr, Hk, Hc, Hd. rewrite HA, HB in Hmax.
  rewrite Hr, Hk, Hc, Hd, Hmax. split_and!; try done.
  unfold AuditPr.cost_diffs, AuditPr.replica_cost, AuditPr.calculate_annual_cost,
    AuditPr.absent_resource. cbn. ring.
Qed.

Lemma removed_resource_reported_as_unknown_witness :
  ∃ c, AuditPr.cost_change "k8s/api.yaml" scaled_snapshot ∅ "api@k8s/api.yaml" = Some c ∧
       AuditPr.change_kind c = "Unknown" ∧ AuditPr.has_range c = false.
Proof.
  eexists. split; [vm_compute; reflexivity|].
  edestruct (removed_resource_reported_as_unknown "k8s/api.yaml" scaled_snapshot ∅
               "api@k8s/api.yaml") as (Hk & _ & _ & Hr & _).
  - vm_compute. reflexivity.
  - reflexivity.
  - vm_compute. reflexivity.
  - split; [exact Hk | exact Hr].
Defined.

Section ChangedFiles.
Import AuditPr.

(** The files [analyze_pr_costs] looks into: both contents non-empty. *)
Definition has_both_contents (f : string * string * string) : bool :=
  negb (String.eqb f.1.2 "" || String.eqb f.2 "").

Lemma bind_Ok {A : Type} (r : result A) : bind r Ok = r.
Proof. by destruct r. Qed.

End ChangedFiles.

(** A changed file whose old or new content is empty, such as a file the
    pull request adds or deletes, contributes nothing: the analysis is the
    one of the files that have both contents. *)
Theorem added_and_deleted_files_not_analyzed (changed : list (string * string * string)) :
  AuditPr.analyze_pr_costs changed
  = AuditPr.analyze_pr_costs (List.filter has_both_contents changed).
Proof.
  induction changed as [|[[path old] new] changed IH]; [done|].
  cbn [List.filter AuditPr.analyze_pr_costs]. unfold has_both_contents at 1. cbn [fst snd].
  destruct (String.eqb old "" || String.eqb new "") eqn:E; cbn [negb].
  - unfold AuditPr.analyze_file. rewrite E. cbn [bind]. rewrite IH.
    apply bind_Ok.
  - cbn [AuditPr.analyze_pr_costs]. by rewrite IH.
Qed.

(** ** The extracted snapshot *)

Section Snapshot.
Import Re AuditPr.

Lemma int_of_digits_nonneg (s : list ascii) (n : Z) :
  int_of_digits s = Ok n → (0 ≤ n)%Z.
Proof.
  unfold int_of_digits, digits_value. destruct (_ <=? _)%nat; [|done].
  intros [= <-]. lia.
Qed.

(** What the entry of a document looks like. *)
Definition entry_ok (f key : string) (spec : ResourceSpec) : Prop :=
  (∃ name, key = name +:+ "@" +:+ f) ∧
  (0 ≤ min_replicas spec)%Z ∧ (0 ≤ max_replicas spec)%Z ∧
  (kind spec ≠ "HorizontalPodAutoscaler" → min_replicas spec = max_replicas spec).

Lemma extract_document_entry (f : string) (i : nat) (d : list ascii)
    (key : string) (spec : ResourceSpec) :
  extract_document f i d = Ok (Some (key, spec)) → entry_ok f key spec.
Proof.
  unfold extract_document, entry_ok. destruct (strip d); [done|].
  generalize (search memory_pattern d) (search cpu_pattern d) (search name_pattern d)
    (search kind_pattern d) (search min_replicas_pattern d)
    (search max_replicas_pattern d) (search replicas_pattern d).
  intros mem_m cpu_m name_m kind_m min_m max_m rep_m.
  destruct (bool_decide _ || bool_decide _); [|done].
  destruct (match mem_m with Some _ => _ | None => _ end)
    as [memory_gb| |]; cbn [bind]; [|done|done].
  destruct (match cpu_m with Some _ => _ | None => _ end)
    as [cpu_cores| |]; cbn [bind]; [|done|done].
  destruct (String.eqb_spec
              (match kind_m with Some m => str (group1 m) | None => "Unknown" end)
              "HorizontalPodAutoscaler") as [E|E].
  - destruct (match min_m with Some _ => _ | None => _ end)
      as [min_r| |] eqn:Hmin; cbn [bind]; [|done|done].
    destruct (match max_m with Some _ => _ | None => _ end)
      as [max_r| |] eqn:Hmax; cbn [bind]; [|done|done].
    intros [= <- <-]. cbn. split_and!.
    + by eexists.
    + destruct min_m; [by apply int_of_digits_nonneg in Hmin | injection Hmin as <-; lia].
    + destruct max_m; [by apply int_of_digits_nonneg in Hmax | injection Hmax as <-; lia].
    + intros H. by destruct H.
  - destruct rep_m as [m|].
    + destruct (int_of_digits (group1 m)) as [r| |] eqn:Hr; cbn [bind]; [|done|done].
      apply int_of_digits_nonneg in Hr. intros [= <- <-]. cbn.
      split_and!; [by eexists | done | done | done].
    + cbn [bind]. intros [= <- <-]. cbn. split_and!; [by eexists | lia | lia | done].
Qed.

Lemma extract_fold_entries (f : string) (l : list (nat * list ascii))
    (acc : result (gmap string ResourceSpec)) (m : gmap string ResourceSpec) :
  fold_left (extract_step f) l acc = Ok m →
  (∀ m0, acc = Ok m0 → ∀ k s, m0 !! k = Some s → entry_ok f k s) →
  ∀ k s, m !! k = Some s → entry_ok f k s.
Proof.
  revert acc. induction l as [|d l IH]; intros acc; simpl.
  - intros -> H. by apply H.
  - intros Hfold Hacc. apply (IH _ Hfold). unfold extract_step.
    destruct acc as [m0| |]; cbn [bind]; [|done|done].
    destruct (extract_document f d.1 d.2) as [[[key spec]|]| |] eqn:Hd;
      cbn [bind]; [| |done|done].
    + intros m1 [= <-] k s. destruct (decide (key = k)) as [->|Hne].
      * rewrite lookup_insert_eq. intros [= <-]. by apply (extract_document_entry f d.1 d.2).
      * rewrite lookup_insert_ne by done. by apply Hacc.
    + intros m1 [= <-]. by apply Hacc.
Qed.

(** [sep.join(parts)] *)
Fixpoint join (sep : list ascii) (parts : list (list ascii)) : list ascii :=
  match parts with
  | [] => []
  | p :: ps =>
      match ps with
      | [] => p
      | _ => p ++ sep ++ join sep ps
      end
  end.

Lemma starts_with_app (p s : list ascii) :
  starts_with p s = true → s = p ++ drop (length p) s.
Proof.
  revert s. induction p as [|a p IH]; intros [|b s]; simpl; try done.
  unfold chr_eqb. destruct (Ascii.eqb_spec a b) as [->|]; [|done].
  simpl. intros H. f_equal. by apply IH.
Qed.

Lemma split_go_nonempty (sep : list ascii) (n : nat) (cur s : list ascii) :
  split_go sep n cur s ≠ [].
Proof.
  revert n cur. induction s as [|c t IH]; intros n cur; simpl; [done|].
  destruct n; [|apply IH]. destruct (starts_with sep (c :: t)); [done | apply IH].
Qed.

Lemma join_cons (sep p : list ascii) (ps : list (list ascii)) :
  ps ≠ [] → join sep (p :: ps) = p ++ sep ++ join sep ps.
Proof. by destruct ps. Qed.

Lemma join_split_go (sep : list ascii) (s : list ascii) (n : nat) (cur : list ascii) :
  sep ≠ [] → (n ≤ length s)%nat →
  join sep (split_go sep n cur s) = rev cur ++ drop n s.
Proof.
  intros Hsep. revert n cur. induction s as [|c t IH]; intros n cur Hn.
  - simpl in *. replace n with 0%nat by lia. simpl. by rewrite app_nil_r.
  - destruct n as [|n]; cbn [split_go].
    + destruct (starts_with sep (c :: t)) eqn:E.
      * rewrite join_cons by apply split_go_nonempty.
        pose proof (starts_with_app _ _ E) as Hs.
        assert (Hlen : (length sep ≤ S (length t))%nat).
        { apply (f_equal length) in Hs. rewrite length_app in Hs. simpl in Hs. lia. }
        destruct sep as [|a sep']; [done|]. simpl length in *.
        rewrite IH by lia. simpl rev. rewrite app_nil_l.
        replace (S (length sep') - 1)%nat with (length sep') by lia.
        simpl drop in Hs. simpl drop. by rewrite <- Hs.
      * rewrite IH by lia. simpl. by rewrite <- app_assoc.
    + simpl drop. apply IH. simpl in Hn. lia.
Qed.

End Snapshot.

(** Every key of an extracted snapshot is a name followed by [@] and the
    file label; the replica counts of every entry are non-negative, and an
    entry of a kind other than the autoscaler has equal bounds. *)
Theorem extracted_entries_well_formed (yaml_content file_path : string)
    (resources : gmap string AuditPr.ResourceSpec) (key : string)
    (spec : AuditPr.ResourceSpec) :
  AuditPr.extract_resources_from_yaml yaml_content file_path = Ok resources →
  resources !! key = Some spec →
  (∃ name, key = name +:+ "@" +:+ file_path) ∧
  (0 ≤ AuditPr.min_replicas spec)%Z ∧ (0 ≤ AuditPr.max_replicas spec)%Z ∧
  (AuditPr.kind spec ≠ "HorizontalPodAutoscaler" →
   AuditPr.min_replicas spec = AuditPr.max_replicas spec).
Proof.
  unfold AuditPr.extract_resources_from_yaml. intros Hfold Hk.
  apply (extract_fold_entries _ _ _ _ Hfold); [|exact Hk].
  intros m0 [= <-] k s. by rewrite lookup_empty.
Qed.

(** The snapshot of [flat_manifest]. *)
Definition flat_resources : gmap string AuditPr.ResourceSpec :=
  match AuditPr.extract_resources_from_yaml flat_manifest "k8s/web.yaml" with
  | Ok resources => resources
  | _ => ∅
  end.

Lemma extracted_entries_well_formed_witness :
  ∃ name, "web@k8s/web.yaml" = name +:+ "@" +:+ "k8s/web.yaml".
Proof.
  edestruct (extracted_entries_well_formed flat_manifest "k8s/web.yaml" flat_resources
               "web@k8s/web.yaml") as (H & _).
  - vm_compute. reflexivity.
  - vm_compute. reflexivity.
  - exact H.
Defined.

(** Splitting a manifest into documents loses nothing: the documents
    joined by the separator are the manifest. *)
Theorem documents_join_to_manifest (s : list ascii) :
  join AuditPr.doc_separator (AuditPr.split AuditPr.doc_separator s) = s.
Proof.
  unfold AuditPr.split. rewrite join_split_go; [done | done | simpl; lia].
Qed.

(** ** The two memory parsers *)

(** Two calls end alike: the same number up to [Qeq], or the same error. *)
Definition same_result (r r' : result Q) : Prop :=
  match r, r' with
  | Ok a, Ok b => a == b
  | Raise e, Raise e' => e = e'
  | NonFinite, NonFinite => True
  | _, _ => False
  end.

(** The stripped input carries one of the suffixes [Gi], [Mi], [Ki]. *)
Definition binary_suffix (s : string) : Prop :=
  let v := strip (chars s) in
  ends_with (chars "Gi") v = true ∨ ends_with (chars "Mi") v = true ∨
  ends_with (chars "Ki") v = true.

Ltac case_chars :=
  repeat match goal with
         | |- context [Ascii.eqb ?a ?b] =>
             destruct (Ascii.eqb_spec a b); subst; cbn [andb orb] in *; try discriminate
         | H : context [Ascii.eqb ?a ?b] |- _ =>
             destruct (Ascii.eqb_spec a b); subst; cbn [andb orb] in *; try discriminate
         end.

(** On a quantity in GiB, MiB or KiB the parser of the pull-request check
    and the parser of the report agree: same value, or same error. *)
Theorem memory_parsers_agree_on_binary_suffixes (s : string) :
  binary_suffix s →
  same_result (AuditPr.parse_resource_value s "memory") (GenerateReport.parse_memory s).
Proof.
  unfold binary_suffix, AuditPr.parse_resource_value, GenerateReport.parse_memory.
  destruct (chars s) as [|a l]; [intros [H|[H|H]]; discriminate|].
  generalize (strip (a :: l)). intros v.
  cbn [String.eqb Ascii.eqb Bool.eqb andb].
  unfold GenerateReport.units, GenerateReport.parse_with_units, ends_with, drop_last, chr_eqb.
  cbn [chars String.list_ascii_of_string rev app String.length].
  destruct (rev v) as [|c1 [|c2 w]]; cbn [starts_with chr_eqb];
    unfold chr_eqb; intros H; case_chars; try (by destruct H as [H|[H|H]]);
    destruct (float _) as [x| |]; cbn [bind same_result]; try done;
    first [ring | field; done].
Qed.

Lemma memory_parsers_agree_on_binary_suffixes_witness :
  same_result (AuditPr.parse_resource_value " 512Mi" "memory")
              (GenerateReport.parse_memory " 512Mi").
Proof.
  apply (memory_parsers_agree_on_binary_suffixes " 512Mi").
  right. left. vm_compute. reflexivity.
Defined.

(** ** The waste rules *)

(** Turn the boolean comparisons in the context into inequalities. *)
Ltac q_bools :=
  repeat match goal with
         | H : Qgt_b _ _ = true |- _ => apply Qgt_b_true in H
         | H : Qgt_b _ _ = false |- _ => apply Qgt_b_false in H
         | H : Qlt_b _ _ = true |- _ => apply Qlt_b_true in H
         | H : Qlt_b _ _ = false |- _ => apply Qlt_b_false in H
         | H : Qeq_bool _ _ = true |- _ => apply Qeq_bool_iff in H
         | H : Qeq_bool _ _ = false |- _ => apply Qeq_bool_false in H
         | H : _ && _ = true |- _ => apply andb_true_iff in H as [? ?]
         | H : _ || _ = false |- _ => apply orb_false_iff in H as [? ?]
         | H : _ || _ = true |- _ => apply orb_true_iff in H as [?|?]
         | H : _ && _ = false |- _ => apply andb_false_iff in H as [?|?]
         end.

(** Case analysis on every comparison a waste function makes. *)
Ltac waste_cases :=
  unfold GenerateReport.calculate_memory_waste, GenerateReport.calculate_cpu_waste,
    Qmax0, GenerateReport.MEMORY_COST_PER_GB_MONTH, GenerateReport.CPU_COST_PER_VCPU_MONTH;
  repeat match goal with
         | |- context [if ?b then _ else _] => destruct b eqn:?
         | |- context [match ?u with Some _ => _ | None => _ end] => destruct u
         end;
  q_bools.

(** With a positive request, raising a positive limit never lowers the
    waste computed for the container, in either dimension. *)
Theorem waste_monotone_in_limit (request limit limit' : Q) (usage : option Q) :
  0 < request → 0 < limit → limit <= limit' →
  GenerateReport.calculate_memory_waste request limit usage
  <= GenerateReport.calculate_memory_waste request limit' usage ∧
  GenerateReport.calculate_cpu_waste request limit usage
  <= GenerateReport.calculate_cpu_waste request limit' usage.
Proof.
  intros Hr Hl Hll. split; waste_cases; lra.
Qed.

Lemma waste_monotone_in_limit_witness :
  GenerateReport.calculate_memory_waste 1 2 None
  <= GenerateReport.calculate_memory_waste 1 8 None ∧
  GenerateReport.calculate_cpu_waste 1 2 None
  <= GenerateReport.calculate_cpu_waste 1 8 None.
Proof. apply (waste_monotone_in_limit 1 2 8 None); reflexivity || by vm_compute. Defined.

(** With a non-negative request the waste is never negative, whatever the
    limit and the usage. *)
Theorem waste_nonnegative (request limit : Q) (usage : option Q) :
  0 <= request →
  0 <= GenerateReport.calculate_memory_waste request limit usage ∧
  0 <= GenerateReport.calculate_cpu_waste request limit usage.
Proof.
  intros Hr. split; waste_cases; lra.
Qed.

Lemma waste_nonnegative_witness :
  0 <= GenerateReport.calculate_memory_waste 1 8 (Some 0.1) ∧
  0 <= GenerateReport.calculate_cpu_waste 1 8 (Some 0.1).
Proof. apply (waste_nonnegative 1 8 (Some 0.1)). by vm_compute. Defined.

(** A negative request can make the waste negative: the floor at zero is
    applied to the underutilized rule only. *)
Lemma waste_negative_on_negative_request :
  GenerateReport.calculate_memory_waste (- (2)) (- (5)) None < 0.
Proof. by vm_compute. Qed.

(** ** The findings of a container *)

Section ContainerFindings.
Import GenerateReport.

(** A finding of type [t] about a container of pod [p] in namespace [n],
    with positive savings. *)
Definition pod_finding (p n t : string) (f : Finding) : Prop :=
  ftype f = t ∧ pod f = Some p ∧ namespace f = Some n ∧
  is_Some (container f) ∧ 0 < monthlySavings f.

(** Nothing, or one finding that satisfies [P]. *)
Definition at_most_one (P : Finding → Prop) (l : list Finding) : Prop :=
  l = [] ∨ ∃ f, l = [f] ∧ P f.

(** The findings of a container with requests: at most one from the memory
    waste, at most one from the CPU waste, and at most one from the second
    memory check, which excludes the first. *)
Lemma analyze_container_shape (usage_data : gmap string Usage)
    (p n : string) (c : Container) (fs : list Finding) (refs : list PodRef) :
  analyze_container usage_data p n c = Ok (fs, refs) →
  (fs = [] ∧ length refs = 1%nat ∧ requests c = ∅) ∨
  (refs = [] ∧ requests c ≠ ∅ ∧
   ∃ A B C, fs = A ++ B ++ C ∧
     at_most_one (pod_finding p n "OVER_PROVISIONED_MEMORY") A ∧
     at_most_one (λ f, pod_finding p n "UNDERUTILIZED_CPU" f ∨
                       pod_finding p n "OVER_PROVISIONED_CPU" f) B ∧
     at_most_one (pod_finding p n "UNDERUTILIZED_MEMORY") C ∧
     (A = [] ∨ C = [])).
Proof.
  unfold analyze_container. destruct (bool_decide (requests c = ∅)) eqn:Hreq.
  - apply bool_decide_eq_true in Hreq. intros [= <- <-]. by left.
  - apply bool_decide_eq_false in Hreq.
    destruct (parse_memory _) as [mem_request| |]; cbn [bind]; [|done|done].
    destruct (parse_memory _) as [mem_limit| |]; cbn [bind]; [|done|done].
    destruct (parse_cpu _) as [cpu_request| |]; cbn [bind]; [|done|done].
    destruct (parse_cpu _) as [cpu_limit| |]; cbn [bind]; [|done|done].
    generalize (usage_memory <$> usage_data !! (n +:+ "/" +:+ p)).
    generalize (usage_cpu <$> usage_data !! (n +:+ "/" +:+ p)).
    intros cpu_usage mem_usage.
    generalize (calculate_memory_waste mem_request mem_limit mem_usage).
    generalize (calculate_cpu_waste cpu_request cpu_limit cpu_usage).
    intros cpu_waste mem_waste. intros [= <- <-]. right. split_and!; [done | done |].
    eexists _, _, _. split; [reflexivity|]. split_and!.
    + destruct (Qgt_b mem_waste 0) eqn:E; [right | by left].
      eexists. split; [reflexivity|]. q_bools. by split_and!.
    + destruct (Qgt_b cpu_waste 0) eqn:E; [right | by left].
      eexists. split; [reflexivity|]. q_bools.
      destruct (if Qgt_b cpu_request 0 then _ else false); [left | right]; by split_and!.
    + destruct mem_usage as [u|]; [|by left].
      destruct (truthy (Some u) && Qgt_b mem_request 0 && Qlt_b u (mem_request * 0.2)
                && Qeq_bool mem_waste 0) eqn:E; [right | by left].
      eexists. split; [reflexivity|]. q_bools. split_and!; try done. cbn.
      unfold MEMORY_COST_PER_GB_MONTH. lra.
    + destruct (Qgt_b mem_waste 0) eqn:E; [|by left]. right.
      destruct mem_usage as [u|]; [|done].
      destruct (Qeq_bool mem_waste 0) eqn:E'; [|by rewrite andb_false_r].
      q_bools. rewrite E' in E. lra.
Qed.

Definition memory_finding (f : Finding) : bool :=
  String.eqb (ftype f) "OVER_PROVISIONED_MEMORY" || String.eqb (ftype f) "UNDERUTILIZED_MEMORY".

Definition cpu_finding (f : Finding) : bool :=
  String.eqb (ftype f) "OVER_PROVISIONED_CPU" || String.eqb (ftype f) "UNDERUTILIZED_CPU".

(** The containers that have no requests. *)
Definition containers_without_requests (items : list Pod) : list Container :=
  List.filter (λ c, bool_decide (requests c = ∅)) (concat (map containers items)).

(** A container over its memory ratio that also idles on CPU. *)
Definition wasteful_container : Container :=
  {| container_name := Some "worker";
     requests := {[ "memory" := "1Gi"; "cpu" := "1" ]};
     limits := {[ "memory" := "8Gi"; "cpu" := "2" ]} |}.

Definition wasteful_findings : list Finding :=
  match analyze_container unlimited_usage "worker-0" "prod" wasteful_container with
  | Ok r => r.1
  | _ => []
  end.

End ContainerFindings.

(** The element [List.find] returns is in the list and passes the test. *)
Lemma find_elem_of {A : Type} (p : A → bool) (l : list A) (x : A) :
  List.find p l = Some x → x ∈ l ∧ p x = true.
Proof.
  intros H. apply find_some in H as [H1 H2]. split; [by apply list_elem_of_In | done].
Qed.

(** Every finding reported for a container names its pod and namespace and
    has strictly positive savings. *)
Theorem container_findings_have_positive_savings
    (usage_data : gmap string GenerateReport.Usage) (p n : string)
    (c : GenerateReport.Container) (fs : list GenerateReport.Finding)
    (refs : list GenerateReport.PodRef) (f : GenerateReport.Finding) :
  GenerateReport.analyze_container usage_data p n c = Ok (fs, refs) →
  f ∈ fs →
  0 < GenerateReport.monthlySavings f ∧
  GenerateReport.pod f = Some p ∧ GenerateReport.namespace f = Some n.
Proof.
  intros H Hf.
  apply analyze_container_shape in H
    as [(-> & _)|(_ & _ & A & B & C & -> & HA & HB & HC & _)];
    [by apply elem_of_nil in Hf|].
  apply elem_of_app in Hf as [Hf|Hf]; [|apply elem_of_app in Hf as [Hf|Hf]].
  - destruct HA as [->|(g & -> & HA)]; [by apply elem_of_nil in Hf|].
    apply list_elem_of_singleton in Hf as ->. unfold pod_finding in HA. tauto.
  - destruct HB as [->|(g & -> & HB)]; [by apply elem_of_nil in Hf|].
    apply list_elem_of_singleton in Hf as ->. unfold pod_finding in HB. tauto.
  - destruct HC as [->|(g & -> & HC)]; [by apply elem_of_nil in Hf|].
    apply list_elem_of_singleton in Hf as ->. unfold pod_finding in HC. tauto.
Qed.

Lemma container_findings_have_positive_savings_witness :
  ∃ f, f ∈ wasteful_findings ∧
       0 < GenerateReport.monthlySavings f ∧
       GenerateReport.pod f = Some "worker-0" ∧ GenerateReport.namespace f = Some "prod".
Proof.
  destruct (head wasteful_findings) as [f|] eqn:E; [|vm_compute in E; discriminate].
  apply head_Some_elem_of in E. exists f. split; [exact E|].
  apply (container_findings_have_positive_savings unlimited_usage "worker-0" "prod"
           wasteful_container wasteful_findings [] f); [|exact E].
  vm_compute. reflexivity.
Defined.

(** A container gets at most one memory finding and at most one CPU
    finding: over-provisioned and underutilized memory exclude each other. *)
Theorem one_finding_per_dimension
    (usage_data : gmap string GenerateReport.Usage) (p n : string)
    (c : GenerateReport.Container) (fs : list GenerateReport.Finding)
    (refs : list GenerateReport.PodRef) :
  GenerateReport.analyze_container usage_data p n c = Ok (fs, refs) →
  (length (List.filter memory_finding fs) ≤ 1)%nat ∧
  (length (List.filter cpu_finding fs) ≤ 1)%nat ∧
  (length fs ≤ 2)%nat.
Proof.
  intros H.
  apply analyze_container_shape in H
    as [(-> & _)|(_ & _ & A & B & C & -> & HA & HB & HC & Hex)];
    [cbn; lia|].
  unfold pod_finding in *.
  destruct HA as [->|(fa & -> & Ha & _)], HB as [->|(fb & -> & Hb)],
    HC as [->|(fc & -> & Hc & _)], Hex as [?|?]; try discriminate;
    cbn [app List.filter length]; unfold memory_finding, cpu_finding;
    repeat match goal with
           | H : _ ∨ _ |- _ => destruct H as [(? & _)|(? & _)]
           | H : GenerateReport.ftype _ = _ |- _ => rewrite H
           end; cbn; lia.
Qed.

Lemma one_finding_per_dimension_witness :
  (length (List.filter memory_finding wasteful_findings) ≤ 1)%nat ∧
  (length (List.filter cpu_finding wasteful_findings) ≤ 1)%nat ∧
  (length wasteful_findings ≤ 2)%nat.
Proof.
  apply (one_finding_per_dimension unlimited_usage "worker-0" "prod"
           wasteful_container wasteful_findings []).
  vm_compute. reflexivity.
Defined.

(** ** The findings of a run over the pods *)

Section PodRun.
Import GenerateReport.

(** The types of the findings about a container. *)
Definition container_type (f : Finding) : Prop :=
  ftype f = "OVER_PROVISIONED_MEMORY" ∨ ftype f = "UNDERUTILIZED_MEMORY" ∨
  ftype f = "OVER_PROVISIONED_CPU" ∨ ftype f = "UNDERUTILIZED_CPU".

Lemma analyze_container_types (usage_data : gmap string Usage) (p n : string)
    (c : Container) (fs : list Finding) (refs : list PodRef) :
  analyze_container usage_data p n c = Ok (fs, refs) →
  Forall container_type fs ∧
  length refs = length (List.filter (λ c, bool_decide (requests c = ∅)) [c]).
Proof.
  intros H.
  apply analyze_container_shape in H
    as [(-> & Hlen & Hc)|(-> & Hc & A & B & C & -> & HA & HB & HC & _)].
  - split; [apply Forall_nil_2|]. cbn. by rewrite bool_decide_eq_true_2.
  - split; [|cbn; by rewrite bool_decide_eq_false_2].
    unfold container_type, pod_finding in *. rewrite !Forall_app. split_and!.
    + destruct HA as [->|(f & -> & Hf & _)]; [apply Forall_nil_2|].
      apply Forall_singleton. tauto.
    + destruct HB as [->|(f & -> & [(Hf & _)|(Hf & _)])]; [apply Forall_nil_2 | |];
        apply Forall_singleton; tauto.
    + destruct HC as [->|(f & -> & Hf & _)]; [apply Forall_nil_2|].
      apply Forall_singleton. tauto.
Qed.

Lemma analyze_containers_types (usage_data : gmap string Usage) (p n : string)
    (cs : list Container) (fs : list Finding) (refs : list PodRef) :
  analyze_containers usage_data p n cs = Ok (fs, refs) →
  Forall container_type fs ∧
  length refs = length (List.filter (λ c, bool_decide (requests c = ∅)) cs).
Proof.
  revert fs refs. induction cs as [|c cs IH]; intros fs refs; simpl.
  - intros [= <- <-]. by split.
  - destruct (analyze_container usage_data p n c) as [[fs1 refs1]| |] eqn:H1;
      cbn [bind]; [|done|done].
    destruct (analyze_containers usage_data p n cs) as [[fs2 refs2]| |];
      cbn [bind]; [|done|done].
    intros [= <- <-]. apply analyze_container_types in H1 as [Hf1 Hr1].
    destruct (IH _ _ eq_refl) as [Hf2 Hr2]. cbn in Hr1.
    split; [by apply Forall_app|].
    rewrite length_app, Hr1, Hr2. by destruct (bool_decide (requests c = ∅)).
Qed.

Lemma analyze_items_types (usage_data : gmap string Usage) (items : list Pod)
    (fs : list Finding) (refs : list PodRef) :
  analyze_items usage_data items = Ok (fs, refs) →
  Forall container_type fs ∧
  length refs = length (containers_without_requests items).
Proof.
  unfold containers_without_requests.
  revert fs refs. induction items as [|pd items IH]; intros fs refs; simpl.
  - intros [= <- <-]. by split.
  - destruct (analyze_containers _ _ _ (containers pd)) as [[fs1 refs1]| |] eqn:H1;
      cbn [bind]; [|done|done].
    destruct (analyze_items usage_data items) as [[fs2 refs2]| |];
      cbn [bind]; [|done|done].
    intros [= <- <-]. apply analyze_containers_types in H1 as [Hf1 Hr1].
    destruct (IH _ _ eq_refl) as [Hf2 Hr2].
    split; [by apply Forall_app|].
    by rewrite List.filter_app, !length_app, Hr1, Hr2.
Qed.

Lemma container_type_not_missing (f : Finding) :
  container_type f → ftype f ≠ "MISSING_REQUESTS".
Proof. intros [H|[H|[H|H]]]; by rewrite H. Qed.

(** Two pods; the first has two containers without requests. *)
Definition sidecar_pod : Pod :=
  {| pod_name := Some "web-0"; pod_namespace := Some "prod";
     containers := [ {| container_name := Some "web"; requests := ∅; limits := ∅ |};
                     {| container_name := Some "proxy"; requests := ∅; limits := ∅ |} ] |}.

Definition sidecar_findings : list Finding :=
  match analyze_pods [sidecar_pod; unlimited_pod] unlimited_usage with
  | Ok fs => fs
  | _ => []
  end.

End PodRun.

(** The missing-requests finding is the last finding of a run, is present
    exactly when some container lacks requests, and its [podsAffected] is
    the number of such containers (not of pods); no other finding of the
    run has that type. *)
Theorem missing_requests_counts_containers
    (items : list GenerateReport.Pod) (usage_data : gmap string GenerateReport.Usage)
    (fs : list GenerateReport.Finding) :
  GenerateReport.analyze_pods items usage_data = Ok fs →
  let n := length (containers_without_requests items) in
  ∃ fs0, Forall container_type fs0 ∧
    ((n = 0%nat ∧ fs = fs0) ∨
     (∃ m, (0 < n)%nat ∧ fs = fs0 ++ [m] ∧
           GenerateReport.ftype m = "MISSING_REQUESTS" ∧
           GenerateReport.podsAffected m = Some n ∧
           GenerateReport.severity m = "HIGH" ∧
           GenerateReport.monthlySavings m = 0)).
Proof.
  unfold GenerateReport.analyze_pods.
  destruct (GenerateReport.analyze_items usage_data items) as [[fs0 refs]| |] eqn:H;
    cbn [bind]; [|done|done].
  apply analyze_items_types in H as [Hty Hlen]. intros [= <-]. cbn zeta.
  exists fs0. split; [done|]. destruct refs as [|r refs].
  - left. by rewrite <- Hlen.
  - right. eexists. split_and!; [rewrite <- Hlen; cbn; lia | reflexivity | done | | done | done].
    cbn. by rewrite <- Hlen.
Qed.

Lemma missing_requests_counts_containers_witness :
  ∃ fs0 m, sidecar_findings = fs0 ++ [m] ∧
           GenerateReport.podsAffected m = Some 2%nat.
Proof.
  destruct (missing_requests_counts_containers [sidecar_pod; unlimited_pod]
              unlimited_usage sidecar_findings) as (fs0 & _ & [[H _]|(m & _ & Hfs & _ & Hn & _)]).
  - vm_compute. reflexivity.
  - vm_compute in H. discriminate.
  - exists fs0, m. split; [exact Hfs | exact Hn].
Defined.

(** ** Load balancers and volumes *)

Section Resources.
Import GenerateReport.

Definition unbound (pv : Volume) : bool :=
  negb (String.eqb (default "" (phase pv)) "Bound").

Lemma unbound_pvs_filter (total : Q) (pvs : list PvRef) (items : list Volume) :
  unbound_pvs total pvs items = unbound_pvs total pvs (List.filter unbound items).
Proof.
  revert total pvs. induction items as [|pv items IH]; intros total pvs; [done|].
  cbn [List.filter unbound_pvs]. unfold unbound at 1.
  destruct (negb (String.eqb (default "" (phase pv)) "Bound")) eqn:E.
  - cbn [unbound_pvs]. rewrite E. destruct (parse_memory _); cbn [bind]; [apply IH | done | done].
  - apply IH.
Qed.

Lemma unbound_pvs_length (total : Q) (pvs : list PvRef) (items : list Volume)
    (total' : Q) (pvs' : list PvRef) :
  unbound_pvs total pvs items = Ok (total', pvs') →
  length pvs' = (length pvs + length (List.filter unbound items))%nat.
Proof.
  revert total pvs. induction items as [|pv items IH]; intros total pvs; cbn [unbound_pvs].
  - intros [= <- <-]. cbn. lia.
  - cbn [List.filter]. unfold unbound at 1.
    destruct (negb (String.eqb (default "" (phase pv)) "Bound")).
    + destruct (parse_memory _); cbn [bind]; [|done|done].
      intros H. apply IH in H. rewrite H, length_app. cbn. lia.
    + apply IH.
Qed.

Definition bound_volume : Volume :=
  {| pv_name := Some "pv-0"; storage := Some "50Gi"; phase := Some "Bound" |}.

Definition storage_findings : list Finding :=
  match analyze_storage [bound_volume; released_volume] with
  | Ok fs => fs
  | _ => []
  end.

End Resources.

(** The load-balancer analysis returns nothing when no service of type
    LoadBalancer carries a creation timestamp, and otherwise one finding of
    severity [MEDIUM] that counts those services and charges the flat
    monthly cost for each. *)
Theorem load_balancers_flat_cost (items : list GenerateReport.Service) :
  let n := length (List.filter has_timestamp (List.filter is_load_balancer items)) in
  (n = 0%nat ∧ GenerateReport.analyze_load_balancers items = []) ∨
  (∃ f, (0 < n)%nat ∧ GenerateReport.analyze_load_balancers items = [f] ∧
        GenerateReport.ftype f = "ORPHANED_LB" ∧
        GenerateReport.severity f = "MEDIUM" ∧
        GenerateReport.resourcesAffected f = Some n ∧
        GenerateReport.monthlySavings f
        == inject_Z (Z.of_nat n) * GenerateReport.LB_COST_PER_MONTH).
Proof.
  unfold GenerateReport.analyze_load_balancers. rewrite orphaned_lbs_filter.
  destruct (List.filter has_timestamp _) as [|svc l]; [by left|].
  right. cbn [map]. eexists. split; [cbn [length]; lia|]. split; [reflexivity|].
  cbn [GenerateReport.ftype GenerateReport.severity GenerateReport.resourcesAffected
       GenerateReport.monthlySavings].
  by rewrite !length_cons, !length_map.
Qed.

(** Volumes in phase [Bound] play no part in the storage analysis. *)
Theorem bound_volumes_ignored (items : list GenerateReport.Volume) :
  GenerateReport.analyze_storage items
  = GenerateReport.analyze_storage (List.filter unbound items).
Proof.
  unfold GenerateReport.analyze_storage. by rewrite unbound_pvs_filter.
Qed.

(** When the storage analysis succeeds it returns nothing if every volume
    is bound, and otherwise one finding that counts the volumes that are
    not. *)
Theorem storage_counts_unbound_volumes (items : list GenerateReport.Volume)
    (fs : list GenerateReport.Finding) :
  GenerateReport.analyze_storage items = Ok fs →
  let n := length (List.filter unbound items) in
  (n = 0%nat ∧ fs = []) ∨
  (∃ f, (0 < n)%nat ∧ fs = [f] ∧ GenerateReport.ftype f = "UNBOUND_PV" ∧
        GenerateReport.resourcesAffected f = Some n).
Proof.
  unfold GenerateReport.analyze_storage.
  destruct (GenerateReport.unbound_pvs 0 [] items) as [[total pvs]| |] eqn:H;
    cbn [bind]; [|done|done].
  apply unbound_pvs_length in H. cbn in H. intros [= <-]. cbn zeta.
  destruct pvs as [|pv pvs]; [left | right].
  - by rewrite <- H.
  - eexists. rewrite <- H. split_and!; [cbn; lia | reflexivity | done | done].
Qed.

Lemma storage_counts_unbound_volumes_witness :
  ∃ f, storage_findings = [f] ∧ GenerateReport.resourcesAffected f = Some 1%nat.
Proof.
  destruct (storage_counts_unbound_volumes [bound_volume; released_volume] storage_findings)
    as [[H _]|(f & _ & Hfs & _ & Hn)].
  - vm_compute. reflexivity.
  - vm_compute in H. discriminate.
  - exists f. split; [exact Hfs | exact Hn].
Defined.

(** ** The aggregated report *)

Section AggregatedReport.
Import GenerateReport.

(** Greatest savings first. *)
Fixpoint descending {A : Type} (key : A → Q) (l : list A) : Prop :=
  match l with
  | a :: t =>
      match t with
      | b :: _ => key b <= key a ∧ descending key t
      | [] => True
      end
  | [] => True
  end.

Lemma insert_desc_descending {A : Type} (key : A → Q) (x : A) (l : list A) :
  descending key l → descending key (insert_desc key x l).
Proof.
  induction l as [|y t IH]; [done|]. intros Hl. cbn [insert_desc].
  destruct (Qgt_b (key y) (key x)) eqn:E; q_bools.
  - specialize (IH ltac:(by destruct t; [|destruct Hl])).
    destruct t as [|z t]; cbn [insert_desc descending] in *.
    + split; [lra | done].
    + destruct Hl as [Hzy Ht]. destruct (Qgt_b (key z) (key x)) eqn:E'; q_bools.
      * split; [done|]. exact IH.
      * split; [lra|]. exact IH.
  - cbn [descending]. split; [done | exact Hl].
Qed.

Lemma sorted_desc_descending {A : Type} (key : A → Q) (l : list A) :
  descending key (sorted_desc key l).
Proof.
  induction l as [|x l IH]; [done|]. by apply insert_desc_descending.
Qed.

(** The entries of the report: one per type that occurs, built from the
    findings of that type. *)
Lemma aggregate_findings_elem (F : list Finding) (a : Aggregated) :
  a ∈ aggregate_findings F ↔
  ∃ t, (∃ f, f ∈ F ∧ ftype f = t) ∧ a = aggregate_group t (List.filter (has_type t) F).
Proof.
  rewrite aggregate_findings_unfold, sorted_desc_perm, (group_by_type_spec F), map_map.
  cbn [fst snd]. rewrite list_elem_of_In, in_map_iff. unfold group_by_type.
  split.
  - intros (t & <- & Ht%list_elem_of_In). exists t. split; [|done].
    apply keys_fold_elem in Ht as [Ht|Ht]; [by apply elem_of_nil in Ht | done].
  - intros (t & Ht & ->). exists t. split; [done|]. apply list_elem_of_In.
    apply keys_fold_elem. by right.
Qed.

End AggregatedReport.

(** The aggregated report is ordered by savings, greatest first. *)
Theorem aggregate_sorted_by_savings (F : list GenerateReport.Finding) :
  descending GenerateReport.agg_monthlySavings (GenerateReport.aggregate_findings F).
Proof. rewrite aggregate_findings_unfold. apply sorted_desc_descending. Qed.

(** The report has exactly one entry for each type that occurs among the
    findings. *)
Theorem aggregate_one_entry_per_type (F : list GenerateReport.Finding) :
  NoDup (map GenerateReport.agg_type (GenerateReport.aggregate_findings F)) ∧
  ∀ t, t ∈ map GenerateReport.agg_type (GenerateReport.aggregate_findings F)
       ↔ ∃ f, f ∈ F ∧ GenerateReport.ftype f = t.
Proof.
  assert (E : map GenerateReport.agg_type (GenerateReport.aggregate_findings F)
              ≡ₚ keys (GenerateReport.group_by_type F)).
  { rewrite aggregate_findings_unfold.
    rewrite (Permutation_map _ (sorted_desc_perm _ _)).
    rewrite (group_by_type_spec F) at 1. rewrite !map_map. cbn. by rewrite map_id. }
  split.
  - rewrite E. apply keys_fold_NoDup, NoDup_nil_2.
  - intros t. rewrite E. unfold GenerateReport.group_by_type. rewrite keys_fold_elem.
    split; [intros [H|H]; [by apply elem_of_nil in H | done] | by right].
Qed.

(** An entry shows at most five examples, and never an empty list. *)
Theorem aggregate_at_most_five_examples
    (F : list GenerateReport.Finding) (a : GenerateReport.Aggregated)
    (exs : list GenerateReport.Example) :
  a ∈ GenerateReport.aggregate_findings F →
  GenerateReport.examples a = Some exs →
  (0 < length exs ≤ 5)%nat.
Proof.
  intros (t & _ & ->)%aggregate_findings_elem. unfold GenerateReport.aggregate_group.
  cbn [GenerateReport.examples].
  destruct (take 5 _) as [|ex l] eqn:E; [done|].
  destruct (GenerateReport.has_pod ex); [|done]. intros [= <-].
  apply (f_equal length) in E. rewrite length_take in E.
  cbn [map length] in *. rewrite length_map. lia.
Qed.

Lemma aggregate_at_most_five_examples_witness :
  ∃ a exs, a ∈ GenerateReport.aggregate_findings wasteful_findings ∧
           GenerateReport.examples a = Some exs ∧ (0 < length exs ≤ 5)%nat.
Proof.
  destruct (List.find (λ a, match GenerateReport.examples a with
                            | Some _ => true
                            | None => false
                            end)
              (GenerateReport.aggregate_findings wasteful_findings)) as [a|] eqn:E;
    [|vm_compute in E; discriminate].
  apply find_elem_of in E as [Ha Hex].
  destruct (GenerateReport.examples a) as [exs|] eqn:Hexs; [|discriminate].
  exists a, exs. split; [done|]. split; [done|].
  apply (aggregate_at_most_five_examples wasteful_findings a exs Ha Hexs).
Defined.

(** An entry of a per-pod type whose findings name no pod reports zero
    affected pods: this is the case of the missing-requests finding, whose
    own count is not carried over. *)
Theorem aggregate_podless_group_counts_zero
    (F : list GenerateReport.Finding) (a : GenerateReport.Aggregated) :
  a ∈ GenerateReport.aggregate_findings F →
  GenerateReport.agg_type a ≠ "ORPHANED_LB" →
  GenerateReport.agg_type a ≠ "UNBOUND_PV" →
  (∀ f, f ∈ F → GenerateReport.ftype f = GenerateReport.agg_type a →
        GenerateReport.pod f = None) →
  GenerateReport.agg_podsAffected a = Some 0%nat ∧
  GenerateReport.agg_resourcesAffected a = None ∧
  GenerateReport.examples a = None.
Proof.
  intros (t & _ & ->)%aggregate_findings_elem.
  unfold GenerateReport.aggregate_group.
  cbn [GenerateReport.agg_type GenerateReport.agg_podsAffected
       GenerateReport.agg_resourcesAffected GenerateReport.examples].
  intros H1%String.eqb_neq H2%String.eqb_neq Hpod. rewrite H1, H2. cbn [orb].
  assert (Hg : Forall (λ f, GenerateReport.pod f = None) (List.filter (has_type t) F)).
  { apply Forall_forall. intros f [Hf Ht]%list_elem_of_In%filter_In.
    apply Hpod; [by apply list_elem_of_In | by apply String.eqb_eq]. }
  split_and!; [|done|].
  - unfold GenerateReport.pods_affected. f_equal.
    replace (List.filter GenerateReport.has_pod (List.filter (has_type t) F)) with (@nil GenerateReport.Finding).
    + done.
    + symmetry. induction Hg as [|f l Hf _ IH]; [done|].
      cbn. unfold GenerateReport.has_pod at 1. by rewrite Hf.
  - destruct (take 5 _) as [|ex l] eqn:E; [done|].
    assert (Hex : ex ∈ List.filter (has_type t) F).
    { rewrite <- (sorted_desc_perm GenerateReport.monthlySavings).
      apply (elem_of_sublist (take 5 (GenerateReport.sorted_desc GenerateReport.monthlySavings
                                        (List.filter (has_type t) F))));
        [rewrite E; left | apply sublist_take]. }
    rewrite Forall_forall in Hg. unfold GenerateReport.has_pod. by rewrite (Hg ex Hex).
Qed.

Lemma aggregate_podless_group_counts_zero_witness :
  ∃ a, a ∈ GenerateReport.aggregate_findings sidecar_findings ∧
       GenerateReport.agg_type a = "MISSING_REQUESTS" ∧
       GenerateReport.agg_podsAffected a = Some 0%nat.
Proof.
  destruct (List.find (λ a, String.eqb (GenerateReport.agg_type a) "MISSING_REQUESTS")
              (GenerateReport.aggregate_findings sidecar_findings)) as [a|] eqn:E;
    [|vm_compute in E; discriminate].
  apply find_elem_of in E as [Ha Ht]. apply String.eqb_eq in Ht.
  exists a. split_and!; [done | done |].
  destruct (aggregate_podless_group_counts_zero sidecar_findings a Ha) as [H _].
  - rewrite Ht. discriminate.
  - rewrite Ht. discriminate.
  - rewrite Ht.
    apply (Forall_forall (λ f, GenerateReport.ftype f = "MISSING_REQUESTS" →
                               GenerateReport.pod f = None)).
    set (l := sidecar_findings). vm_compute in l. subst l.
    repeat (apply List.Forall_cons; [cbn; first [discriminate | reflexivity]|]).
    apply List.Forall_nil.
  - exact H.
Defined.

(** ** The report assembled by [main] of [generate-report.py] *)

Module GenerateReportMain.
Import GenerateReport.

Record Costs : Type := {
  monthlyWaste : Q;
  annualSavings : Q;
  currentMonthlyCost : Q;
  optimizedMonthlyCost : Q
}.

Record Breakdown : Type := {
  b_memory : Q;
  b_cpu : Q;
  b_storage : Q;
  b_loadBalancers : Q
}.

(** [report_data], without the timestamp and the cluster counters, which
    come from the clock and from [summary.json]. *)
Record ReportData : Type := {
  costs : Costs;
  findings : list Aggregated;
  breakdown : Breakdown
}.

(** [sum(f.get('monthlySavings', 0) for f in all_findings if f.get('type') in types)] *)
Definition savings_of (types : list string) (all_findings : list Finding) : Q :=
  total_savings (List.filter (λ f, existsb (String.eqb (ftype f)) types) all_findings).

(** The report built from the findings of the three analyses. *)
Definition report_data (pod_findings lb_findings storage_findings : list Finding)
  : ReportData :=
  let all_findings := pod_findings ++ lb_findings ++ storage_findings in
  let aggregated_findings := aggregate_findings all_findings in
  let monthly_waste := total_savings all_findings in
  let annual_savings := monthly_waste * 12 in
  let current_cost := monthly_waste * 3 in
  {| costs := {| monthlyWaste := monthly_waste;
                 annualSavings := annual_savings;
                 currentMonthlyCost := current_cost;
                 optimizedMonthlyCost := current_cost - monthly_waste |};
     findings := aggregated_findings;
     breakdown :=
       {| b_memory := savings_of ["OVER_PROVISIONED_MEMORY"; "UNDERUTILIZED_MEMORY"] all_findings;
          b_cpu := savings_of ["OVER_PROVISIONED_CPU"; "UNDERUTILIZED_CPU"] all_findings;
          b_storage := savings_of ["UNBOUND_PV"] all_findings;
          b_loadBalancers := savings_of ["ORPHANED_LB"] all_findings |} |}.

(** [main], on the loaded audit: the three analyses, then the report. *)
Definition main (pods : list Pod) (usage_data : gmap string Usage)
    (services : list Service) (volumes : list Volume) : result ReportData :=
  bind (analyze_pods pods usage_data) (λ pod_findings,
  let lb_findings := analyze_load_balancers services in
  bind (analyze_storage volumes) (λ storage_findings,
  Ok (report_data pod_findings lb_findings storage_findings))).

End GenerateReportMain.

Section MainReport.
Import GenerateReport GenerateReportMain.

(** The findings the pod analysis can produce. *)
Definition pod_run_finding (f : Finding) : Prop :=
  container_type f ∨
  (ftype f = "MISSING_REQUESTS" ∧ monthlySavings f = 0 ∧ pod f = None).

Lemma analyze_pods_findings (items : list Pod) (usage_data : gmap string Usage)
    (fs : list Finding) :
  analyze_pods items usage_data = Ok fs → Forall pod_run_finding fs.
Proof.
  unfold analyze_pods.
  destruct (analyze_items usage_data items) as [[fs0 refs]| |] eqn:H;
    cbn [bind]; [|done|done].
  apply analyze_items_types in H as [Hty _]. intros [= <-].
  assert (H0 : Forall pod_run_finding fs0).
  { eapply Forall_impl; [exact Hty|]. intros f Hf. by left. }
  destruct refs; [done|]. apply Forall_app. split; [done|].
  apply Forall_singleton. right. by split_and!.
Qed.

Lemma pod_run_finding_type (f : Finding) :
  pod_run_finding f → ftype f ≠ "ORPHANED_LB" ∧ ftype f ≠ "UNBOUND_PV".
Proof.
  intros [[H|[H|[H|H]]]|(H & _)]; rewrite H; by split.
Qed.

Lemma pods_affected_podless (g : list Finding) :
  Forall (λ f, pod f = None) g → pods_affected g = 0%nat.
Proof.
  intros Hg. unfold pods_affected.
  replace (List.filter has_pod g) with (@nil Finding); [done|].
  symmetry. induction Hg as [|f l Hf _ IH]; [done|].
  cbn. unfold has_pod at 1. by rewrite Hf.
Qed.

Lemma analyze_load_balancers_findings (items : list Service) :
  analyze_load_balancers items = [] ∨
  ∃ f, analyze_load_balancers items = [f] ∧ ftype f = "ORPHANED_LB".
Proof.
  unfold analyze_load_balancers. destruct (orphaned_lbs items); [by left|].
  right. by eexists.
Qed.

Lemma analyze_storage_findings (items : list Volume) (fs : list Finding) :
  analyze_storage items = Ok fs →
  fs = [] ∨ ∃ f, fs = [f] ∧ ftype f = "UNBOUND_PV".
Proof.
  unfold analyze_storage.
  destruct (unbound_pvs 0 [] items) as [[total pvs]| |]; cbn [bind]; [|done|done].
  intros [= <-]. destruct pvs; [by left|]. right. by eexists.
Qed.

Lemma filter_other_type (t : string) (l : list Finding) :
  Forall (λ f, ftype f ≠ t) l → List.filter (has_type t) l = [].
Proof.
  induction 1 as [|f l Hf _ IH]; [done|].
  cbn. unfold has_type at 1. by rewrite (proj2 (String.eqb_neq _ _) Hf).
Qed.

(** A small cluster: one idle pod, two load balancers, one released volume. *)
Definition second_load_balancer : Service :=
  {| svc_name := Some "admin"; svc_namespace := Some "ops";
     creationTimestamp := Some "2024-02-01T00:00:00Z";
     svc_type := Some "LoadBalancer" |}.

Definition sample_report : ReportData :=
  match main [sidecar_pod; unlimited_pod] unlimited_usage
             [dated_load_balancer; second_load_balancer] [released_volume] with
  | Ok r => r
  | _ => report_data [] [] []
  end.

End MainReport.

(** In the report of a run the entry for load balancers and the entry for
    volumes each count one affected resource, however many were flagged,
    and the entry for missing requests counts zero affected pods: the
    counts of the findings themselves are not carried over. *)
Theorem report_counts_not_carried_over
    (pods : list GenerateReport.Pod) (usage_data : gmap string GenerateReport.Usage)
    (services : list GenerateReport.Service) (volumes : list GenerateReport.Volume)
    (r : GenerateReportMain.ReportData) (a : GenerateReport.Aggregated) :
  GenerateReportMain.main pods usage_data services volumes = Ok r →
  a ∈ GenerateReportMain.findings r →
  (GenerateReport.agg_type a = "ORPHANED_LB" →
   GenerateReport.agg_resourcesAffected a = Some 1%nat) ∧
  (GenerateReport.agg_type a = "UNBOUND_PV" →
   GenerateReport.agg_resourcesAffected a = Some 1%nat) ∧
  (GenerateReport.agg_type a = "MISSING_REQUESTS" →
   GenerateReport.agg_podsAffected a = Some 0%nat).
Proof.
  unfold GenerateReportMain.main.
  destruct (GenerateReport.analyze_pods pods usage_data) as [pf| |] eqn:Hp;
    cbn [bind]; [|done|done].
  destruct (GenerateReport.analyze_storage volumes) as [sf| |] eqn:Hs;
    cbn [bind]; [|done|done].
  intros [= <-]. cbn [GenerateReportMain.findings GenerateReportMain.report_data].
  intros (t & (f0 & Hf0 & Ht0) & ->)%aggregate_findings_elem.
  apply analyze_pods_findings in Hp.
  assert (Hin : f0 ∈ List.filter (has_type t) (pf ++ GenerateReport.analyze_load_balancers services ++ sf)).
  { apply list_elem_of_In, filter_In. split; [by apply list_elem_of_In|].
    by apply String.eqb_eq. }
  unfold GenerateReport.aggregate_group.
  cbn [GenerateReport.agg_type GenerateReport.agg_resourcesAffected
       GenerateReport.agg_podsAffected].
  rewrite !List.filter_app in *.
  assert (Hpf : t = "ORPHANED_LB" ∨ t = "UNBOUND_PV" → List.filter (has_type t) pf = []).
  { intros Ht. apply filter_other_type. eapply Forall_impl; [exact Hp|].
    intros f [H1 H2]%pod_run_finding_type. by destruct Ht as [-> | ->]. }
  destruct (analyze_load_balancers_findings services) as [Hl|(fl & Hl & Hfl)];
    destruct (analyze_storage_findings _ _ Hs) as [->|(fv & -> & Hfv)];
    rewrite Hl in *; clear Hl; split_and!; intros ->;
    rewrite ?Hpf in * by auto; cbn [List.filter app] in *; unfold has_type in *;
    rewrite ?Hfl, ?Hfv in *; cbn in *;
    try (by apply elem_of_nil in Hin); try done.
  all: f_equal; apply pods_affected_podless; rewrite ?app_nil_r;
    apply Forall_forall; intros f [Hf Ht]%list_elem_of_In%filter_In;
    rewrite Forall_forall in Hp; apply list_elem_of_In in Hf;
    destruct (Hp f Hf) as [[H|[H|[H|H]]]|(_ & _ & H)]; try done;
    apply String.eqb_eq in Ht; rewrite H in Ht; discriminate.
Qed.

Lemma report_counts_not_carried_over_witness :
  ∃ a, a ∈ GenerateReportMain.findings sample_report ∧
       GenerateReport.agg_type a = "ORPHANED_LB" ∧
       GenerateReport.agg_resourcesAffected a = Some 1%nat.
Proof.
  destruct (List.find (λ a, String.eqb (GenerateReport.agg_type a) "ORPHANED_LB")
              (GenerateReportMain.findings sample_report)) as [a|] eqn:E;
    [|vm_compute in E; discriminate].
  apply find_elem_of in E as [Ha Ht]. apply String.eqb_eq in Ht.
  exists a. split_and!; [done | done |].
  destruct (report_counts_not_carried_over [sidecar_pod; unlimited_pod] unlimited_usage
              [dated_load_balancer; second_load_balancer] [released_volume]
              sample_report a) as (H & _ & _); [vm_compute; reflexivity | exact Ha |].
  exact (H Ht).
Defined.

(** ** The verdict of the pull-request check *)

(** The decisions of [create_pr_comment] and [main] of [audit_pr.py]; the
    text of the comment, which formats floats, is left to the renderer. *)
Module AuditPrCheck.
Import AuditPr.

(** [sum(change[...] for change in cost_changes)] *)
Definition total_of (field : CostChange → Q) (cost_changes : list CostChange) : Q :=
  fold_left (λ acc change, acc + field change) cost_changes 0.

(** The severity in the title of the comment; [None] when
    [create_pr_comment] returns the empty string. *)
Definition comment_severity (cost_changes : list CostChange) (threshold : Q)
  : option string :=
  let total_max_impact := total_of max_cost_diff cost_changes in
  if Qlt_b (Qabs_b total_max_impact) threshold then None
  else if Qgt_b total_max_impact (threshold * 5) then Some "CRITICAL"
  else if Qgt_b total_max_impact (threshold * 2) then Some "HIGH"
  else Some "MODERATE".

(** Whether the comment carries the recommendations. *)
Definition has_recommendations (cost_changes : list CostChange) : bool :=
  Qgt_b (total_of max_cost_diff cost_changes) 0.

(** The exit status of [main] once the changes are known. *)
Definition exit_status (cost_changes : list CostChange) (cost_threshold : Q) : Z :=
  match cost_changes with
  | [] => 0%Z
  | _ =>
      let total_max_impact := total_of max_cost_diff cost_changes in
      if Qle_bool cost_threshold (Qabs_b total_max_impact) then
        match comment_severity cost_changes cost_threshold with
        | Some _ => 1%Z
        | None => 0%Z
        end
      else 0%Z
  end.

(** Python truth value of [os.getenv(name)]. *)
Definition env_set (env : gmap string string) (name : string) : bool :=
  match env !! name with
  | Some v => negb (String.eqb v "")
  | None => false
  end.

(** The variables that [main] validates. *)
Definition required : list string :=
  [ "GITHUB_TOKEN"; "PR_NUMBER"; "REPO_OWNER"; "REPO_NAME"; "BASE_SHA"; "HEAD_SHA" ].

(** [main]: the status passed to [sys.exit], or the exception that leaves
    [main].  [env] is the environment and [changed] the changed files with
    their old and new contents, as read from git; changing the directory
    and posting the comment are taken to return. *)
Definition main (env : gmap string string) (changed : list (string * string * string))
  : result Z :=
  bind (float (chars (default "50" (env !! "COST_THRESHOLD")))) (λ cost_threshold,
  if negb (forallb (env_set env) required) then Ok 1%Z
  else
    match int (chars (default "" (env !! "PR_NUMBER"))) with
    | Ok _ =>
        bind (analyze_pr_costs changed) (λ cost_changes,
        Ok (exit_status cost_changes cost_threshold))
    | _ => Ok 1%Z
    end).

(** The exit status of the process: an exception that leaves [main] ends
    it with status 1.  A run that meets a non-finite float is outside the
    model. *)
Definition process_status (r : result Z) : option Z :=
  match r with
  | Ok status => Some status
  | Raise _ => Some 1%Z
  | NonFinite => None
  end.

End AuditPrCheck.

Section Verdict.
Import AuditPr AuditPrCheck.

Lemma Qabs_b_cases (x : Q) : (x < 0 ∧ Qabs_b x = - x) ∨ (0 <= x ∧ Qabs_b x = x).
Proof.
  unfold Qabs_b. destruct (Qlt_b x 0) eqn:E; q_bools; [by left | by right].
Qed.

(** A change that removes the 1..2 replicas of [scaled_snapshot]. *)
Definition removal : list CostChange :=
  compare_resources "k8s/api.yaml" scaled_snapshot ∅.

(** An environment with every required variable. *)
Definition complete_env : gmap string string :=
  {[ "GITHUB_TOKEN" := "t0ken"; "PR_NUMBER" := "7"; "REPO_OWNER" := "acme";
     "REPO_NAME" := "shop"; "BASE_SHA" := "a1b2c3"; "HEAD_SHA" := "d4e5f6" ]}.

End Verdict.

(** The exit status of [main] once the changes are known is 1 exactly
    when some change is reported and the summed worst-case delta reaches
    the threshold in absolute value. *)
Lemma exit_status_fails (cost_changes : list AuditPr.CostChange) (cost_threshold : Q) :
  AuditPrCheck.exit_status cost_changes cost_threshold = 1%Z ↔
  cost_changes ≠ [] ∧
  cost_threshold
  <= Qabs_b (AuditPrCheck.total_of AuditPr.max_cost_diff cost_changes).
Proof.
  unfold AuditPrCheck.exit_status, AuditPrCheck.comment_severity.
  destruct cost_changes as [|c cs]; [split; [done | by intros [? _]]|].
  destruct (Qle_bool cost_threshold _) eqn:E.
  - apply Qle_bool_iff in E.
    rewrite (proj2 (Qlt_b_false _ _) E).
    split; [by intros _ | intros _]. by repeat case_match.
  - split; [done|]. intros [_ H%Qle_bool_iff]. congruence.
Qed.

Example main_samples :
  AuditPrCheck.main ∅ [] = Ok 1%Z ∧
  AuditPrCheck.main (<["PR_NUMBER" := "seven"]> complete_env) [] = Ok 1%Z ∧
  raises (AuditPrCheck.main (<["COST_THRESHOLD" := "fifty"]> complete_env) []) ∧
  AuditPrCheck.main complete_env [] = Ok 0%Z.
Proof. split_and!; vm_compute; first [reflexivity | exact I]. Qed.

(** The process of the check ends with status 1 exactly when
    [COST_THRESHOLD] is not a number or, the threshold being read, when a
    required variable is missing or empty, when [PR_NUMBER] is not an
    integer, when the analysis raises, or when some change is reported and
    the summed worst-case delta reaches the threshold in absolute value. *)
Theorem check_fails_iff_setup_fails_or_total_reaches_threshold
    (env : gmap string string) (changed : list (string * string * string)) :
  AuditPrCheck.process_status (AuditPrCheck.main env changed) = Some 1%Z ↔
  raises (float (chars (default "50" (env !! "COST_THRESHOLD")))) ∨
  ∃ cost_threshold,
    float (chars (default "50" (env !! "COST_THRESHOLD"))) = Ok cost_threshold ∧
    (forallb (AuditPrCheck.env_set env) AuditPrCheck.required = false ∨
     raises (int (chars (default "" (env !! "PR_NUMBER")))) ∨
     raises (AuditPr.analyze_pr_costs changed) ∨
     ∃ cost_changes,
       AuditPr.analyze_pr_costs changed = Ok cost_changes ∧
       cost_changes ≠ [] ∧
       cost_threshold
       <= Qabs_b (AuditPrCheck.total_of AuditPr.max_cost_diff cost_changes)).
Proof.
  unfold AuditPrCheck.main.
  destruct (float _) as [t| |]; cbn [bind AuditPrCheck.process_status raises].
  2: { split; [by left | done]. }
  2: { split; [done | intros [[]|(? & ? & _)]; done]. }
  destruct (forallb _ _); cbn [negb].
  2: { split; [|done]. intros _. right. exists t. split; [done | by left]. }
  destruct (int _) as [n| |] eqn:Hn; cbn [AuditPrCheck.process_status raises].
  - destruct (AuditPr.analyze_pr_costs changed) as [cs| |];
      cbn [bind AuditPrCheck.process_status raises].
    + split.
      * intros [= H%exit_status_fails]. right. exists t. split; [done|].
        right. right. right. by exists cs.
      * intros [[]|(t' & [= <-] & [H|[[]|[[]|(cs' & [= <-] & H)]]])]; [done|].
        f_equal. by apply exit_status_fails.
    + split; [|done]. intros _. right. exists t. split; [done|].
      right. right. by left.
    + split; [done|].
      intros [[]|(t' & _ & [H|[[]|[[]|(cs' & H & _)]]])]; done.
  - split; [|done]. intros _. right. exists t. split; [done|]. right. by left.
  - exfalso. unfold int in Hn. by repeat case_match.
Qed.

(** A pull request whose summed worst-case delta is a saving is never
    rated above [MODERATE]; when the saving reaches the threshold the
    check fails all the same. *)
Theorem net_savings_rated_moderate
    (cost_changes : list AuditPr.CostChange) (threshold : Q) :
  0 <= threshold →
  AuditPrCheck.total_of AuditPr.max_cost_diff cost_changes <= 0 →
  (AuditPrCheck.comment_severity cost_changes threshold = None ∨
   AuditPrCheck.comment_severity cost_changes threshold = Some "MODERATE") ∧
  (cost_changes ≠ [] →
   AuditPrCheck.total_of AuditPr.max_cost_diff cost_changes <= - threshold →
   AuditPrCheck.exit_status cost_changes threshold = 1%Z) ∧
  AuditPrCheck.has_recommendations cost_changes = false.
Proof.
  intros Ht Hs. split_and!.
  - unfold AuditPrCheck.comment_severity.
    destruct (Qlt_b _ threshold); [by left|]. right.
    rewrite (proj2 (Qgt_b_false _ (threshold * 5))) by lra.
    by rewrite (proj2 (Qgt_b_false _ (threshold * 2))) by lra.
  - intros Hne Hle. unfold AuditPrCheck.exit_status, AuditPrCheck.comment_severity.
    destruct cost_changes as [|c cs]; [done|].
    destruct (Qabs_b_cases (AuditPrCheck.total_of AuditPr.max_cost_diff (c :: cs)))
      as [[Hneg Habs]|[Hpos Habs]]; rewrite Habs.
    + rewrite (proj2 (Qle_bool_iff threshold _)) by lra.
      rewrite (proj2 (Qlt_b_false _ threshold)) by lra. by repeat case_match.
    + rewrite (proj2 (Qle_bool_iff threshold _)) by lra.
      rewrite (proj2 (Qlt_b_false _ threshold)) by lra. by repeat case_match.
  - unfold AuditPrCheck.has_recommendations. by apply Qgt_b_false.
Qed.

Lemma net_savings_rated_moderate_witness :
  AuditPrCheck.exit_status removal 50 = 1%Z.
Proof.
  destruct (net_savings_rated_moderate removal 50) as (_ & H & _).
  - by vm_compute.
  - by vm_compute.
  - apply H; [by vm_compute | by vm_compute].
Defined.

(** ** The run of [analyze-audit.py] *)

Module AnalyzeAuditRun.
Import AnalyzeAudit.

Record Recommendation : Type := {
  rec_type : string;
  rec_severity : string;
  rec_pod : option string;
  message : string;
  rec_estimated_savings : Q
}.

Record QuickWin : Type := {
  win_type : string;
  win_severity : string;
  current_limit : string;
  recommended_limit : string;
  estimated_savings : Q
}.

(** The [findings] dictionary. *)
Record Findings : Type := {
  total_pods : nat;
  total_waste_monthly : Q;
  recommendations : list Recommendation;
  quick_wins : list QuickWin
}.

(** [int(x)] on a float: truncation towards zero. *)
Definition py_int (x : Q) : Z := Z.quot (Qnum x) (Z.pos (Qden x)).

(** Python truth value of [d.get(key)] on a dictionary of strings. *)
Definition present (d : gmap string string) (key : string) : bool :=
  match d !! key with
  | Some v => negb (String.eqb v "")
  | None => false
  end.

(** The body of the loop over the containers of a pod. *)
Definition analyze_container (pod_name : option string) (findings : Findings)
    (c : GenerateReport.Container) : result Findings :=
  let requests := GenerateReport.requests c in
  let limits := GenerateReport.limits c in
  let findings :=
    if bool_decide (requests = ∅) then
      {| total_pods := total_pods findings;
         total_waste_monthly := total_waste_monthly findings;
         recommendations :=
           recommendations findings ++
           [ {| rec_type := "missing_requests"; rec_severity := "high";
                rec_pod := pod_name;
                message := "No resource requests defined - scheduling inefficiency";
                rec_estimated_savings := 0 |} ];
         quick_wins := quick_wins findings |}
    else findings in
  if present limits "memory" && present requests "memory" then
    bind (parse_memory (default "" (limits !! "memory"))) (λ limit_bytes,
    bind (parse_memory (default "" (requests !! "memory"))) (λ request_bytes,
    if Qgt_b limit_bytes (request_bytes * 4) then
      let waste_bytes := limit_bytes - request_bytes * 1.5 in
      let waste_monthly := waste_bytes / 1024 ^ 3 * 10 in
      Ok {| total_pods := total_pods findings;
            total_waste_monthly := total_waste_monthly findings + waste_monthly;
            recommendations := recommendations findings;
            quick_wins :=
              quick_wins findings ++
              [ {| win_type := "over_provisioned_memory"; win_severity := "medium";
                   current_limit := default "" (limits !! "memory");
                   recommended_limit :=
                     pretty (py_int (request_bytes * 1.5 / 1024 ^ 2)) +:+ "Mi";
                   estimated_savings := waste_monthly |} ] |}
    else Ok findings))
  else Ok findings.

Fixpoint analyze_containers (pod_name : option string) (findings : Findings)
    (cs : list GenerateReport.Container) : result Findings :=
  match cs with
  | [] => Ok findings
  | c :: cs' =>
      bind (analyze_container pod_name findings c) (λ findings',
      analyze_containers pod_name findings' cs')
  end.

(** The loop over the pods. *)
Fixpoint analyze_items (findings : Findings) (items : list GenerateReport.Pod)
  : result Findings :=
  match items with
  | [] => Ok findings
  | pod :: rest =>
      let findings :=
        {| total_pods := S (total_pods findings);
           total_waste_monthly := total_waste_monthly findings;
           recommendations := recommendations findings;
           quick_wins := quick_wins findings |} in
      bind (analyze_containers (GenerateReport.pod_name pod) findings
              (GenerateReport.containers pod)) (λ findings',
      analyze_items findings' rest)
  end.

(** [analyze_audit], on the loaded pod items. *)
Definition analyze_audit (items : list GenerateReport.Pod) : result Findings :=
  analyze_items {| total_pods := 0; total_waste_monthly := 0;
                   recommendations := []; quick_wins := [] |} items.

End AnalyzeAuditRun.

Section AuditRun.
Import AnalyzeAuditRun.

(** The sum of a list of savings. *)
Definition Qsum (l : list Q) : Q := fold_right Qplus 0 l.

Lemma Qsum_snoc (l : list Q) (x : Q) : Qsum (l ++ [x]) == Qsum l + x.
Proof.
  induction l as [|y l IH]; simpl; [ring|]. rewrite IH. ring.
Qed.

(** What a run has accumulated is consistent: [pods] pods counted, the
    waste is the sum over the quick wins, [missing] recommendations. *)
Definition consistent (pods missing : nat) (r : Findings) : Prop :=
  total_pods r = pods ∧
  total_waste_monthly r == Qsum (map estimated_savings (quick_wins r)) ∧
  length (recommendations r) = missing.

Lemma analyze_container_consistent (pod_name : option string) (st st' : Findings)
    (c : GenerateReport.Container) (pods missing : nat) :
  analyze_container pod_name st c = Ok st' → consistent pods missing st →
  consistent pods
    (missing + length (List.filter (λ c, bool_decide (GenerateReport.requests c = ∅)) [c])) st'.
Proof.
  unfold analyze_container, consistent. intros H (Hp & Hw & Hm). cbn [List.filter].
  destruct (bool_decide (GenerateReport.requests c = ∅));
    destruct (present _ _ && present _ _);
    repeat match type of H with
           | bind ?r _ = _ => destruct r; cbn [bind] in H; try discriminate
           | (if ?b then _ else _) = _ => destruct b
           end;
    injection H as <-;
    cbn [total_pods total_waste_monthly recommendations quick_wins length];
    rewrite ?length_app, ?map_app;
    cbn [map length estimated_savings];
    (split_and!; [done | first [done | rewrite Qsum_snoc, Hw; reflexivity] | lia]).
Qed.

Lemma analyze_containers_consistent (pod_name : option string)
    (cs : list GenerateReport.Container) (st st' : Findings) (pods missing : nat) :
  analyze_containers pod_name st cs = Ok st' → consistent pods missing st →
  consistent pods
    (missing + length (List.filter (λ c, bool_decide (GenerateReport.requests c = ∅)) cs)) st'.
Proof.
  revert st missing. induction cs as [|c cs IH]; intros st missing; cbn [analyze_containers].
  - intros [= <-] H. cbn. by rewrite Nat.add_0_r.
  - destruct (analyze_container pod_name st c) as [st1| |] eqn:H1; cbn [bind]; [|done|done].
    intros H2 Hst. apply (analyze_container_consistent _ _ _ _ _ _ H1) in Hst.
    apply (IH _ _ H2) in Hst. revert Hst. unfold consistent. cbn [List.filter].
    destruct (bool_decide (GenerateReport.requests c = ∅)); cbn [length];
      intros (? & ? & ->); split_and!; [done | done | lia | done | done | lia].
Qed.

Lemma analyze_items_consistent (items : list GenerateReport.Pod) (st st' : Findings)
    (pods missing : nat) :
  analyze_items st items = Ok st' → consistent pods missing st →
  consistent (pods + length items)
    (missing + length (containers_without_requests items)) st'.
Proof.
  unfold containers_without_requests.
  revert st pods missing. induction items as [|p items IH]; intros st pods missing;
    cbn [analyze_items].
  - intros [= <-] H. cbn. by rewrite !Nat.add_0_r.
  - destruct (analyze_containers _ _ _) as [st1| |] eqn:H1; cbn [bind]; [|done|done].
    intros H2 (Hp & Hw & Hm).
    apply (analyze_containers_consistent _ _ _ _ (S pods) missing) in H1;
      [|by split_and!; cbn; [rewrite Hp | |]].
    apply (IH _ _ _ H2) in H1. revert H1. unfold consistent.
    cbn [map concat length]. rewrite List.filter_app, length_app.
    intros (-> & ? & ->); split_and!; [lia | done | lia].
Qed.

(** Two pods: one over its memory ratio, one without requests. *)
Definition audited_pods : list GenerateReport.Pod :=
  [ {| GenerateReport.pod_name := Some "worker-0"; GenerateReport.pod_namespace := Some "prod";
       GenerateReport.containers := [wasteful_container] |};
    sidecar_pod ].

Definition audited : Findings :=
  match analyze_audit audited_pods with
  | Ok r => r
  | _ => {| total_pods := 0; total_waste_monthly := 0;
            recommendations := []; quick_wins := [] |}
  end.

End AuditRun.

(** A run of [analyze_audit] that succeeds has counted every pod, its
    monthly waste is the sum of the savings of its quick wins, and it
    holds one recommendation for each container without requests. *)
Theorem analyze_audit_totals (items : list GenerateReport.Pod)
    (r : AnalyzeAuditRun.Findings) :
  AnalyzeAuditRun.analyze_audit items = Ok r →
  AnalyzeAuditRun.total_pods r = length items ∧
  AnalyzeAuditRun.total_waste_monthly r
  == Qsum (map AnalyzeAuditRun.estimated_savings (AnalyzeAuditRun.quick_wins r)) ∧
  length (AnalyzeAuditRun.recommendations r) = length (containers_without_requests items).
Proof.
  intros H. apply (analyze_items_consistent _ _ _ 0%nat 0%nat) in H; [exact H|].
  by split_and!.
Qed.

Lemma analyze_audit_totals_witness :
  AnalyzeAuditRun.total_pods audited = 2%nat ∧
  AnalyzeAuditRun.total_waste_monthly audited
  == Qsum (map AnalyzeAuditRun.estimated_savings (AnalyzeAuditRun.quick_wins audited)) ∧
  length (AnalyzeAuditRun.recommendations audited) = 2%nat.
Proof.
  apply (analyze_audit_totals audited_pods audited). vm_compute. reflexivity.
Defined.

(** ** The usage table ([generate-report.py]) *)

Module GenerateReportUsage.
Import GenerateReport.

(** [s.split()]: the runs of characters between whitespace; [cur] is the
    field being read. *)
Fixpoint split_fields (cur : list ascii) (s : list ascii) : list (list ascii) :=
  match s with
  | c :: t =>
      if is_space c then
        match cur with
        | [] => split_fields [] t
        | _ => cur :: split_fields [] t
        end
      else split_fields (cur ++ [c]) t
  | [] =>
      match cur with
      | [] => []
      | _ => [cur]
      end
  end.

Definition split_whitespace (s : list ascii) : list (list ascii) := split_fields [] s.

(** The dictionary [parse_usage_line] returns when it is not empty. *)
Record UsageLine : Type := {
  line_namespace : string;
  line_pod : string;
  line_cpu : string;
  line_memory : string
}.

(** [parse_usage_line(line)]; the empty dictionary is [None].  The
    indices 0..2 are in range under the guard. *)
Definition parse_usage_line (line : string) : option UsageLine :=
  let parts := map str (split_whitespace (strip (chars line))) in
  if (3 <=? length parts)%nat then
    Some {| line_namespace := default "" (parts !! 0%nat);
            line_pod := default "" (parts !! 1%nat);
            line_cpu :=
              if (2 <? length parts)%nat then default "" (parts !! 2%nat) else "0m";
            line_memory :=
              if (3 <? length parts)%nat then default "" (parts !! 3%nat) else "0Mi" |}
  else None.

(** [f"{parsed['namespace']}/{parsed['pod']}"] *)
Definition usage_key (parsed : UsageLine) : string :=
  line_namespace parsed +:+ "/" +:+ line_pod parsed.

(** The body of the loop over the lines. *)
Definition load_line (usage : gmap string Usage) (line : string)
  : result (gmap string Usage) :=
  match parse_usage_line line with
  | Some parsed =>
      let key := usage_key parsed in
      bind (parse_cpu (line_cpu parsed)) (λ cpu,
      bind (parse_memory (line_memory parsed)) (λ memory,
      Ok (<[key := {| usage_cpu := cpu; usage_memory := memory |}]> usage)))
  | None => Ok usage
  end.

Fixpoint load_lines (usage : gmap string Usage) (lines : list string)
  : result (gmap string Usage) :=
  match lines with
  | [] => Ok usage
  | line :: rest => bind (load_line usage line) (λ usage', load_lines usage' rest)
  end.

(** [load_usage_data]: [usage_file] is what [readlines()] gives for
    [usage-pods.txt], [None] when the file does not exist. *)
Definition load_usage_data (usage_file : option (list string))
  : result (gmap string Usage) :=
  match usage_file with
  | Some lines => load_lines ∅ (drop 1 lines)
  | None => Ok ∅
  end.

End GenerateReportUsage.

Section UsageLines.
Import GenerateReport GenerateReportUsage.

(** A column: not empty, no whitespace in it. *)
Definition is_word (w : list ascii) : bool :=
  match w with
  | [] => false
  | _ => forallb (λ c, negb (is_space c)) w
  end.

(** What stands between two columns: whitespace, at least one character. *)
Definition is_gap (g : list ascii) : bool :=
  match g with
  | [] => false
  | _ => forallb is_space g
  end.

(** The columns [ws] written out with the gaps [gaps] between them. *)
Fixpoint layout (ws gaps : list (list ascii)) : list ascii :=
  match ws with
  | [] => []
  | w :: ws' =>
      match gaps with
      | g :: gaps' => w ++ g ++ layout ws' gaps'
      | [] => w
      end
  end.

Lemma split_fields_spaces (cur g : list ascii) :
  forallb is_space g = true →
  split_fields cur g = match cur with [] => [] | _ => [cur] end.
Proof.
  revert cur. induction g as [|c g IH]; intros cur H; [done|].
  cbn [forallb] in H. apply andb_true_iff in H as [Hc H].
  cbn [split_fields]. rewrite Hc. destruct cur; by rewrite (IH [] H).
Qed.

Lemma split_fields_app_spaces (cur s g : list ascii) :
  forallb is_space g = true → split_fields cur (s ++ g) = split_fields cur s.
Proof.
  intros H. revert cur. induction s as [|a s IH]; intros cur.
  - rewrite app_nil_l, split_fields_spaces by done. by destruct cur.
  - cbn [app split_fields]. destruct (is_space a); [|apply IH].
    destruct cur; by rewrite IH.
Qed.

Lemma split_fields_leading (g rest : list ascii) :
  forallb is_space g = true → split_fields [] (g ++ rest) = split_fields [] rest.
Proof.
  induction g as [|c g IH]; intros H; [done|].
  cbn [forallb] in H. apply andb_true_iff in H as [Hc H].
  cbn [app split_fields]. rewrite Hc. by apply IH.
Qed.

Lemma split_fields_word (cur w rest : list ascii) :
  forallb (λ c, negb (is_space c)) w = true →
  split_fields cur (w ++ rest) = split_fields (cur ++ w) rest.
Proof.
  revert cur. induction w as [|a w IH]; intros cur H; [by rewrite app_nil_r|].
  cbn [forallb] in H. apply andb_true_iff in H as [Ha H].
  apply negb_true_iff in Ha. cbn [app split_fields]. rewrite Ha, IH by done.
  by rewrite <- app_assoc.
Qed.

Lemma split_fields_gap (cur g rest : list ascii) :
  is_gap g = true → cur ≠ [] →
  split_fields cur (g ++ rest) = cur :: split_fields [] rest.
Proof.
  destruct g as [|c g]; [done|]. cbn [is_gap forallb].
  intros H Hcur. apply andb_true_iff in H as [Hc H].
  cbn [app split_fields]. rewrite Hc, split_fields_leading by done.
  by destruct cur.
Qed.

Lemma is_word_inv (w : list ascii) :
  is_word w = true → w ≠ [] ∧ forallb (λ c, negb (is_space c)) w = true.
Proof. by destruct w. Qed.

Lemma split_layout (ws gaps : list (list ascii)) :
  forallb is_word ws = true → forallb is_gap gaps = true →
  length ws = S (length gaps) →
  split_fields [] (layout ws gaps) = ws.
Proof.
  revert gaps. induction ws as [|w ws IH]; intros gaps Hws Hgaps Hlen; [done|].
  cbn [forallb] in Hws. apply andb_true_iff in Hws as [Hw Hws].
  apply is_word_inv in Hw as [Hne Hw]. cbn [layout].
  destruct gaps as [|g gaps].
  - destruct ws; [|done].
    rewrite <- (app_nil_r w) at 1. rewrite split_fields_word by done.
    cbn. by destruct w.
  - cbn [forallb] in Hgaps. apply andb_true_iff in Hgaps as [Hg Hgaps].
    rewrite split_fields_word, app_nil_l, split_fields_gap by done.
    f_equal. apply IH; [done | done |]. cbn [length] in Hlen. lia.
Qed.

Lemma lstrip_by_decompose (p : ascii → bool) (s : list ascii) :
  ∃ g, s = g ++ lstrip_by p s ∧ forallb p g = true.
Proof.
  induction s as [|c s (g & Hg & Hp)]; [by exists []|].
  cbn [lstrip_by]. destruct (p c) eqn:Hc; [|by exists []].
  exists (c :: g). cbn [forallb app]. rewrite Hc, Hp. by rewrite <- Hg.
Qed.

Lemma rstrip_by_decompose (p : ascii → bool) (s : list ascii) :
  ∃ g, s = rstrip_by p s ++ g ∧ forallb p g = true.
Proof.
  unfold rstrip_by. destruct (lstrip_by_decompose p (rev s)) as (g & Hg & Hp).
  exists (rev g). split.
  - rewrite <- rev_app_distr, <- Hg. by rewrite rev_involutive.
  - apply forallb_forall. intros x Hx. apply in_rev in Hx.
    by apply (proj1 (forallb_forall _ _) Hp).
Qed.

(** Stripping a line changes none of its columns. *)
Lemma split_whitespace_strip (s : list ascii) :
  split_whitespace (strip s) = split_whitespace s.
Proof.
  unfold split_whitespace, strip, strip_by.
  destruct (lstrip_by_decompose is_space s) as (g & Hg & Hp).
  destruct (rstrip_by_decompose is_space (lstrip_by is_space s)) as (g' & Hg' & Hp').
  rewrite Hg at 2. rewrite split_fields_leading by done.
  rewrite Hg' at 2. by rewrite split_fields_app_spaces.
Qed.

Lemma columns_of_layout (pre post : list ascii) (ws gaps : list (list ascii)) :
  forallb is_space pre = true → forallb is_space post = true →
  forallb is_word ws = true → forallb is_gap gaps = true →
  length ws = S (length gaps) →
  split_whitespace (strip (pre ++ layout ws gaps ++ post)) = ws.
Proof.
  intros Hpre Hpost Hws Hgaps Hlen. rewrite split_whitespace_strip.
  unfold split_whitespace.
  rewrite split_fields_leading, split_fields_app_spaces by done.
  by apply split_layout.
Qed.

Lemma chars_str (l : list ascii) : chars (str l) = l.
Proof. apply String.list_ascii_of_string_of_list_ascii. Qed.

(** The lines that [load_usage_data] does not skip. *)
Definition has_three_columns (line : string) : bool :=
  (3 <=? length (split_whitespace (chars line)))%nat.

Lemma parse_usage_line_None (line : string) :
  has_three_columns line = false → parse_usage_line line = None.
Proof.
  unfold has_three_columns, parse_usage_line. cbv zeta.
  rewrite length_map, split_whitespace_strip. by intros ->.
Qed.

Lemma parse_usage_line_Some (line : string) :
  has_three_columns line = true → is_Some (parse_usage_line line).
Proof.
  unfold has_three_columns, parse_usage_line. cbv zeta.
  rewrite length_map, split_whitespace_strip. by intros ->.
Qed.

Lemma load_lines_filter (usage : gmap string Usage) (lines : list string) :
  load_lines usage (List.filter has_three_columns lines) = load_lines usage lines.
Proof.
  revert usage. induction lines as [|line lines IH]; intros usage; [done|].
  cbn [List.filter load_lines]. destruct (has_three_columns line) eqn:H.
  - cbn [load_lines]. destruct (load_line usage line); cbn [bind]; [apply IH|done|done].
  - unfold load_line. rewrite (parse_usage_line_None _ H). cbn [bind]. apply IH.
Qed.

(** The entry of the table under [key] comes from the line [line]. *)
Definition entry_of_line (line : string) (key : string) (v : Usage) : Prop :=
  ∃ parsed, parse_usage_line line = Some parsed ∧ usage_key parsed = key ∧
            parse_cpu (line_cpu parsed) = Ok (usage_cpu v) ∧
            parse_memory (line_memory parsed) = Ok (usage_memory v).

Lemma load_line_entries (usage usage' : gmap string Usage) (line : string) :
  load_line usage line = Ok usage' →
  (∀ parsed, parse_usage_line line = Some parsed → is_Some (usage' !! usage_key parsed)) ∧
  (∀ key, is_Some (usage !! key) → is_Some (usage' !! key)) ∧
  (∀ key v, usage' !! key = Some v → usage !! key = Some v ∨ entry_of_line line key v).
Proof.
  unfold load_line, entry_of_line.
  destruct (parse_usage_line line) as [parsed|]; cbv zeta.
  - destruct (parse_cpu _) as [cpu| |] eqn:Hcpu; cbn [bind]; [|done|done].
    destruct (parse_memory _) as [memory| |] eqn:Hmem; cbn [bind]; [|done|done].
    intros [= <-]. split_and!.
    + intros ? [= <-]. by rewrite lookup_insert_eq.
    + intros key Hkey. destruct (decide (usage_key parsed = key)) as [->|Hne].
      * by rewrite lookup_insert_eq.
      * by rewrite lookup_insert_ne.
    + intros key v. destruct (decide (usage_key parsed = key)) as [<-|Hne].
      * rewrite lookup_insert_eq. intros [= <-]. right. by exists parsed.
      * rewrite lookup_insert_ne by done. by left.
  - intros [= <-]. split_and!; [done | done | by left].
Qed.

Lemma load_lines_entries (lines : list string) (usage usage' : gmap string Usage) :
  load_lines usage lines = Ok usage' →
  (∀ line parsed, line ∈ lines → parse_usage_line line = Some parsed →
                  is_Some (usage' !! usage_key parsed)) ∧
  (∀ key, is_Some (usage !! key) → is_Some (usage' !! key)) ∧
  (∀ key v, usage' !! key = Some v →
            usage !! key = Some v ∨ ∃ line, line ∈ lines ∧ entry_of_line line key v).
Proof.
  revert usage. induction lines as [|line lines IH]; intros usage; cbn [load_lines].
  - intros [= <-]. split_and!; [|done|by left].
    intros line parsed H. by apply elem_of_nil in H.
  - destruct (load_line usage line) as [usage1| |] eqn:H1; cbn [bind]; [|done|done].
    intros H2. apply load_line_entries in H1 as (Ha & Hb & Hc).
    apply IH in H2 as (Ha' & Hb' & Hc'). split_and!.
    + intros l parsed Hl Hparsed. apply elem_of_cons in Hl as [->|Hl].
      * apply Hb'. by apply Ha.
      * by apply (Ha' l).
    + intros key Hkey. by apply Hb', Hb.
    + intros key v Hv. apply Hc' in Hv as [Hv|(l & Hl & Hv)].
      * apply Hc in Hv as [Hv|Hv]; [by left|]. right. exists line.
        split; [apply elem_of_cons; by left | done].
      * right. exists l. split; [apply elem_of_cons; by right | done].
Qed.

(** A [kubectl top] listing: a header, a full line, a line without the
    memory column and a blank line. *)
Definition top_listing : list string :=
  [ "NAMESPACE   NAME    CPU(cores)   MEMORY(bytes)" +:+ str [Re.newline];
    "prod        web-0   250m         512Mi" +:+ str [Re.newline];
    "prod db-0 1" +:+ str [Re.newline];
    str [Re.newline] ].

Definition top_table : gmap string Usage :=
  match load_usage_data (Some top_listing) with
  | Ok u => u
  | _ => ∅
  end.

End UsageLines.

(** A line of columns separated by whitespace, with any whitespace around
    it, is read by [parse_usage_line] column by column: fewer than three
    columns give the empty dictionary, a missing fourth column reads as
    "0Mi", and columns after the fourth are ignored. *)
Theorem usage_line_read_by_columns (pre post : list ascii) (ws gaps : list (list ascii)) :
  forallb is_space pre = true → forallb is_space post = true →
  forallb is_word ws = true → forallb is_gap gaps = true →
  length ws = S (length gaps) →
  GenerateReportUsage.parse_usage_line (str (pre ++ layout ws gaps ++ post))
  = match map str ws with
    | namespace :: pod :: cpu :: rest =>
        Some {| GenerateReportUsage.line_namespace := namespace;
                GenerateReportUsage.line_pod := pod;
                GenerateReportUsage.line_cpu := cpu;
                GenerateReportUsage.line_memory := default "0Mi" (head rest) |}
    | _ => None
    end.
Proof.
  intros Hpre Hpost Hws Hgaps Hlen. unfold GenerateReportUsage.parse_usage_line.
  rewrite chars_str, columns_of_layout by done.
  by destruct ws as [|a [|b [|c [|d rest]]]].
Qed.

Lemma usage_line_read_by_columns_witness :
  GenerateReportUsage.parse_usage_line
    (str (chars " " ++ layout [chars "prod"; chars "db-0"; chars "1"]
                              [chars "  "; [ascii_of_nat 9]] ++ [Re.newline]))
  = Some {| GenerateReportUsage.line_namespace := "prod";
            GenerateReportUsage.line_pod := "db-0";
            GenerateReportUsage.line_cpu := "1";
            GenerateReportUsage.line_memory := "0Mi" |}.
Proof.
  apply (usage_line_read_by_columns (chars " ") [Re.newline]
           [chars "prod"; chars "db-0"; chars "1"] [chars "  "; [ascii_of_nat 9]]);
    reflexivity.
Defined.

(** The usage table does not depend on the first line of the file nor on
    the lines with fewer than three columns: they are skipped, whatever
    they contain. *)
Theorem usage_header_and_short_lines_skipped (header header' : string) (lines : list string) :
  GenerateReportUsage.load_usage_data (Some (header :: lines))
  = GenerateReportUsage.load_usage_data
      (Some (header' :: List.filter has_three_columns lines)).
Proof.
  unfold GenerateReportUsage.load_usage_data. rewrite !skipn_cons, !drop_0.
  by rewrite load_lines_filter.
Qed.

(** When the usage file is read without error, every line after the header
    with at least three columns has an entry under namespace/pod, and every
    entry of the table holds the parsed CPU and memory columns of such a
    line: nothing else is in the table. *)
Theorem usage_table_entries_come_from_lines (lines : list string)
    (usage : gmap string GenerateReport.Usage) :
  GenerateReportUsage.load_usage_data (Some lines) = Ok usage →
  (∀ line, line ∈ drop 1 lines → has_three_columns line = true →
     ∃ parsed, GenerateReportUsage.parse_usage_line line = Some parsed ∧
               is_Some (usage !! GenerateReportUsage.usage_key parsed)) ∧
  (∀ key v, usage !! key = Some v →
     ∃ line, line ∈ drop 1 lines ∧ has_three_columns line = true ∧
             entry_of_line line key v).
Proof.
  cbn [GenerateReportUsage.load_usage_data]. intros H.
  apply load_lines_entries in H as (Ha & _ & Hc). split.
  - intros line Hl H3. destruct (parse_usage_line_Some _ H3) as [parsed Hp].
    exists parsed. split; [done|]. by apply (Ha line).
  - intros key v Hv. apply Hc in Hv as [Hv|(line & Hl & Hv)].
    + by rewrite lookup_empty in Hv.
    + exists line. split_and!; [done | | done].
      destruct (has_three_columns line) eqn:H3; [done|].
      destruct Hv as (parsed & Hp & _). by rewrite parse_usage_line_None in Hp.
Qed.

Lemma usage_table_entries_come_from_lines_witness :
  (∀ line, line ∈ drop 1 top_listing → has_three_columns line = true →
     ∃ parsed, GenerateReportUsage.parse_usage_line line = Some parsed ∧
               is_Some (top_table !! GenerateReportUsage.usage_key parsed)) ∧
  (∀ key v, top_table !! key = Some v →
     ∃ line, line ∈ drop 1 top_listing ∧ has_three_columns line = true ∧
             entry_of_line line key v).
Proof.
  apply (usage_table_entries_come_from_lines top_listing top_table).
  vm_compute. reflexivity.
Defined.
